(** * SAP GUI automation: connection establishment, login and teardown

    A shallow embedding of [sap_gui.py] and [main.py].  The program drives
    an external automation object, so it is modelled as a computation over
    an explicit world: every call that leaves the program (COM property
    reads and writes, COM method calls, process and filesystem queries,
    locale, random source, clock) is answered by a script supplied by the
    environment, and the computation returns its result, the final state
    of the [SapGui] object and the trace of what it did. *)

From Stdlib Require Import String Ascii ZArith List Bool Lia DecimalString.
Import ListNotations.
Local Open Scope Z_scope.
Local Open Scope list_scope.
Local Open Scope string_scope.

Set Implicit Arguments.

(** ** Python strings

    A [str] is modelled as a [string] whose characters are the code points
    U+0000..U+00FF, so that [len] is [String.length]. *)

Module Str.

Definition truthy (s : string) : bool :=
  match s with EmptyString => false | String _ _ => true end.

(** [c.isdigit()] on U+0000..U+00FF: the decimal digits and the three
    superscript digits U+00B2, U+00B3, U+00B9. *)
Definition isdigit_char (c : ascii) : bool :=
  let n := nat_of_ascii c in
  ((48 <=? n) && (n <=? 57) || (n =? 178) || (n =? 179) || (n =? 185))%nat.

Fixpoint all_chars (p : ascii -> bool) (s : string) : bool :=
  match s with
  | EmptyString => true
  | String c rest => p c && all_chars p rest
  end.

(** [s.isdigit()]: at least one character, and every character a digit. *)
Definition isdigit (s : string) : bool := truthy s && all_chars isdigit_char s.

(** [c.lower()] on U+0000..U+00FF: A-Z and U+00C0..U+00DE except the
    multiplication sign U+00D7 move up by 32. *)
Definition lower_char (c : ascii) : ascii :=
  let n := nat_of_ascii c in
  if ((65 <=? n) && (n <=? 90) || (192 <=? n) && (n <=? 222) && negb (n =? 215))%nat
  then ascii_of_nat (n + 32) else c.

Fixpoint lower (s : string) : string :=
  match s with
  | EmptyString => EmptyString
  | String c rest => String (lower_char c) (lower rest)
  end.

(** Title case of one character, as [capitalize] applies it to the first
    character: a-z and U+00E0..U+00FE except the division sign U+00F7 move
    down by 32, and the sharp s U+00DF becomes "Ss".  The title-case forms
    of U+00B5 and U+00FF lie outside U+0000..U+00FF; the model leaves these
    two characters unchanged. *)
Definition title_char (c : ascii) : string :=
  let n := nat_of_ascii c in
  if ((97 <=? n) && (n <=? 122) || (224 <=? n) && (n <=? 254) && negb (n =? 247))%nat
  then String (ascii_of_nat (n - 32)) EmptyString
  else if (n =? 223)%nat then "Ss"
  else String c EmptyString.

(** [s.capitalize()]: first character in title case, the rest lowered. *)
Definition capitalize (s : string) : string :=
  match s with
  | EmptyString => EmptyString
  | String c rest => title_char c ++ lower rest
  end.

(** [needle in hay] for two strings. *)
Fixpoint contains (needle hay : string) : bool :=
  prefix needle hay ||
  match hay with
  | EmptyString => false
  | String _ rest => contains needle rest
  end.

(** [s.split(sep)] for a one-character separator. *)
Fixpoint split (sep : ascii) (s : string) : list string :=
  match s with
  | EmptyString => [EmptyString]
  | String c rest =>
      if Ascii.eqb c sep then EmptyString :: split sep rest
      else match split sep rest with
           | [] => [String c EmptyString]
           | h :: t => String c h :: t
           end
  end.

(** [str(n)] and [f"{n}"] for an integer. *)
Definition of_Z (n : Z) : string := NilZero.string_of_int (Z.to_int n).

(** [os.path.join(root, name)] of [ntpath] for a [name] that is a plain
    directory entry (no drive, no leading separator), which is what
    [os.walk] lists. *)
Fixpoint ends_with_sep (s : string) : bool :=
  match s with
  | EmptyString => false
  | String c EmptyString =>
      Ascii.eqb c "\"%char || Ascii.eqb c "/"%char || Ascii.eqb c ":"%char
  | String _ rest => ends_with_sep rest
  end.

Definition path_join (root name : string) : string :=
  if truthy root && negb (ends_with_sep root) then root ++ "\" ++ name
  else root ++ name.

End Str.

(** ** Exceptions and results *)

(** The exception classes the program raises or names in an [except]
    clause, and [OtherError] for every other subclass of [Exception] the
    environment may raise (COM errors, OS errors, ...).  Exceptions outside
    [Exception] (keyboard interrupt, interpreter exit) are not modelled. *)
Inductive exn_class :=
| Exception
| SapConfigError
| SapGuiError
| AttributeError
| TypeError
| ValueError
| UnboundLocalError
| LocaleError
| OtherError.

Record exn := mk_exn { class_of : exn_class; str : string }.

Definition class_eqb (a b : exn_class) : bool :=
  match a, b with
  | Exception, Exception
  | SapConfigError, SapConfigError
  | SapGuiError, SapGuiError
  | AttributeError, AttributeError
  | TypeError, TypeError
  | ValueError, ValueError
  | UnboundLocalError, UnboundLocalError
  | LocaleError, LocaleError
  | OtherError, OtherError => true
  | _, _ => false
  end.

(** The outcome of running a piece of the program: a value, a raised
    exception, or [OutOfFuel] when a loop was cut off by the fuel of the
    model (the program would still be running). *)
Inductive result (A : Type) :=
| Ok (a : A)
| Raise (e : exn)
| OutOfFuel.
Arguments Ok {A} a.
Arguments Raise {A} e.
Arguments OutOfFuel {A}.

(** ** SapConfig *)

Record SapConfig := mkSapConfig {
  platform : string;
  client : string;
  username : string;
  password : string;
  language : string;
  path : string
}.

(** [SapConfig.__post_init__] *)
Definition __post_init__ (self : SapConfig) : result unit :=
  if negb (forallb Str.truthy
             [platform self; client self; username self;
              password self; language self; path self])
  then Raise (mk_exn SapConfigError "All SAP configuration fields are required")
  else if negb (Str.isdigit (client self))
  then Raise (mk_exn SapConfigError "SAP client must be numeric")
  else if negb (Nat.eqb (String.length (language self)) 2)
  then Raise (mk_exn SapConfigError "Language code must be 2 characters")
  else Ok tt.

(** The generated [__init__] of the dataclass: store the six fields, then
    run [__post_init__]. *)
Definition SapConfig_init (platform client username password language path : string)
  : result SapConfig :=
  let self := mkSapConfig platform client username password language path in
  match __post_init__ self with
  | Ok _ => Ok self
  | Raise e => Raise e
  | OutOfFuel => OutOfFuel
  end.

(** A [Dict[str, str]] of keyword arguments. *)
Definition kwargs := list (string * string).

Fixpoint lookup (k : string) (d : kwargs) : option string :=
  match d with
  | [] => None
  | (k', v) :: rest => if String.eqb k k' then Some v else lookup k rest
  end.

Definition SapConfig_fields : list string :=
  ["platform"; "client"; "username"; "password"; "language"; "path"].

(** The call of [SapConfig] with the dict unpacked as keywords: a key that
    is not a field, or a missing field without default, is a [TypeError];
    [path] defaults to "saplogon.exe". *)
Definition SapConfig_of_kwargs (sap_args : kwargs) : result SapConfig :=
  if negb (forallb (fun kv => existsb (String.eqb (fst kv)) SapConfig_fields) sap_args)
  then Raise (mk_exn TypeError "__init__() got an unexpected keyword argument")
  else
    match lookup "platform" sap_args, lookup "client" sap_args,
          lookup "username" sap_args, lookup "password" sap_args,
          lookup "language" sap_args with
    | Some p, Some c, Some u, Some pw, Some l =>
        SapConfig_init p c u pw l
          (match lookup "path" sap_args with Some x => x | None => "saplogon.exe" end)
    | _, _, _, _, _ =>
        Raise (mk_exn TypeError "__init__() missing required positional arguments")
    end.

(** ** Values, calls and the world *)

(** The Python values that cross the boundary between the program and the
    libraries it calls.  [VDispatch h] is a [win32com] [CDispatch] proxy for
    the COM object [h]; the scripting API is late-bound, so a reply may be
    a value of any shape and the program finds out when it uses it.  Every
    other constructor is a value that is not a [CDispatch]. *)
#[warnings="-register-all"]
Inductive value :=
| VNone
| VBool (b : bool)
| VInt (n : Z)
| VStr (s : string)
| VList (items : list value)
| VDispatch (h : nat).

(** [bool(v)]; a [CDispatch] proxy is always true. *)
Definition truthy (v : value) : bool :=
  match v with
  | VNone => false
  | VBool b => b
  | VInt n => negb (Z.eqb n 0)
  | VStr s => Str.truthy s
  | VList items => match items with [] => false | _ :: _ => true end
  | VDispatch _ => true
  end.

(** [isinstance(v, win32.CDispatch)] *)
Definition is_CDispatch (v : value) : bool :=
  match v with VDispatch _ => true | _ => false end.

(** [v == s] for a string [s]. *)
Definition eq_str (v : value) (s : string) : bool :=
  match v with VStr s' => String.eqb s' s | _ => false end.

(** Every call that leaves the program and can fail or answer. *)
Inductive call :=
| process_iter
| GetLogicalDriveStrings
| os_walk (top : string)
| Popen (args : string)
| GetObject (pathname : string)
| com_get (obj : nat) (name : string)
| com_set (obj : nat) (name : string) (v : value)
| com_call (obj : nat) (name : string) (args : list value)
| setlocale (locale : string)
| randbelow (n : Z)
| strftime (format : string)
| input (prompt : string).

Inductive outcome :=
| Returns (v : value)
| Raises (e : exn).

Inductive level := INFO | WARNING | ERROR.

(** What a run leaves behind, in the order it happened.  [Entered f]
    records that control entered the function or method [f]. *)
Inductive event :=
| Ev (c : call) (r : outcome)
| Slept (seconds : Z)
| Logged (lvl : level) (msg : string)
| BasicConfig
| Entered (f : string).

(** The environment: the reply to the k-th external call of the run and
    the time that call takes, in whole time units. *)
Record World := mkWorld {
  script : nat -> outcome;
  lag : nat -> Z
}.

(** The attributes of a [SapGui] instance; [None] is an attribute that has
    not been assigned yet (reading it is an [AttributeError]). *)
Record SapGui := mkSapGui {
  config : option SapConfig;
  SapGuiAuto : option value;
  connection : option value;
  session : option value
}.

(** The state of a run: the [SapGui] instance, whether the variable [sap]
    of [main] is bound to it, the number of external calls made so far and
    the clock. *)
Record State := mkState {
  self : SapGui;
  sap_bound : bool;
  tick : nat;
  now : Z
}.

Definition M (A : Type) : Type := State -> result A * State * list event.

Definition ret {A} (a : A) : M A := fun st => (Ok a, st, []).

Definition raise {A} (c : exn_class) (msg : string) : M A :=
  fun st => (Raise (mk_exn c msg), st, []).

Definition out_of_fuel {A} : M A := fun st => (OutOfFuel, st, []).

Definition lift {A} (r : result A) : M A := fun st => (r, st, []).

Definition bind {A B} (m : M A) (k : A -> M B) : M B := fun st =>
  match m st with
  | (Ok a, st1, t1) =>
      match k a st1 with (r, st2, t2) => (r, st2, (t1 ++ t2)%list) end
  | (Raise e, st1, t1) => (Raise e, st1, t1)
  | (OutOfFuel, st1, t1) => (OutOfFuel, st1, t1)
  end.

Declare Scope prog_scope.
Delimit Scope prog_scope with prog.
Notation "x <- m ;; k" := (bind m (fun x => k))
  (at level 61, m at next level, right associativity) : prog_scope.
Notation "m ;; k" := (bind m (fun _ => k))
  (at level 61, right associativity) : prog_scope.
Local Open Scope prog_scope.

(** [try: body  except Exception as e: handler e] *)
Definition try_except {A} (body : M A) (handler : exn -> M A) : M A := fun st =>
  match body st with
  | (Raise e, st1, t1) =>
      match handler e st1 with (r, st2, t2) => (r, st2, (t1 ++ t2)%list) end
  | other => other
  end.

(** [try: body  except c: handler]: only exceptions of class [c]. *)
Definition try_except_class {A} (c : exn_class) (body : M A) (handler : M A) : M A :=
  fun st =>
  match body st with
  | (Raise e, st1, t1) =>
      if class_eqb (class_of e) c then
        match handler st1 with (r, st2, t2) => (r, st2, (t1 ++ t2)%list) end
      else (Raise e, st1, t1)
  | other => other
  end.

(** [try: body  finally: final]: [final] runs on return and on raise; an
    exception of [final] replaces the pending one. *)
Definition try_finally {A} (body : M A) (final : M unit) : M A := fun st =>
  match body st with
  | (OutOfFuel, st1, t1) => (OutOfFuel, st1, t1)
  | (r, st1, t1) =>
      match final st1 with
      | (Ok _, st2, t2) => (r, st2, (t1 ++ t2)%list)
      | (Raise e, st2, t2) => (Raise e, st2, (t1 ++ t2)%list)
      | (OutOfFuel, st2, t2) => (OutOfFuel, st2, (t1 ++ t2)%list)
      end
  end.

Definition enter (f : string) : M unit := fun st => (Ok tt, st, [Entered f]).

Definition logging (lvl : level) (msg : string) : M unit :=
  fun st => (Ok tt, st, [Logged lvl msg]).

Definition logging_basicConfig : M unit := fun st => (Ok tt, st, [BasicConfig]).

(** [time.time()] *)
Definition time_time : M Z := fun st => (Ok (now st), st, []).

(** [time.sleep(seconds)] *)
Definition time_sleep (seconds : Z) : M unit := fun st =>
  (Ok tt, mkState (self st) (sap_bound st) (tick st) (now st + seconds), [Slept seconds]).

Definition set_self (f : SapGui -> SapGui) : M unit := fun st =>
  (Ok tt, mkState (f (self st)) (sap_bound st) (tick st) (now st), []).

Definition set_config (c : SapConfig) : M unit :=
  set_self (fun o => mkSapGui (Some c) (SapGuiAuto o) (connection o) (session o)).
Definition set_SapGuiAuto (v : value) : M unit :=
  set_self (fun o => mkSapGui (config o) (Some v) (connection o) (session o)).
Definition set_connection (v : value) : M unit :=
  set_self (fun o => mkSapGui (config o) (SapGuiAuto o) (Some v) (session o)).
Definition set_session (v : value) : M unit :=
  set_self (fun o => mkSapGui (config o) (SapGuiAuto o) (connection o) (Some v)).

(** [self.name] for an attribute of the instance. *)
Definition attr {A} (field : SapGui -> option A) (name : string) : M A := fun st =>
  match field (self st) with
  | Some v => (Ok v, st, [])
  | None =>
      (Raise (mk_exn AttributeError ("'SapGui' object has no attribute '" ++ name ++ "'")),
       st, [])
  end.

Definition blank : SapGui := mkSapGui None None None None.

Section Program.

Variable w : World.

(** An external call: the world replies, the call is recorded, the clock
    moves by the time the call took. *)
Definition ext (c : call) : M value := fun st =>
  let r := script w (tick st) in
  (match r with Returns v => Ok v | Raises e => Raise e end,
   mkState (self st) (sap_bound st) (S (tick st)) (now st + lag w (tick st)),
   [Ev c r]).

(** [v.name], [v.name = x] and [v.name(args)] on a value obtained from the
    automation interface. *)
Definition py_getattr (v : value) (name : string) : M value :=
  match v with
  | VDispatch h => ext (com_get h name)
  | _ => raise AttributeError ("object has no attribute '" ++ name ++ "'")
  end.

Definition py_setattr (v : value) (name : string) (x : value) : M unit :=
  match v with
  | VDispatch h => ext (com_set h name x) ;; ret tt
  | _ => raise AttributeError ("object has no attribute '" ++ name ++ "'")
  end.

Definition py_call (v : value) (name : string) (args : list value) : M value :=
  match v with
  | VDispatch h => ext (com_call h name args)
  | _ => raise AttributeError ("object has no attribute '" ++ name ++ "'")
  end.

(** [v.lower()] *)
Definition py_lower (v : value) : M string :=
  match v with
  | VStr s => ret (Str.lower s)
  | _ => raise AttributeError "object has no attribute 'lower'"
  end.

(** [needle in v] *)
Definition py_in (needle : string) (v : value) : result bool :=
  match v with
  | VStr s => Ok (Str.contains needle s)
  | VList items => Ok (existsb (fun x => eq_str x needle) items)
  | _ => Raise (mk_exn TypeError "argument is not iterable")
  end.

(** The values a [for] loop draws from [v]. *)
Definition py_iter (v : value) : result (list value) :=
  match v with
  | VList items => Ok items
  | VStr s => Ok (map (fun c => VStr (String c EmptyString)) (list_ascii_of_string s))
  | _ => Raise (mk_exn TypeError "object is not iterable")
  end.

(** *** run_application *)

(** The loop of [is_process_running] over the [proc.info['name']] of the
    processes, in the order [psutil.process_iter] yields them. *)
Fixpoint any_process_matches (process_name : string) (names : list value) : result bool :=
  match names with
  | [] => Ok false
  | VStr name :: rest =>
      if Str.contains (Str.lower process_name) (Str.lower name) then Ok true
      else any_process_matches process_name rest
  | _ :: _ => Raise (mk_exn AttributeError "object has no attribute 'lower'")
  end.

Definition is_process_running (process_name : string) : M bool :=
  procs <- ext process_iter ;;
  names <- lift (py_iter procs) ;;
  lift (any_process_matches process_name names).

(** The loop of [search_drive] over the [(root, dirs, files)] triples of
    [os.walk]. *)
Fixpoint first_match (software : string) (entries : list value) : result (option string) :=
  match entries with
  | [] => Ok None
  | VList [root; _; files] :: rest =>
      match py_in software files with
      | Ok true =>
          match root with
          | VStr r => Ok (Some (Str.path_join r software))
          | _ => Raise (mk_exn TypeError "expected str, bytes or os.PathLike object")
          end
      | Ok false => first_match software rest
      | Raise e => Raise e
      | OutOfFuel => OutOfFuel
      end
  | _ :: _ => Raise (mk_exn ValueError "cannot unpack into (root, dirs, files)")
  end.

Definition search_drive (drive software : string) : M (option string) :=
  tree <- ext (os_walk drive) ;;
  entries <- lift (py_iter tree) ;;
  lift (first_match software entries).

(** [f"{x:.2f}"] for a whole number of time units. *)
Definition fmt_2f (x : Z) : string := Str.of_Z x ++ ".00".

(** The [for drive in drives] loop of [run_application] and what follows
    it. *)
Fixpoint scan_drives (software : string) (start_time : Z) (drives : list string) : M bool :=
  match drives with
  | [] =>
      t <- time_time ;;
      logging WARNING (software ++ " not found. Search time: "
                       ++ fmt_2f (t - start_time) ++ " seconds") ;;
      ret false
  | drive :: rest =>
      software_path <- search_drive drive software ;;
      match software_path with
      | Some p =>
          if Str.truthy p then
            t <- time_time ;;
            logging INFO (software ++ " found at " ++ p ++ ". Starting...") ;;
            ext (Popen p) ;;
            logging INFO ("Time taken: " ++ fmt_2f (t - start_time) ++ " seconds") ;;
            ret true
          else scan_drives software start_time rest
      | None => scan_drives software start_time rest
      end
  end.

Definition run_application (software : string) : M bool :=
  enter "run_application" ;;
  running <- is_process_running software ;;
  if running then
    logging INFO (software ++ " is already running") ;;
    ret true
  else
    start_time <- time_time ;;
    strings <- ext GetLogicalDriveStrings ;;
    drives <- match strings with
              | VStr s => ret (removelast (Str.split Ascii.zero s))
              | _ => raise AttributeError "object has no attribute 'split'"
              end ;;
    scan_drives software start_time drives.

(** *** SapGui *)

Definition DEFAULT_TIMEOUT : Z := 60.
Definition DEFAULT_RETRY_ATTEMPTS : Z := 3.
Definition RETRY_DELAY : Z := 1.

(** The part of an attempt after the launch: attach to the automation
    root and its scripting engine, open the connection, take the first
    session and resize its window.  [Ok tt] is a [return] of the method. *)
Definition attach_session (config : SapConfig) : M unit :=
  auto <- ext (GetObject "SAPGUI") ;;
  set_SapGuiAuto auto ;;
  auto <- attr SapGuiAuto "SapGuiAuto" ;;
  if negb (is_CDispatch auto) then ret tt else
  auto <- attr SapGuiAuto "SapGuiAuto" ;;
  application <- py_getattr auto "GetScriptingEngine" ;;
  if negb (is_CDispatch application) then set_SapGuiAuto VNone ;; ret tt else
  conn <- py_call application "OpenConnection" [VStr (platform config); VBool true] ;;
  set_connection conn ;;
  time_sleep 3 ;;
  conn <- attr connection "connection" ;;
  ses <- py_call conn "Children" [VInt 0] ;;
  set_session ses ;;
  ses <- attr session "session" ;;
  wnd <- py_call ses "findById" [VStr "wnd[0]"] ;;
  py_call wnd "resizeWorkingPane" [VInt 169; VInt 30; VBool false] ;;
  ret tt.

(** The body of the [try] in [_initialize_connection]: one attempt.  It
    ends the method by [return] ([Ok tt]) or leaves by an exception. *)
Definition connect_attempt (config : SapConfig) : M unit :=
  runner <- run_application (path config) ;;
  if negb runner then raise Exception "Failed to run SAPLogon." else
  time_sleep 2 ;;
  attach_session config.

(** The [while retry_count < DEFAULT_RETRY_ATTEMPTS] loop. *)
Fixpoint retry_loop (fuel : nat) (config : SapConfig) (retry_count : Z) : M unit :=
  match fuel with
  | O => out_of_fuel
  | S fuel' =>
      if (retry_count <? DEFAULT_RETRY_ATTEMPTS)%Z then
        try_except (connect_attempt config)
          (fun e =>
             let retry_count := retry_count + 1 in
             if (retry_count =? DEFAULT_RETRY_ATTEMPTS)%Z then
               raise SapGuiError ("Failed to initialize after " ++ Str.of_Z retry_count
                                  ++ " attempts: " ++ str e)
             else
               time_sleep RETRY_DELAY ;;
               retry_loop fuel' config retry_count)
      else ret tt
  end.

Definition _initialize_connection (fuel : nat) (config : SapConfig) : M unit :=
  enter "_initialize_connection" ;;
  set_config config ;;
  retry_loop fuel config 0.

Definition _setup_logging : M unit :=
  enter "_setup_logging" ;;
  logging_basicConfig.

(** [SapGui.__init__] *)
Definition SapGui__init__ (fuel : nat) (sap_args : kwargs) : M unit :=
  enter "__init__" ;;
  try_except
    (config <- lift (SapConfig_of_kwargs sap_args) ;;
     _initialize_connection fuel config ;;
     _setup_logging)
    (fun e => raise SapGuiError ("Failed to initialize SAP GUI: " ++ str e)).

(** [random.randrange(start, stop)]: [start] plus a number below the
    width, which the random source supplies; a reply of the source is
    reduced modulo the width. *)
Definition randrange_value (start stop r : Z) : Z := start + r mod (stop - start).

Definition randrange (start stop : Z) : M Z :=
  if (stop - start <=? 0)%Z then raise ValueError "empty range for randrange()" else
  r <- ext (randbelow (stop - start)) ;;
  match r with
  | VInt r => ret (randrange_value start stop r)
  | _ => raise TypeError "random source did not return an int"
  end.

(** [datetime.now().strftime(format)] *)
Definition now_strftime (format : string) : M string :=
  s <- ext (strftime format) ;;
  match s with
  | VStr s => ret s
  | _ => raise TypeError "strftime did not return a str"
  end.

(** The f-string of [generate_password]. *)
Definition password_format (number : Z) (month year : string) : string :=
  Str.of_Z number ++ Str.capitalize month ++ "#" ++ year.

Definition generate_password : M string :=
  enter "generate_password" ;;
  try_except_class LocaleError
    (ext (setlocale "pt_PT.UTF-8") ;; ret tt)
    (logging WARNING "Failed to set Portuguese locale, using system default") ;;
  number <- randrange 1 999 ;;
  month <- now_strftime "%B" ;;
  year <- now_strftime "%Y" ;;
  ret (password_format number month year).

Definition logon_multiplo : string :=
  "logon m" ++ String (ascii_of_nat 250) "ltiplo".

Definition handle_password_change : M bool :=
  enter "handle_password_change" ;;
  try_except
    (try_except_class LocaleError
       (ext (setlocale "pt_PT.UTF-8") ;; ret tt)
       (logging WARNING "Portuguese locale unavailable, using system default") ;;
     ses <- attr session "session" ;;
     active_window <- py_getattr ses "ActiveWindow" ;;
     name <- py_getattr active_window "Name" ;;
     if negb (eq_str name "wnd[1]") then ret true else
     ses <- attr session "session" ;;
     popup_window <- py_call ses "findById" [VStr "wnd[1]"] ;;
     label <- py_call popup_window "findById" [VStr "usr/lblRSYST-NCODE_TEXT"] ;;
     text <- py_getattr label "Text" ;;
     text <- py_lower text ;;
     if negb (Str.contains "nova senha" text) then ret false else
     new_password <- generate_password ;;
     field <- py_call popup_window "findById" [VStr "usr/pwdRSYST-NCODE"] ;;
     py_setattr field "text" (VStr new_password) ;;
     field <- py_call popup_window "findById" [VStr "usr/pwdRSYST-NCOD2"] ;;
     py_setattr field "text" (VStr new_password) ;;
     button <- py_call popup_window "findById" [VStr "tbar[0]/btn[0]"] ;;
     py_call button "press" [] ;;
     time_sleep 3 ;;
     ses <- attr session "session" ;;
     found <- py_call ses "findById" [VStr "wnd[0]/tbar[0]/btn[15]"; VBool false] ;;
     ret (truthy found))
    (fun e =>
       logging ERROR ("Password change failed: " ++ str e) ;;
       ret false).

Definition _handle_multiple_login : M bool :=
  enter "_handle_multiple_login" ;;
  try_except
    (ses <- attr session "session" ;;
     active_window <- py_getattr ses "ActiveWindow" ;;
     name <- py_getattr active_window "Name" ;;
     (if eq_str name "wnd[1]" then
        ses <- attr session "session" ;;
        popup <- py_call ses "findById" [VStr "wnd[1]"] ;;
        text <- py_getattr popup "Text" ;;
        multiple <- lift (py_in logon_multiplo text) ;;
        if (multiple : bool) then
          ses <- attr session "session" ;;
          option1 <- py_call ses "findById" [VStr "wnd[1]/usr/radMULTI_LOGON_OPT1"] ;;
          py_call option1 "select" [] ;;
          ses <- attr session "session" ;;
          button <- py_call ses "findById" [VStr "wnd[1]/tbar[0]/btn[0]"] ;;
          py_call button "press" [] ;;
          ret tt
        else ret tt
      else ret tt) ;;
     ret true)
    (fun e =>
       logging ERROR ("Multiple login handling failed: " ++ str e) ;;
       ret false).

Definition _verify_login : M bool :=
  enter "_verify_login" ;;
  try_except
    (ses <- attr session "session" ;;
     found <- py_call ses "findById" [VStr "wnd[0]/tbar[0]/btn[15]"] ;;
     ret (truthy found))
    (fun _ => ret false).

Definition close_connection : M unit :=
  enter "close_connection" ;;
  try_except
    (conn <- attr connection "connection" ;;
     (if truthy conn then
        conn <- attr connection "connection" ;;
        py_call conn "CloseSession" [VStr "ses[0]"] ;;
        set_connection VNone
      else ret tt) ;;
     auto <- attr SapGuiAuto "SapGuiAuto" ;;
     (if truthy auto then set_SapGuiAuto VNone else ret tt) ;;
     logging INFO "SAP connection closed safely")
    (fun e => logging ERROR ("Error closing connection: " ++ str e)).

(** [self.session.findById(path).text = value]: the right-hand side is
    evaluated first. *)
Definition set_text (path : string) (value : M string) : M unit :=
  x <- value ;;
  ses <- attr session "session" ;;
  field <- py_call ses "findById" [VStr path] ;;
  py_setattr field "text" (VStr x).

(** [self.session.findById("wnd[0]").sendVKey(0)] *)
Definition sendVKey0 : M unit :=
  ses <- attr session "session" ;;
  wnd <- py_call ses "findById" [VStr "wnd[0]"] ;;
  py_call wnd "sendVKey" [VInt 0] ;;
  ret tt.

Definition config_field (f : SapConfig -> string) : M string :=
  c <- attr config "config" ;;
  ret (f c).

(** The first statements of the [try] in [sapLogin]: set the login
    credentials and submit them. *)
Definition submit_credentials : M unit :=
  set_text "wnd[0]/usr/txtRSYST-MANDT" (config_field client) ;;
  set_text "wnd[0]/usr/txtRSYST-BNAME" (config_field username) ;;
  set_text "wnd[0]/usr/pwdRSYST-BCODE" (config_field password) ;;
  set_text "wnd[0]/usr/txtRSYST-LANGU" (config_field language) ;;
  sendVKey0 ;;
  time_sleep 2.

(** The body of the [try] in [sapLogin]. *)
Definition sapLogin_try : M bool :=
  submit_credentials ;;
  changed <- handle_password_change ;;
  if negb changed then ret false else
  resolved <- _handle_multiple_login ;;
  if resolved then _verify_login else
  ret false.

Definition sapLogin : M bool :=
  enter "sapLogin" ;;
  try_except sapLogin_try
    (fun e =>
       logging ERROR ("Login failed: " ++ str e) ;;
       close_connection ;;
       ret false).

Definition sapLogout : M unit :=
  enter "sapLogout" ;;
  try_except
    (set_text "wnd[0]/tbar[0]/okcd" (ret "/nex") ;;
     sendVKey0 ;;
     logging INFO "Successfully logged out")
    (fun e => logging ERROR ("Logout failed: " ++ str e)).

(** The [while time.time() - start_time < timeout] loop of
    [wait_for_element]. *)
Fixpoint wait_loop (fuel : nat) (element_id : string) (timeout start_time : Z) : M bool :=
  match fuel with
  | O => out_of_fuel
  | S fuel' =>
      t <- time_time ;;
      if (t - start_time <? timeout)%Z then
        found <- try_except
                   (ses <- attr session "session" ;;
                    element <- py_call ses "findById" [VStr element_id] ;;
                    ret (truthy element))
                   (fun _ => time_sleep 1 ;; ret false) ;;
        if (found : bool) then ret true
        else wait_loop fuel' element_id timeout start_time
      else ret false
  end.

Definition wait_for_element (fuel : nat) (element_id : string) (timeout : Z) : M bool :=
  enter "wait_for_element" ;;
  start_time <- time_time ;;
  wait_loop fuel element_id timeout start_time.

Definition perform_operation (fuel : nat) (command : string)
    (element_to_wait_for : option string) (timeout : Z) : M bool :=
  enter "perform_operation" ;;
  try_except
    (set_text "wnd[0]/tbar[0]/okcd" (ret command) ;;
     sendVKey0 ;;
     match element_to_wait_for with
     | Some (String c rest as element) =>
         found <- wait_for_element fuel element timeout ;;
         if negb found then
           raise SapGuiError ("Element " ++ element ++ " not found after command " ++ command)
         else
           logging INFO ("Command " ++ command ++ " executed, element "
                         ++ element ++ " found")
     | _ => logging INFO ("Command " ++ command ++ " executed")
     end ;;
     ret true)
    (fun e =>
       logging ERROR ("Operation failed - Command: " ++ command ++ ", Error: " ++ str e) ;;
       raise SapGuiError ("Operation failed: " ++ str e)).

(** *** main.py *)

Definition get_sap_config : kwargs :=
  [("platform", "SAP PRD"); ("client", "110"); ("username", "RPA_USER");
   ("password", "Dezembro#2024"); ("language", "PT")].

Definition create_sales_order (fuel : nat) : M (option string) :=
  enter "create_sales_order" ;;
  try_except
    (perform_operation fuel "/nVA01" (Some "wnd[0]/usr/ctxtVBAK-AUART") DEFAULT_TIMEOUT ;;
     ext (input "Press Enter after VA01 transaction is open...") ;;
     ret (Some "Order created successfully"))
    (fun e =>
       logging ERROR ("Failed to create sales order: " ++ str e) ;;
       ret None).

(** [sap = SapGui(args)]: a new instance is initialised, and [sap] is bound
    to it when [__init__] returns. *)
Definition new_SapGui (fuel : nat) (sap_args : kwargs) : M unit :=
  (fun st => (Ok tt, mkState blank (sap_bound st) (tick st) (now st), [])) ;;
  SapGui__init__ fuel sap_args ;;
  (fun st => (Ok tt, mkState (self st) true (tick st) (now st), [])).

(** Reading the local variable [sap]. *)
Definition read_sap : M unit := fun st =>
  if sap_bound st then (Ok tt, st, [])
  else (Raise (mk_exn UnboundLocalError
                 "cannot access local variable 'sap' where it is not associated with a value"),
        st, []).

(** The body of the [try] in [main]. *)
Definition main_try (fuel : nat) : M unit :=
  new_SapGui fuel get_sap_config ;;
  read_sap ;;
  logged_in <- sapLogin ;;
  if negb logged_in then raise Exception "Failed to login to SAP" else
  read_sap ;;
  result <- create_sales_order fuel ;;
  match result with
  | Some (String c rest as r) => logging INFO r
  | _ => ret tt
  end.

(** The [finally] clause of [main]. *)
Definition main_finally : M unit :=
  try_except
    (read_sap ;;
     sapLogout ;;
     read_sap ;;
     close_connection)
    (fun e => logging ERROR ("Cleanup failed: " ++ str e)).

Definition main (fuel : nat) : M unit :=
  enter "main" ;;
  logging_basicConfig ;;
  try_finally
    (try_except (main_try fuel)
       (fun e => logging ERROR ("SAP automation failed: " ++ str e)))
    main_finally.

End Program.

(** The state in which [main] starts: no instance yet, [sap] unbound. *)
Definition initial : State := mkState blank false 0 0.

(** A world that replies with the outcomes of [replies] in turn, every call
    taking one time unit; after the list it raises. *)
Definition world_of (replies : list outcome) : World :=
  mkWorld (fun k => nth k replies (Raises (mk_exn OtherError "end of script")))
          (fun _ => 1).

Unset Implicit Arguments.

(** ** Runs and what is observed of them *)

Definition Run (A : Type) : Type := (result A * State * list event)%type.

Definition result_of {A} (x : result A * State * list event) : result A := fst (fst x).
Definition state_of {A} (x : result A * State * list event) : State := snd (fst x).
Definition trace_of {A} (x : result A * State * list event) : list event := snd x.

(** The values the reads of a window's [Name] returned. *)
Definition name_read (e : event) : list value :=
  match e with
  | Ev (com_get _ name) (Returns v) => if String.eqb name "Name" then [v] else []
  | _ => []
  end.

Definition window_names (tr : list event) : list value := flat_map name_read tr.

(** The values the reads of an element's [Text] returned. *)
Definition text_read (e : event) : list value :=
  match e with
  | Ev (com_get _ name) (Returns v) => if String.eqb name "Text" then [v] else []
  | _ => []
  end.

Definition text_reads (tr : list event) : list value := flat_map text_read tr.

(** The lookups of the logged-in indicator of the primary toolbar, as
    [_verify_login] makes them, and whether each found the element. *)
Definition indicator_lookup (e : event) : list bool :=
  match e with
  | Ev (com_call _ name [VStr p]) r =>
      if String.eqb name "findById" && String.eqb p "wnd[0]/tbar[0]/btn[15]"
      then [match r with Returns v => truthy v | Raises _ => false end]
      else []
  | _ => []
  end.

Definition indicator_lookups (tr : list event) : list bool := flat_map indicator_lookup tr.

(** The presses and selections made on elements. *)
Definition dismissal (e : event) : list string :=
  match e with
  | Ev (com_call _ name _) _ =>
      if String.eqb name "press" || String.eqb name "select" then [name] else []
  | _ => []
  end.

Definition dismissals (tr : list event) : list string := flat_map dismissal tr.

(** The time spent in [time.sleep]. *)
Definition sleep_of (e : event) : Z :=
  match e with Slept d => d | _ => 0 end.

Definition slept (tr : list event) : Z := fold_right (fun e acc => sleep_of e + acc) 0 tr.

(** How many times control entered [f]. *)
Definition is_entry (f : string) (e : event) : bool :=
  match e with Entered g => String.eqb g f | _ => false end.

Definition invocations (f : string) (tr : list event) : nat :=
  length (filter (is_entry f) tr).

(** The steps of a run that bear on teardown: a login that ended in its
    [except] clause, a logout, a release of the connection. *)
Inductive teardown_step := login_failed | logout | release.

Definition teardown_obs (e : event) : list teardown_step :=
  match e with
  | Entered f =>
      if String.eqb f "sapLogout" then [logout]
      else if String.eqb f "close_connection" then [release]
      else []
  | Logged ERROR msg => if prefix "Login failed: " msg then [login_failed] else []
  | _ => []
  end.

Definition teardown (tr : list event) : list teardown_step := flat_map teardown_obs tr.

(** A piece of the program that always comes back, leaves the binding of
    [sap] alone and does nothing that bears on teardown. *)
Definition tame {A} (m : M A) : Prop :=
  forall st,
    result_of (m st) <> OutOfFuel /\
    sap_bound (state_of (m st)) = sap_bound st /\
    teardown (trace_of (m st)) = [].

(** The world lets time pass: no call takes negative time, and a call that
    returns a false value takes at least one time unit. *)
Definition responsive (w : World) : Prop :=
  (forall k, 0 <= lag w k) /\
  (forall k v, script w k = Returns v -> truthy v = false -> 1 <= lag w k).

(** What [__post_init__] tests: all six fields non-empty, every character
    of the client passing [isdigit], the language code of length 2.  The
    invariant in the words of the data model is [stated_config]. *)
Definition valid_config (c : SapConfig) : Prop :=
  platform c <> "" /\ client c <> "" /\ username c <> "" /\
  password c <> "" /\ language c <> "" /\ path c <> "" /\
  (forall ch, In ch (list_ascii_of_string (client c)) -> Str.isdigit_char ch = true) /\
  String.length (language c) = 2%nat.

(** The instance holds handles to the automation root, the connection and
    the session. *)
Definition attached (o : SapGui) : Prop :=
  exists a c s,
    SapGuiAuto o = Some (VDispatch a) /\
    connection o = Some (VDispatch c) /\
    session o = Some (VDispatch s).

(** The instance holds something that is not an automation object where
    the automation root should be. *)
Definition unattached (o : SapGui) : Prop :=
  exists v, SapGuiAuto o = Some v /\ is_CDispatch v = false.

(** The state after [time.sleep(seconds)]. *)
Definition after_sleep (seconds : Z) (st : State) : State :=
  mkState (self st) (sap_bound st) (tick st) (now st + seconds).

(** The state after [self.config = config]. *)
Definition with_config (c : SapConfig) (st : State) : State :=
  mkState (mkSapGui (Some c) (SapGuiAuto (self st)) (connection (self st)) (session (self st)))
          (sap_bound st) (tick st) (now st).

(** [attempts w config n st r st' tr]: starting in [st], [n] attempts were
    made, each but the last left by an exception and was followed by a
    sleep of [RETRY_DELAY]; the last ended with [r] in [st'], and [tr] is
    what the attempts and the sleeps between them left behind. *)
Inductive attempts (w : World) (config : SapConfig)
  : nat -> State -> result unit -> State -> list event -> Prop :=
| attempts_last st r st' tr :
    connect_attempt w config st = (r, st', tr) ->
    attempts w config 1 st r st' tr
| attempts_retry n st e st1 t1 r st' tr :
    connect_attempt w config st = (Raise e, st1, t1) ->
    attempts w config n (after_sleep RETRY_DELAY st1) r st' tr ->
    attempts w config (S n) st r st' (t1 ++ Slept RETRY_DELAY :: tr)%list.

(** The outcome of connection establishment as the launcher's contract
    words it: a handle, or an error of the launcher. *)
Definition handle_or_error (x : result unit * State * list event) : Prop :=
  (result_of x = Ok tt /\ attached (self (state_of x))) \/
  (exists msg, result_of x = Raise (mk_exn SapGuiError msg)).

(** ** Specifications of the methods

    What each method guarantees about its run, stated once and proved by
    following every path through the method. *)

(** Nothing in the trace bears on the login dialogue: no window name or
    text was read, the indicator was not looked up, nothing was pressed. *)
Definition unobserved (t : list event) : Prop :=
  window_names t = [] /\ text_reads t = [] /\ indicator_lookups t = [] /\ dismissals t = [].

Definition submit_post (x : Run unit) : Prop :=
  result_of x <> OutOfFuel /\ unobserved (trace_of x).

Definition hpc_post (x : Run bool) : Prop :=
  let '(r, _, t) := x in
  (exists b, r = Ok b) /\
  (length (window_names t) <= 1)%nat /\
  (window_names t = [] -> r = Ok false) /\
  (window_names t = [VStr "wnd[0]"] -> r = Ok true) /\
  indicator_lookups t = [] /\
  (hd_error (window_names t) = Some (VStr "wnd[1]") ->
   forall s, hd_error (text_reads t) = Some (VStr s) ->
   Str.contains "nova senha" (Str.lower s) = false ->
   r = Ok false /\ dismissals t = [] /\ window_names t = [VStr "wnd[1]"] /\
   exists pre h, t = (pre ++ [Ev (com_get h "Text") (Returns (VStr s))])%list) /\
  (hd_error (window_names t) = Some (VStr "wnd[1]") -> text_reads t = [] -> r = Ok false).

Definition hml_post (x : Run bool) : Prop :=
  let '(r, _, t) := x in
  (exists b, r = Ok b) /\
  (length (window_names t) <= 1)%nat /\
  (window_names t = [VStr "wnd[0]"] -> r = Ok true) /\
  indicator_lookups t = [].

Definition verify_post (x : Run bool) : Prop :=
  let '(r, _, t) := x in
  window_names t = [] /\
  ((r = Ok true /\ indicator_lookups t = [true]) \/
   (r = Ok false /\ indicator_lookups t <> [true])).

Definition close_post (st : State) (x : Run unit) : Prop :=
  let '(r, st1, t) := x in
  r = Ok tt /\ unobserved t /\ teardown t = [release] /\ sap_bound st1 = sap_bound st.

Definition logout_post (st : State) (x : Run unit) : Prop :=
  let '(r, st1, t) := x in
  r = Ok tt /\ teardown t = [logout] /\ sap_bound st1 = sap_bound st.

Definition attach_post (x : Run unit) : Prop :=
  let '(r, st1, t) := x in
  match r with
  | Ok _ => attached (self st1) \/ unattached (self st1)
  | Raise _ => True
  | OutOfFuel => False
  end.

(** The stages a run of [sapLogin] goes through: it ends in the [except]
    clause before the password-change check, or at that check, or at the
    multi-session check, or with the verification. *)
Definition login_stages (w : World) (x : Run bool) : Prop :=
  let '(r, st', tr) := x in
  exists t1, unobserved t1 /\
   ((r = Ok false /\ tr = t1) \/
    (exists st1 st2 b2 t2,
       handle_password_change w st1 = (Ok b2, st2, t2) /\
       ((b2 = false /\ r = Ok false /\ tr = (t1 ++ t2)%list) \/
        (b2 = true /\ exists st3 b3 t3,
           _handle_multiple_login w st2 = (Ok b3, st3, t3) /\
           ((b3 = false /\ r = Ok false /\ tr = (t1 ++ t2 ++ t3)%list) \/
            (b3 = true /\ exists t4,
               _verify_login w st3 = (r, st', t4) /\
               tr = (t1 ++ t2 ++ t3 ++ t4)%list)))))).

(** The state after a [close_connection] whose [CloseSession] returned. *)
Definition released_state (w : World) (st : State) : State :=
  mkState (mkSapGui (config (self st)) (Some VNone) (Some VNone) (session (self st)))
          (sap_bound st) (S (tick st)) (now st + lag w (tick st)).

(** A poll that returned a boolean, slept no longer than until the
    deadline, came back no later than the deadline plus the time one call
    takes, and did nothing that bears on teardown. *)
Definition polled (w : World) (st : State) (deadline : Z) (x : Run bool) : Prop :=
  exists b st' tr,
    x = (Ok b, st', tr) /\
    0 <= slept tr <= Z.max 0 (deadline - now st) /\
    teardown tr = [] /\
    sap_bound st' = sap_bound st /\
    forall L, (forall k, lag w k <= L) -> now st' <= Z.max (now st) (deadline + L).

Definition step_eqb (a b : teardown_step) : bool :=
  match a, b with
  | login_failed, login_failed | logout, logout | release, release => true
  | _, _ => false
  end.

Definition count_step (s : teardown_step) (l : list teardown_step) : nat :=
  length (filter (step_eqb s) l).

Definition login_post (st : State) (x : Run bool) : Prop :=
  let '(r, st', tr) := x in
  sap_bound st' = sap_bound st /\
  ((exists b, r = Ok b) /\ teardown tr = [] \/
   r = Ok false /\ teardown tr = [login_failed; release]).

Definition acquired_post (st : State) (x : Run unit) : Prop :=
  let '(r, st', tr) := x in
  r <> OutOfFuel /\ teardown tr = [] /\
  match r with
  | Ok _ => sap_bound st' = true
  | _ => sap_bound st' = sap_bound st
  end.

Definition main_try_post (x : Run unit) : Prop :=
  let '(r, st', tr) := x in
  r <> OutOfFuel /\
  (sap_bound st' = false /\ teardown tr = [] \/
   sap_bound st' = true /\ (teardown tr = [] \/ teardown tr = [login_failed; release])).

Definition main_finally_post (st : State) (x : Run unit) : Prop :=
  let '(r, st', tr) := x in
  r = Ok tt /\ sap_bound st' = sap_bound st /\
  teardown tr = if sap_bound st then [logout; release] else [].

(** The reading of the launcher's error contract that makes a failed
    search fatal: when the first search finds nothing, the launcher fails
    after that single search. *)
Definition not_found_is_fatal (w : World) (config : SapConfig) (st : State) : Prop :=
  result_of (run_application w (path config) (with_config config st)) = Ok false ->
  (exists e, result_of (_initialize_connection w 3 config st) = Raise e) /\
  invocations "run_application" (trace_of (_initialize_connection w 3 config st)) = 1%nat.

(** Teardown in the strict sense: one logout and one release. *)
Definition teardown_once (tr : list event) : Prop :=
  invocations "sapLogout" tr = 1%nat /\ invocations "close_connection" tr = 1%nat.

(** ** Concrete worlds and states *)

Definition a_config : SapConfig :=
  mkSapConfig "SAP PRD" "110" "RPA_USER" "Dezembro#2024" "PT" "saplogon.exe".

(** An instance that holds the handles 1, 3 and 4. *)
Definition attached_state : State :=
  mkState (mkSapGui (Some a_config) (Some (VDispatch 1)) (Some (VDispatch 3))
                    (Some (VDispatch 4)))
          true 0 0.

(** The application is running and every step of the attachment answers;
    after that the script is over, so the first call of the login raises. *)
Definition login_raises : World :=
  world_of [Returns (VList [VStr "SAPLogon.exe"]);
            Returns (VDispatch 1); Returns (VDispatch 2); Returns (VDispatch 3);
            Returns (VDispatch 4); Returns (VDispatch 5); Returns VNone].

(** The application is running, and what [GetObject] hands back is not a
    [CDispatch] proxy. *)
Definition no_automation_root : World :=
  world_of [Returns (VList [VStr "SAPLogon.exe"]); Returns VNone].

(** The drive strings of a machine with the single volume C. *)
Definition drive_C : string := String "C" (String ":" (String "\" (String Ascii.zero ""))).

(** A search that finds nothing: another process is running, and the walk
    of the only volume lists one directory without the executable. *)
Definition search_without_match : list outcome :=
  [Returns (VList [VStr "explorer.exe"]);
   Returns (VStr drive_C);
   Returns (VList [VList [VStr "C:\"; VList []; VList [VStr "notes.txt"]]])].

(** Nothing is found, three times over. *)
Definition nothing_found : World :=
  world_of (search_without_match ++ search_without_match ++ search_without_match)%list.

(** Nothing is found at the first attempt; at the second the application
    is running and the attachment goes through. *)
Definition found_on_retry : World :=
  world_of (search_without_match ++
            [Returns (VList [VStr "explorer.exe"; VStr "SAPLogon.exe"]);
             Returns (VDispatch 1); Returns (VDispatch 2); Returns (VDispatch 3);
             Returns (VDispatch 4); Returns (VDispatch 5); Returns VNone])%list.

(** The replies to the credentials being written and submitted. *)
Definition credentials_accepted : list outcome :=
  [Returns (VDispatch 10); Returns VNone; Returns (VDispatch 11); Returns VNone;
   Returns (VDispatch 12); Returns VNone; Returns (VDispatch 13); Returns VNone;
   Returns (VDispatch 14); Returns VNone].

(** A login during which the primary window stays the active one and the
    indicator is found. *)
Definition plain_login : World :=
  world_of (credentials_accepted ++
            [Returns VNone; Returns (VDispatch 20); Returns (VStr "wnd[0]");
             Returns (VDispatch 21); Returns (VStr "wnd[0]");
             Returns (VDispatch 30)])%list.

(** A login during which a dialog with an unknown label comes up. *)
Definition unknown_dialog : World :=
  world_of (credentials_accepted ++
            [Returns VNone; Returns (VDispatch 20); Returns (VStr "wnd[1]");
             Returns (VDispatch 21); Returns (VDispatch 22);
             Returns (VStr "Licence expired")])%list.

(** The locale is set, the random source answers 41, the month is
    December and the year 2025. *)
Definition december_2025 : World :=
  world_of [Returns VNone; Returns (VInt 41); Returns (VStr "December");
            Returns (VStr "2025")].

(** Every probe raises. *)
Definition element_never_appears : World := world_of [].

(** ** The rest of [sap_gui.py]

    The helpers of [SapGui] for single elements and table cells, and
    [get_dates]. *)

(** [sep.join(parts)] *)
Fixpoint join_with (sep : string) (parts : list string) : string :=
  match parts with
  | [] => ""
  | x :: rest =>
      match rest with
      | [] => x
      | _ :: _ => x ++ sep ++ join_with sep rest
      end
  end.

(** The path [scroll_to_field] falls back to: the path of the field
    without its last component. *)
Definition parent_path (field_path : string) : string :=
  join_with "/" (removelast (Str.split "/" field_path)).

(** [v + 1] *)
Definition add_one (v : value) : result value :=
  match v with
  | VInt n => Ok (VInt (n + 1))
  | VBool b => Ok (VInt (if b then 2 else 1))
  | _ => Raise (mk_exn TypeError "unsupported operand type(s) for +")
  end.

Section Elements.

Variable w : World.

Definition scroll_to_field (field_path : string) : M unit :=
  enter "scroll_to_field" ;;
  try_except
    (ses <- attr session "session" ;;
     field <- py_call w ses "findById" [VStr field_path] ;;
     py_call w field "setFocus" [] ;;
     ret tt)
    (fun _ =>
       let parent_path := parent_path field_path in
       ses <- attr session "session" ;;
       parent <- py_call w ses "findById" [VStr parent_path] ;;
       bar <- py_getattr w parent "verticalScrollbar" ;;
       position <- py_getattr w bar "position" ;;
       position <- lift (add_one position) ;;
       py_setattr w bar "position" position).

Definition check_element_exists (element_path : string) : M bool :=
  enter "check_element_exists" ;;
  try_except
    (ses <- attr session "session" ;;
     py_call w ses "findById" [VStr element_path] ;;
     ret true)
    (fun _ => ret false).

(** The method returns the [Text] of the element, or [None]. *)
Definition get_sap_element_text (element_path : string) : M value :=
  enter "get_sap_element_text" ;;
  try_except
    (ses <- attr session "session" ;;
     element <- py_call w ses "FindById" [VStr element_path] ;;
     py_getattr w element "Text")
    (fun e =>
       logging ERROR ("Failed to get element text: " ++ str e) ;;
       ret VNone).

(** [column_path.format(row_number)] is left to the caller of the model:
    the path of the cell in a row, or the exception [str.format] raises
    for the template. *)
Variable format : string -> Z -> result string.

(** The [while True] loop of [set_cell_value]. *)
Fixpoint cell_loop (fuel : nat) (column_path text : string) (row_number : Z) : M Z :=
  match fuel with
  | O => out_of_fuel
  | S fuel' =>
      cell_path <- lift (format column_path row_number) ;;
      ses <- attr session "session" ;;
      cell <- py_call w ses "findById" [VStr cell_path] ;;
      empty <- (if negb (truthy cell) then ret true
                else t <- py_getattr w cell "Text" ;; ret (eq_str t "")) ;;
      if (empty : bool) then
        py_setattr w cell "Text" (VStr text) ;;
        py_call w cell "setFocus" [] ;;
        py_setattr w cell "caretPosition" (VInt (Z.of_nat (String.length text))) ;;
        sendVKey0 w ;;
        ret row_number
      else cell_loop fuel' column_path text (row_number + 1)
  end.

Definition set_cell_value (fuel : nat) (column_path text : string) : M Z :=
  enter "set_cell_value" ;;
  try_except
    (cell_loop fuel column_path text 0)
    (fun e =>
       logging ERROR ("Failed to set cell value: " ++ str e) ;;
       raise SapGuiError ("Failed to set cell value: " ++ str e)).

End Elements.

(** *** wait_for_save_as_dialog *)

Section Dialogs.

(** [gw.getWindowsWithTitle(title)] is left to the caller of the model: a
    call of the window library, with whatever it does and returns. *)
Variable getWindowsWithTitle : string -> M value.

(** The [for _ in range(max_attempts)] loop of [wait_for_save_as_dialog],
    with the number of attempts that remain. *)
Fixpoint save_as_loop (remaining : nat) (title : string) : M bool :=
  match remaining with
  | O => ret false
  | S remaining' =>
      windows <- getWindowsWithTitle title ;;
      if truthy windows then ret true
      else time_sleep 1 ;; save_as_loop remaining' title
  end.

Definition wait_for_save_as_dialog (title : string) (max_attempts : Z) : M bool :=
  enter "wait_for_save_as_dialog" ;;
  save_as_loop (Z.to_nat max_attempts) title.

End Dialogs.

(** *** get_dates *)

(** The date part of a [datetime]; the time of day plays no part in
    [get_dates]. *)
Module datetime.

Record date := mk { year : Z; month : Z; day : Z }.

Definition is_leap (y : Z) : bool :=
  Z.eqb (y mod 4) 0 && (negb (Z.eqb (y mod 100) 0) || Z.eqb (y mod 400) 0).

Definition days_in_month (y m : Z) : Z :=
  if Z.eqb m 2 then (if is_leap y then 29 else 28)
  else if Z.eqb m 4 || Z.eqb m 6 || Z.eqb m 9 || Z.eqb m 11 then 30
  else 31.

(** The dates the class represents: years 1 to 9999. *)
Definition valid (d : date) : Prop :=
  1 <= year d <= 9999 /\ 1 <= month d <= 12 /\
  1 <= day d <= days_in_month (year d) (month d).

(** [d.replace(day=n)] *)
Definition replace_day (d : date) (n : Z) : result date :=
  if (1 <=? n)%Z && (n <=? days_in_month (year d) (month d))%Z
  then Ok (mk (year d) (month d) n)
  else Raise (mk_exn ValueError "day is out of range for month").

(** [d - timedelta(days=1)]; before the first day of year 1 the
    subtraction overflows. *)
Definition minus_one_day (d : date) : result date :=
  if (1 <? day d)%Z then Ok (mk (year d) (month d) (day d - 1))
  else if (1 <? month d)%Z
  then Ok (mk (year d) (month d - 1) (days_in_month (year d) (month d - 1)))
  else if (1 <? year d)%Z then Ok (mk (year d - 1) 12 31)
  else Raise (mk_exn OtherError "date value out of range").

(** Two digits, zero-padded: [%d] and [%m]. *)
Definition two_digits (n : Z) : string :=
  if (n <? 10)%Z then "0" ++ Str.of_Z n else Str.of_Z n.

(** [d.strftime("%d.%m.%Y")], for the years from 1000 on, which [%Y]
    prints as they are. *)
Definition strftime_dmY (d : date) : string :=
  two_digits (day d) ++ "." ++ two_digits (month d) ++ "." ++ Str.of_Z (year d).

End datetime.

(** [get_dates], as a function of what [datetime.now()] returned. *)
Definition get_dates (current_date : datetime.date) : result (string * string) :=
  match datetime.replace_day current_date 1 with
  | Ok first_day_current =>
      match datetime.minus_one_day first_day_current with
      | Ok prev_month_last =>
          match datetime.replace_day prev_month_last 1 with
          | Ok start => Ok (datetime.strftime_dmY start, datetime.strftime_dmY current_date)
          | Raise e => Raise e
          | OutOfFuel => OutOfFuel
          end
      | Raise e => Raise e
      | OutOfFuel => OutOfFuel
      end
  | Raise e => Raise e
  | OutOfFuel => OutOfFuel
  end.

(** ** More of what is observed of a run *)

(** The paths looked up with [findById]. *)
Definition lookup_of (e : event) : list string :=
  match e with
  | Ev (com_call _ name [VStr p]) _ => if String.eqb name "findById" then [p] else []
  | _ => []
  end.

Definition lookups (tr : list event) : list string := flat_map lookup_of tr.

(** The values assigned to the attribute [name] of an element. *)
Definition assign_of (name : string) (e : event) : list value :=
  match e with
  | Ev (com_set _ name' v) _ => if String.eqb name' name then [v] else []
  | _ => []
  end.

Definition assigned (name : string) (tr : list event) : list value :=
  flat_map (assign_of name) tr.

(** The reads and the writes of a scrollbar's [position]: the object and
    the value. *)
Definition position_read (e : event) : list (nat * value) :=
  match e with
  | Ev (com_get b name) (Returns v) => if String.eqb name "position" then [(b, v)] else []
  | _ => []
  end.

Definition position_reads (tr : list event) : list (nat * value) :=
  flat_map position_read tr.

Definition position_write (e : event) : list (nat * value) :=
  match e with
  | Ev (com_set b name v) _ => if String.eqb name "position" then [(b, v)] else []
  | _ => []
  end.

Definition position_writes (tr : list event) : list (nat * value) :=
  flat_map position_write tr.

(** The elements on which [setFocus] returned. *)
Definition focus_of (e : event) : list nat :=
  match e with
  | Ev (com_call h name []) (Returns _) => if String.eqb name "setFocus" then [h] else []
  | _ => []
  end.

Definition focused (tr : list event) : list nat := flat_map focus_of tr.

(** The windows on which the confirm key was sent and returned. *)
Definition key_of (e : event) : list nat :=
  match e with
  | Ev (com_call h name [VInt 0]) (Returns _) =>
      if String.eqb name "sendVKey" then [h] else []
  | _ => []
  end.

Definition keys_sent (tr : list event) : list nat := flat_map key_of tr.

(** The messages logged at a level. *)
Definition logged_at (lvl : level) (e : event) : list string :=
  match e with
  | Logged l msg =>
      match lvl, l with
      | INFO, INFO | WARNING, WARNING | ERROR, ERROR => [msg]
      | _, _ => []
      end
  | _ => []
  end.

Definition messages (lvl : level) (tr : list event) : list string :=
  flat_map (logged_at lvl) tr.

(** The executables started and the drives walked. *)
Definition launch_of (e : event) : list string :=
  match e with Ev (Popen p) _ => [p] | _ => [] end.

Definition launches (tr : list event) : list string := flat_map launch_of tr.

Definition walk_of (e : event) : list string :=
  match e with Ev (os_walk top) _ => [top] | _ => [] end.

Definition walks (tr : list event) : list string := flat_map walk_of tr.

(** [p] is the path of [software] in a directory that a walk of the run
    listed with [software] among its files. *)
Definition listed (software p : string) (tr : list event) : Prop :=
  exists drive tree entries root dirs files,
    In (Ev (os_walk drive) (Returns tree)) tr /\
    py_iter tree = Ok entries /\
    In (VList [VStr root; dirs; files]) entries /\
    py_in software files = Ok true /\
    p = Str.path_join root software.

(** The lookups of an element that returned, and whether what each
    returned is true. *)
Definition answer_of (element_id : string) (e : event) : list bool :=
  match e with
  | Ev (com_call _ name [VStr p]) (Returns v) =>
      if String.eqb name "findById" && String.eqb p element_id then [truthy v] else []
  | _ => []
  end.

Definition answers (element_id : string) (tr : list event) : list bool :=
  flat_map (answer_of element_id) tr.

(** The number of lookups of an element that raised. *)
Definition refusal_of (element_id : string) (e : event) : Z :=
  match e with
  | Ev (com_call _ name [VStr p]) (Raises _) =>
      if String.eqb name "findById" && String.eqb p element_id then 1 else 0
  | _ => 0
  end.

Definition refusals (element_id : string) (tr : list event) : Z :=
  fold_right (fun e acc => refusal_of element_id e + acc) 0 tr.

(** [c] occurs in [s]. *)
Fixpoint has_char (c : ascii) (s : string) : bool :=
  match s with
  | EmptyString => false
  | String c' rest => Ascii.eqb c' c || has_char c rest
  end.

(** What [GetLogicalDriveStrings] returns for a list of volumes: the root
    of each, followed by a NUL. *)
Fixpoint drive_strings (drives : list string) : string :=
  match drives with
  | [] => ""
  | d :: rest => d ++ String Ascii.zero (drive_strings rest)
  end.

(** A piece of the program that leaves the attribute [f] of the instance
    as it found it, however it ends. *)
Definition keeps {A X : Type} (f : SapGui -> X) (m : M A) : Prop :=
  forall st, f (self (state_of (m st))) = f (self st).

(** A piece of the program that lets no exception out. *)
Definition never_raises {A : Type} (m : M A) : Prop :=
  forall st e, result_of (m st) <> Raise e.

(** A piece of the program whose every exception is of class [c], with a
    message that starts with [pre]. *)
Definition raises_only {A : Type} (c : exn_class) (pre : string) (m : M A) : Prop :=
  forall st e, result_of (m st) = Raise e ->
               class_of e = c /\ exists msg, str e = pre ++ msg.

(** What a poll for an element leaves behind: every lookup that returned
    gave something false, except the last one of a poll that ended with
    [True]; and on an instance with a session the time slept is the number
    of lookups that raised. *)
Definition waited (element_id : string) (st : State) (x : Run bool) : Prop :=
  let '(r, _, tr) := x in
  match r with
  | Ok true => exists n, answers element_id tr = (repeat false n ++ [true])%list
  | Ok false => exists n, answers element_id tr = repeat false n
  | _ => True
  end /\
  (forall h, session (self st) = Some (VDispatch h) ->
             slept tr = refusals element_id tr).

(** What a search of the table column from row [row] on leaves behind
    when it returns. *)
Definition cell_post (format : string -> Z -> result string) (column_path text : string)
    (row : Z) (x : Run Z) : Prop :=
  let '(r, _, tr) := x in
  match r with
  | Ok n =>
      row <= n /\
      (exists paths,
         lookups tr = (paths ++ ["wnd[0]"])%list /\
         Z.of_nat (length paths) = n - row + 1 /\
         forall k, (k < length paths)%nat ->
                   format column_path (row + Z.of_nat k) = Ok (nth k paths "")) /\
      assigned "Text" tr = [VStr text] /\
      assigned "caretPosition" tr = [VInt (Z.of_nat (String.length text))] /\
      exists skipped,
        Z.of_nat (length skipped) = n - row /\
        Forall (fun v => eq_str v "" = false) skipped /\
        (text_reads tr = skipped \/ text_reads tr = (skipped ++ [VStr ""])%list)
  | _ => True
  end.

(** What a scan of the drives leaves behind. *)
Definition scan_post (software : string) (drives : list string) (x : Run bool) : Prop :=
  let '(r, _, tr) := x in
  (exists rest, drives = (walks tr ++ rest)%list) /\
  (launches tr = [] \/ exists p, launches tr = [p] /\ listed software p tr) /\
  match r with
  | Ok true => launches tr <> []
  | Ok false => launches tr = [] /\ walks tr = drives
  | Raise _ => True
  | OutOfFuel => False
  end.

(** The fields of the login screen, in the order [sapLogin] fills them,
    and the values a configuration gives them. *)
Definition login_fields : list string :=
  ["wnd[0]/usr/txtRSYST-MANDT"; "wnd[0]/usr/txtRSYST-BNAME";
   "wnd[0]/usr/pwdRSYST-BCODE"; "wnd[0]/usr/txtRSYST-LANGU"].

Definition login_values (c : SapConfig) : list value :=
  [VStr (client c); VStr (username c); VStr (password c); VStr (language c)].

(** A piece of the program all of whose events satisfy [P]. *)
Definition emits {A : Type} (P : event -> bool) (m : M A) : Prop :=
  forall st, forallb P (trace_of (m st)) = true.

(** An event that is neither a lookup of the logged-in indicator nor the
    entry of [create_sales_order]. *)
Definition before_order (e : event) : bool :=
  match indicator_lookup e with
  | [] => negb (is_entry "create_sales_order" e)
  | _ :: _ => false
  end.

(** An event that is not the entry of [create_sales_order]. *)
Definition no_order (e : event) : bool := negb (is_entry "create_sales_order" e).

(** The business step was entered once and the login was verified, or it
    was not entered and the login was not verified. *)
Definition order_after_login (t : list event) : Prop :=
  (invocations "create_sales_order" t = 1%nat /\ indicator_lookups t = [true]) \/
  (invocations "create_sales_order" t = 0%nat /\ indicator_lookups t <> [true]).

(** ** More concrete worlds *)

(** The example dict of the class documentation. *)
Definition documented_args : kwargs :=
  [("platform", "PRD"); ("sap_client", "100"); ("username", "user");
   ("password", "pass"); ("sap_language", "PT");
   ("sap_path", "C:/Path/To/SAPLogon.exe")].

(** A window library that finds no window. *)
Definition no_window (title : string) : M value := ret (VList []).

(** ** Further notions for validation, login, polling and teardown *)

(** One of the ten decimal digits 0 to 9. *)
Definition decimal_digit (c : ascii) : bool :=
  let n := nat_of_ascii c in ((48 <=? n) && (n <=? 57))%nat.

(** A numeric string in the words of the data model: at least one
    character, each a decimal digit. *)
Definition numeric (s : string) : bool :=
  Str.truthy s && Str.all_chars decimal_digit s.

(** The invariant of a configuration in the words of the data model: all
    six fields non-empty, the client a numeric string, the language code of
    length 2.  To be compared with [valid_config], which is what
    [__post_init__] tests. *)
Definition stated_config (c : SapConfig) : Prop :=
  platform c <> "" /\ client c <> "" /\ username c <> "" /\
  password c <> "" /\ language c <> "" /\ path c <> "" /\
  numeric (client c) = true /\
  String.length (language c) = 2%nat.

(** Keyword arguments whose client is the one character U+00B2, SUPERSCRIPT
    TWO, and the record [SapConfig] makes of them. *)
Definition superscript_args : kwargs :=
  [("platform", "SAP PRD"); ("client", String (ascii_of_nat 178) "");
   ("username", "RPA_USER"); ("password", "Dezembro#2024"); ("language", "PT")].

Definition superscript_config : SapConfig :=
  mkSapConfig "SAP PRD" (String (ascii_of_nat 178) "") "RPA_USER" "Dezembro#2024"
              "PT" "saplogon.exe".

(** Whether a lookup found the element: it returned, and what it returned
    is true. *)
Definition found (o : outcome) : bool :=
  match o with Returns v => truthy v | Raises _ => false end.

(** The multi-session check read the active window's name only on an
    instance that has a session object, and left the instance as it was. *)
Definition hml_session_post (st : State) (x : Run bool) : Prop :=
  let '(_, st', t) := x in
  self st' = self st /\
  (window_names t <> [] -> exists h, session (self st) = Some (VDispatch h)).

(** A call that returns a false value while the clock stands still. *)
Definition idle (w : World) (k : nat) : bool :=
  match script w k with
  | Returns v => negb (truthy v) && (lag w k <? 1)%Z
  | Raises _ => false
  end.

(** Time passes in [w]: no call takes negative time, and of any [m] calls
    in a row at least one is not idle.  With [m = 1] this is [responsive]. *)
Definition time_passes (w : World) (m : nat) : Prop :=
  (forall k, 0 <= lag w k) /\
  (forall k, exists j, (j < m)%nat /\ idle w (k + j) = false).

(** A poll that has not raised; if it returned, it slept no longer than
    until the deadline and came back no later than the deadline plus the
    time one call takes. *)
Definition paced (w : World) (st : State) (deadline : Z) (x : Run bool) : Prop :=
  let '(r, st', tr) := x in
  match r with
  | Ok _ =>
      0 <= slept tr <= Z.max 0 (deadline - now st) /\
      forall L, (forall k, lag w k <= L) -> now st' <= Z.max (now st) (deadline + L)
  | Raise _ => False
  | OutOfFuel => True
  end.

(** A poll that has not raised. *)
Definition unraised (x : Run bool) : Prop := forall e, result_of x <> Raise e.

(** A poll that has not run out of fuel. *)
Definition ended (x : Run bool) : Prop := result_of x <> OutOfFuel.

(** The claim that the poll is back within the timeout: it returns a
    boolean, and no more than [timeout] time units have gone by. *)
Definition back_within_timeout (w : World) (fuel : nat) (element_id : string)
    (timeout : Z) (st : State) : Prop :=
  exists b st' tr,
    wait_for_element w fuel element_id timeout st = (Ok b, st', tr) /\
    now st' - now st <= timeout.

(** Every probe takes 100 time units and then finds the element. *)
Definition slow_probe : World :=
  mkWorld (fun _ => Returns (VDispatch 7)) (fun _ => 100).

(** A piece of the program that leaves the binding of [sap] alone and does
    nothing that bears on teardown, whether or not it comes back. *)
Definition calm {A} (m : M A) : Prop :=
  forall st,
    sap_bound (state_of (m st)) = sap_bound st /\
    teardown (trace_of (m st)) = [].

(** What the body of the [try] in [main] leaves behind, by how the
    construction of [SapGui] and the [try] block of the login went. *)
Definition main_try_cases (w : World) (fuel : nat) (st : State) (x : Run unit) : Prop :=
  let acquire := new_SapGui w fuel get_sap_config st in
  let '(r, st', tr) := x in
  r = OutOfFuel \/
  match result_of acquire with
  | Ok _ =>
      sap_bound st' = true /\
      match result_of (sapLogin_try w (state_of acquire)) with
      | Raise _ => teardown tr = [login_failed; release]
      | _ => teardown tr = []
      end
  | _ => sap_bound st' = false /\ teardown tr = []
  end.

(** * Proofs *)

Arguments randrange_value : simpl never.
Arguments password_format : simpl never.

(** ** Tactics *)

Ltac projs := unfold result_of, state_of, trace_of in *; cbn [fst snd] in *.

(** The term whose shape decides how a run goes on: the innermost
    scrutinee along the head of nested matches. *)
Ltac head_scrutinee t :=
  lazymatch t with
  | match ?x with _ => _ end => head_scrutinee x
  | (match ?x with _ => _ end) _ => head_scrutinee x
  | _ => t
  end.

(** One step of following a run: unfold the primitives of the monad, then
    split on the reply, value or attribute the run waits for. *)
Ltac crunch_step :=
  lazymatch goal with
  | |- ?P ?x =>
      let x' := eval cbv beta iota zeta delta
        [bind ret raise lift out_of_fuel try_except try_except_class try_finally
         enter logging logging_basicConfig time_time time_sleep set_self set_config
         set_SapGuiAuto set_connection set_session attr ext py_getattr py_setattr
         py_call py_lower py_in
         self sap_bound tick now config SapGuiAuto connection session
         fst snd app class_eqb class_of is_CDispatch eq_str negb] in x in
      change (P x');
      let s := head_scrutinee x' in
      lazymatch s with
      | x' => fail
      | _ => destruct s eqn:?
      end
  end.

Ltac crunch := repeat crunch_step.

Ltac tidy :=
  repeat match goal with
         | H : _ :: _ = _ :: _ |- _ => inversion H; clear H; subst
         | H : Some _ = Some _ |- _ => inversion H; clear H; subst
         | H : VStr _ = VStr _ |- _ => inversion H; clear H; subst
         | H : _ :: _ = [] |- _ => discriminate H
         | H : [] = _ :: _ |- _ => discriminate H
         | H : None = Some _ |- _ => discriminate H
         end.

Ltac ends_with :=
  lazymatch goal with
  | |- exists pre h, ?t = (pre ++ [_])%list =>
      exists (removelast t); eexists; reflexivity
  end.

Ltac leaf :=
  cbn; repeat split; intros; tidy; simpl in *;
  try congruence; try lia; try ends_with; eauto.

(** ** Traces *)

Lemma run_eta {A} (x : Run A) : x = (result_of x, state_of x, trace_of x).
Proof. destruct x as [[r s] t]. reflexivity. Qed.

Lemma window_names_app t1 t2 :
  window_names (t1 ++ t2) = (window_names t1 ++ window_names t2)%list.
Proof. apply flat_map_app. Qed.

Lemma text_reads_app t1 t2 : text_reads (t1 ++ t2) = (text_reads t1 ++ text_reads t2)%list.
Proof. apply flat_map_app. Qed.

Lemma indicator_lookups_app t1 t2 :
  indicator_lookups (t1 ++ t2) = (indicator_lookups t1 ++ indicator_lookups t2)%list.
Proof. apply flat_map_app. Qed.

Lemma dismissals_app t1 t2 : dismissals (t1 ++ t2) = (dismissals t1 ++ dismissals t2)%list.
Proof. apply flat_map_app. Qed.

Lemma teardown_app t1 t2 : teardown (t1 ++ t2) = (teardown t1 ++ teardown t2)%list.
Proof. apply flat_map_app. Qed.

Lemma teardown_cons e t : teardown (e :: t) = (teardown_obs e ++ teardown t)%list.
Proof. reflexivity. Qed.

Lemma teardown_login_failed msg :
  teardown_obs (Logged ERROR ("Login failed: " ++ msg)) = [login_failed].
Proof. cbn. destruct msg; reflexivity. Qed.

Ltac teardown_norm := cbn [app]; repeat (rewrite teardown_cons || rewrite teardown_app).

Lemma slept_app t1 t2 : slept (t1 ++ t2) = slept t1 + slept t2.
Proof. unfold slept. induction t1 as [|e t1 IH]; cbn; [reflexivity | rewrite IH; lia]. Qed.

Lemma slept_cons e t : slept (e :: t) = sleep_of e + slept t.
Proof. reflexivity. Qed.

Lemma unobserved_app t1 t2 : unobserved t1 -> unobserved t2 -> unobserved (t1 ++ t2).
Proof.
  unfold unobserved. intros (A1 & B1 & C1 & D1) (A2 & B2 & C2 & D2).
  rewrite window_names_app, text_reads_app, indicator_lookups_app, dismissals_app.
  rewrite A1, B1, C1, D1, A2, B2, C2, D2. auto.
Qed.

Lemma unobserved_cons e t :
  name_read e = [] -> text_read e = [] -> indicator_lookup e = [] -> dismissal e = [] ->
  unobserved t -> unobserved (e :: t).
Proof.
  unfold unobserved, window_names, text_reads, indicator_lookups, dismissals.
  intros A B C D (A' & B' & C' & D'). cbn. rewrite A, B, C, D, A', B', C', D'. auto.
Qed.

Lemma length_le_1 {A} (l : list A) : (length l <= 1)%nat -> l = [] \/ exists x, l = [x].
Proof.
  destruct l as [|x [|y l]]; cbn; intros H; eauto. lia.
Qed.

Lemma responsive_world_of l : responsive (world_of l).
Proof. split; intros; cbn; lia. Qed.

(** ** Configuration validation *)

Lemma truthy_nonempty (s : string) : Str.truthy s = true <-> s <> "".
Proof.
  destruct s; simpl; split; intro H; congruence.
Qed.

Lemma all_chars_In (p : ascii -> bool) (s : string) :
  Str.all_chars p s = true <-> (forall ch, In ch (list_ascii_of_string s) -> p ch = true).
Proof.
  induction s as [|c s IH]; simpl.
  - split; [intros _ ch [] | reflexivity].
  - rewrite andb_true_iff, IH. split.
    + intros [Hc Hs] ch [<- | Hin]; auto.
    + intros H. split; [apply H; now left | intros ch Hin; apply H; now right].
Qed.

Lemma post_init_valid (c : SapConfig) : __post_init__ c = Ok tt <-> valid_config c.
Proof.
  unfold __post_init__, valid_config. simpl forallb.
  destruct (Str.truthy (platform c)) eqn:E1; simpl.
  2:{ split; [discriminate | intros (H & _)]. apply truthy_nonempty in H. congruence. }
  destruct (Str.truthy (client c)) eqn:E2; simpl.
  2:{ split; [discriminate | intros (_ & H & _)]. apply truthy_nonempty in H. congruence. }
  destruct (Str.truthy (username c)) eqn:E3; simpl.
  2:{ split; [discriminate | intros (_ & _ & H & _)]. apply truthy_nonempty in H. congruence. }
  destruct (Str.truthy (password c)) eqn:E4; simpl.
  2:{ split; [discriminate | intros (_ & _ & _ & H & _)]. apply truthy_nonempty in H.
      congruence. }
  destruct (Str.truthy (language c)) eqn:E5; simpl.
  2:{ split; [discriminate | intros (_ & _ & _ & _ & H & _)]. apply truthy_nonempty in H.
      congruence. }
  destruct (Str.truthy (path c)) eqn:E6; simpl.
  2:{ split; [discriminate | intros (_ & _ & _ & _ & _ & H & _)]. apply truthy_nonempty in H.
      congruence. }
  apply truthy_nonempty in E1, E2, E3, E4, E5, E6.
  unfold Str.isdigit. replace (Str.truthy (client c)) with true
    by (symmetry; now apply truthy_nonempty).
  simpl. destruct (Str.all_chars Str.isdigit_char (client c)) eqn:E7; simpl.
  2:{ split; [discriminate | intros (_ & _ & _ & _ & _ & _ & H & _)].
      apply all_chars_In in H. congruence. }
  pose proof (proj1 (all_chars_In _ _) E7) as E7'.
  destruct (Nat.eqb (String.length (language c)) 2) eqn:E8; simpl.
  - apply Nat.eqb_eq in E8. split; [intros _ | reflexivity]. repeat split; assumption.
  - apply Nat.eqb_neq in E8. split; [discriminate | intros (_ & _ & _ & _ & _ & _ & _ & H)].
    contradiction.
Qed.

Lemma post_init_error (c : SapConfig) :
  __post_init__ c = Ok tt \/ exists msg, __post_init__ c = Raise (mk_exn SapConfigError msg).
Proof.
  unfold __post_init__.
  repeat match goal with
         | |- context [if ?b then _ else _] => destruct b
         end; eauto.
Qed.

(** The constructor of [SapConfig] yields the record exactly for the
    configurations that pass the tests of [__post_init__].  For every other
    configuration it raises [SapConfigError], and [SapGui.__init__] given
    such a configuration fails before it makes any call to the outside. *)
Lemma SapConfig_init_cases (p c u pw l pa : string) :
  let cfg := mkSapConfig p c u pw l pa in
  (SapConfig_init p c u pw l pa = Ok cfg /\ valid_config cfg) \/
  ((exists msg,
      SapConfig_init p c u pw l pa = Raise (mk_exn SapConfigError msg) /\
      forall w fuel st,
        SapGui__init__ w fuel
          [("platform", p); ("client", c); ("username", u); ("password", pw);
           ("language", l); ("path", pa)] st
        = (Raise (mk_exn SapGuiError ("Failed to initialize SAP GUI: " ++ msg)),
           st, [Entered "__init__"]))
   /\ ~ valid_config cfg).
Proof.
  intros cfg.
  assert (K : SapConfig_of_kwargs
                [("platform", p); ("client", c); ("username", u); ("password", pw);
                 ("language", l); ("path", pa)]
              = SapConfig_init p c u pw l pa) by reflexivity.
  unfold SapGui__init__, enter, try_except, bind, lift, raise. rewrite K. clear K.
  unfold SapConfig_init. fold cfg.
  destruct (post_init_error cfg) as [H | [msg H]].
  - left. rewrite H. split; [reflexivity | now apply post_init_valid].
  - right. rewrite H. split.
    + exists msg. split; [reflexivity | intros w fuel st; reflexivity].
    + intros Hv. apply post_init_valid in Hv. congruence.
Qed.

Lemma decimal_isdigit (c : ascii) : decimal_digit c = true -> Str.isdigit_char c = true.
Proof.
  unfold decimal_digit, Str.isdigit_char. cbv zeta. intros ->. reflexivity.
Qed.

Lemma stated_valid (c : SapConfig) : stated_config c -> valid_config c.
Proof.
  intros (H1 & H2 & H3 & H4 & H5 & H6 & H7 & H8).
  repeat (split; [assumption |]). split; [| assumption].
  unfold numeric in H7. apply andb_prop in H7 as [_ H7].
  intros ch Hin. apply decimal_isdigit. exact (proj1 (all_chars_In _ _) H7 ch Hin).
Qed.

(** C5. Validation at construction, set against the words of the data
    model.  Every configuration with six non-empty fields, a numeric client
    and a language code of length 2 is accepted as it is.  A configuration
    with an empty field, a language code of another length, or a client
    holding a character that is neither a decimal digit nor one of the
    superscripts U+00B2, U+00B3, U+00B9 is refused with [SapConfigError],
    and [SapGui.__init__] given it fails before any call to the outside.
    But the superscripts pass the test [isdigit] that the code makes under
    the message "SAP client must be numeric": the client U+00B2 is not a
    numeric string, and the constructor accepts it. *)
Theorem SapConfig_validation :
  (forall c, stated_config c ->
     SapConfig_init (platform c) (client c) (username c) (password c)
                    (language c) (path c) = Ok c) /\
  (forall p c u pw l pa,
     In "" [p; c; u; pw; l; pa] \/
     String.length l <> 2%nat \/
     (exists ch, In ch (list_ascii_of_string c) /\ decimal_digit ch = false /\
                 ~ In (nat_of_ascii ch) [178; 179; 185]%nat) ->
     exists msg,
       SapConfig_init p c u pw l pa = Raise (mk_exn SapConfigError msg) /\
       forall w fuel st,
         SapGui__init__ w fuel
           [("platform", p); ("client", c); ("username", u); ("password", pw);
            ("language", l); ("path", pa)] st
         = (Raise (mk_exn SapGuiError ("Failed to initialize SAP GUI: " ++ msg)),
            st, [Entered "__init__"])) /\
  (numeric (client superscript_config) = false /\
   ~ stated_config superscript_config /\
   SapConfig_of_kwargs superscript_args = Ok superscript_config).
Proof.
  split; [| split].
  - intros c Hc. apply stated_valid, post_init_valid in Hc.
    destruct c as [p c u pw l pa]; cbn [platform client username password language path].
    unfold SapConfig_init. rewrite Hc. reflexivity.
  - intros p c u pw l pa Hbad.
    destruct (SapConfig_init_cases p c u pw l pa) as [[_ Hv] | [Hr _]]; [exfalso | exact Hr].
    cbv zeta in Hv.
    destruct Hv as (H1 & H2 & H3 & H4 & H5 & H6 & H7 & H8).
    cbn [platform client username password language path] in *.
    destruct Hbad as [Hin | [Hl | (ch & Hin & Hd & Hs)]].
    + cbn in Hin. intuition congruence.
    + contradiction.
    + specialize (H7 ch Hin). unfold Str.isdigit_char, decimal_digit in *. cbv zeta in *.
      rewrite Hd in H7. cbn [orb] in H7.
      apply Hs. cbn.
      destruct (Nat.eqb_spec (nat_of_ascii ch) 178); [auto |].
      destruct (Nat.eqb_spec (nat_of_ascii ch) 179); [auto |].
      destruct (Nat.eqb_spec (nat_of_ascii ch) 185); [auto |]. discriminate.
  - split; [reflexivity |]. split; [| reflexivity].
    intros (_ & _ & _ & _ & _ & _ & H & _). discriminate H.
Qed.

(** ** Password generation *)

Lemma randrange_value_range (n : Z) :
  (exists r, randrange_value 1 999 r = n) <-> 1 <= n <= 998.
Proof.
  unfold randrange_value. split.
  - intros [r <-]. pose proof (Z.mod_pos_bound r (999 - 1) ltac:(lia)). lia.
  - intros H. exists (n - 1). rewrite Z.mod_small by lia. lia.
Qed.

(** C7, as the code has it. The number drawn for a password ranges over
    the integers 1 to 998 inclusive: [randrange(1, 999)] excludes its stop
    value. *)
Theorem password_number_range (n : Z) :
  (exists w st, result_of (randrange w 1 999 st) = Ok n) <-> 1 <= n <= 998.
Proof.
  rewrite <- randrange_value_range. split.
  - intros (w & st & H). unfold randrange, result_of, bind, ext in H. simpl in H.
    destruct (script w (tick st)) as [[]|]; simpl in H; try discriminate.
    injection H as <-. eauto.
  - intros [r <-]. exists (world_of [Returns (VInt r)]), initial. reflexivity.
Qed.

(** C7, as stated, fails at 999: no world makes the draw 999. *)
Lemma draw_999_impossible : ~ exists w st, result_of (randrange w 1 999 st) = Ok 999.
Proof.
  intros (w & st & H). unfold randrange, result_of, bind, ext in H. simpl in H.
  destruct (script w (tick st)) as [[]|]; simpl in H; try discriminate.
  injection H as H. unfold randrange_value in H.
  match type of H with 1 + ?r mod ?m = _ => pose proof (Z.mod_pos_bound r m ltac:(lia)) end.
  lia.
Qed.



(** ** The methods, path by path *)

Section Specs.
Variable w : World.

Lemma submit_spec st : submit_post (submit_credentials w st).
Proof.
  destruct st as [[cfg auto conn ses] bound tk nw].
  unfold submit_credentials, set_text, sendVKey0, config_field.
  crunch.
  all: unfold submit_post, unobserved; leaf.
Qed.

Lemma hpc_spec st : hpc_post (handle_password_change w st).
Proof.
  destruct st as [[cfg auto conn ses] bound tk nw].
  unfold handle_password_change, generate_password, randrange, now_strftime.
  crunch.
  all: unfold hpc_post; leaf.
Qed.

Lemma hml_spec st : hml_post (_handle_multiple_login w st).
Proof.
  destruct st as [[cfg auto conn ses] bound tk nw].
  unfold _handle_multiple_login.
  crunch.
  all: unfold hml_post; leaf.
Qed.

Lemma verify_spec st : verify_post (_verify_login w st).
Proof.
  destruct st as [[cfg auto conn ses] bound tk nw].
  unfold _verify_login.
  crunch.
  all: unfold verify_post; cbn; split; [reflexivity |].
  all: try (right; split; [reflexivity | discriminate]).
  all: match goal with |- context [truthy ?v] => destruct (truthy v) end.
  all: [> left | right]; split; (reflexivity || discriminate).
Qed.

Lemma close_spec st : close_post st (close_connection w st).
Proof.
  destruct st as [[cfg auto conn ses] bound tk nw].
  unfold close_connection.
  crunch.
  all: unfold close_post, unobserved; leaf.
Qed.

Lemma logout_spec st : logout_post st (sapLogout w st).
Proof.
  destruct st as [[cfg auto conn ses] bound tk nw].
  unfold sapLogout, set_text, sendVKey0.
  crunch.
  all: unfold logout_post; leaf.
Qed.

Lemma attach_spec cfg st : attach_post (attach_session w cfg st).
Proof.
  destruct st as [[cfg0 auto conn ses] bound tk nw].
  unfold attach_session.
  crunch.
  all: unfold attach_post, attached, unattached; cbn.
  all: first [ exact I
             | left; do 3 eexists; repeat split; reflexivity
             | right; eexists; split; reflexivity ].
Qed.

(** ** Login *)

Ltac run_reduce := cbv beta iota zeta delta [negb ret logging].

Lemma sapLogin_stages st : login_stages w (sapLogin w st).
Proof.
  unfold sapLogin, sapLogin_try, enter, try_except, bind.
  pose proof (submit_spec st) as Hs. unfold submit_post in Hs.
  destruct (submit_credentials w st) as [[[[]|e|] st1] t1]; cbn in Hs;
    destruct Hs as [Hf Hu]; [| | congruence].
  2:{ run_reduce.
      pose proof (close_spec st1) as Hc. unfold close_post in Hc.
      destruct (close_connection w st1) as [[rc stc] tc]. cbv beta iota zeta in Hc.
      destruct Hc as (-> & Hc & _). unfold login_stages. run_reduce.
      eexists. split; [| left; split; reflexivity].
      apply unobserved_cons; try reflexivity.
      apply unobserved_app; [exact Hu |].
      apply unobserved_cons; try reflexivity.
      rewrite app_nil_r. exact Hc. }
  assert (U1 : unobserved (Entered "sapLogin" :: t1)) by (apply unobserved_cons; auto).
  pose proof (hpc_spec st1) as H2. unfold hpc_post in H2.
  destruct (handle_password_change w st1) as [[r2 st2] t2] eqn:E2. cbv beta iota zeta in H2.
  destruct H2 as [[b2 ->] _].
  destruct b2; run_reduce.
  2:{ unfold login_stages. exists (Entered "sapLogin" :: t1). split; [exact U1 |]. right.
      exists st1, st2, false, t2. split; [exact E2 |]. left. rewrite app_nil_r. auto. }
  pose proof (hml_spec st2) as H3. unfold hml_post in H3.
  destruct (_handle_multiple_login w st2) as [[r3 st3] t3] eqn:E3. cbv beta iota zeta in H3.
  destruct H3 as [[b3 ->] _].
  destruct b3; run_reduce.
  2:{ unfold login_stages. exists (Entered "sapLogin" :: t1). split; [exact U1 |]. right.
      exists st1, st2, true, t2. split; [exact E2 |]. right. split; [reflexivity |].
      exists st3, false, t3. split; [exact E3 |]. left. rewrite app_nil_r. auto. }
  pose proof (verify_spec st3) as H4. unfold verify_post in H4.
  destruct (_verify_login w st3) as [[r4 st4] t4] eqn:E4. cbv beta iota zeta in H4.
  assert (exists b4, r4 = Ok b4) as [b4 ->] by (destruct H4 as [_ [[-> _] | [-> _]]]; eauto).
  unfold login_stages. exists (Entered "sapLogin" :: t1). split; [exact U1 |]. right.
  exists st1, st2, true, t2. split; [exact E2 |]. right. split; [reflexivity |].
  exists st3, true, t3. split; [exact E3 |]. right. split; [reflexivity |].
  exists t4. split; [exact E4 | reflexivity].
Qed.

(** C4. In a run of [sapLogin] in which the first read of the active
    window, the one of the password-change check, gave the secondary
    window, and the label read from it does not contain the new-password
    phrase, the result is [False]; the read of the label is the last thing
    the run does: nothing is pressed or selected, the active window is not
    read again and the indicator is not looked up. *)
Theorem unrecognized_popup_fails (st : State) (r : result bool) (st' : State)
    (tr : list event) (s : string) :
  sapLogin w st = (r, st', tr) ->
  hd_error (window_names tr) = Some (VStr "wnd[1]") ->
  hd_error (text_reads tr) = Some (VStr s) ->
  Str.contains "nova senha" (Str.lower s) = false ->
  r = Ok false /\
  dismissals tr = [] /\
  window_names tr = [VStr "wnd[1]"] /\
  indicator_lookups tr = [] /\
  exists pre h, tr = (pre ++ [Ev (com_get h "Text") (Returns (VStr s))])%list.
Proof.
  intros Hrun Hname Htext Hs.
  pose proof (sapLogin_stages st) as H. rewrite Hrun in H. unfold login_stages in H.
  cbv beta iota zeta in H.
  destruct H as (t1 & (N1 & T1 & I1 & D1) & H).
  destruct H as [[-> ->] | (st1 & st2 & b2 & t2 & E2 & H)].
  { rewrite N1 in Hname. discriminate. }
  pose proof (hpc_spec st1) as P2. rewrite E2 in P2. unfold hpc_post in P2.
  destruct P2 as (_ & L2 & Z2 & _ & I2 & F2 & G2).
  assert (Hn2 : hd_error (window_names t2) = Some (VStr "wnd[1]")).
  { destruct (length_le_1 _ L2) as [Hz | [x Hz]].
    - specialize (Z2 Hz). assert (b2 = false) by congruence. subst b2.
      destruct H as [(_ & -> & ->) | (? & _)]; [| discriminate].
      rewrite window_names_app, N1, Hz in Hname. discriminate.
    - rewrite Hz. cbn.
      destruct H as [(_ & _ & ->)
                    | (_ & st3 & b3 & t3 & _ & [(_ & _ & ->) | (_ & t4 & _ & ->)])];
        rewrite ?window_names_app, N1, Hz in Hname; exact Hname. }
  assert (Hb2 : b2 = false).
  { destruct (text_reads t2) as [|x l] eqn:Hz.
    - specialize (G2 Hn2 eq_refl). congruence.
    - assert (Hx : hd_error (text_reads t2) = Some (VStr s)).
      { destruct H as [(_ & _ & ->)
                      | (_ & st3 & b3 & t3 & _ & [(_ & _ & ->) | (_ & t4 & _ & ->)])];
          rewrite ?text_reads_app, T1, Hz in Htext; rewrite Hz; exact Htext. }
      rewrite Hz in Hx. destruct (F2 Hn2 s Hx Hs) as (F & _). congruence. }
  subst b2.
  destruct H as [(_ & -> & ->) | (? & _)]; [| discriminate].
  rewrite text_reads_app, T1 in Htext. cbn in Htext.
  destruct (F2 Hn2 s Htext Hs) as (_ & Fd & Fn & pre & h & Fe).
  split; [reflexivity |].
  rewrite dismissals_app, window_names_app, indicator_lookups_app, D1, N1, I1, Fd, Fn, I2.
  repeat split.
  exists (t1 ++ pre)%list, h. rewrite Fe. apply app_assoc.
Qed.

(** ** Release of the connection *)

Lemma close_connection_total st : result_of (close_connection w st) = Ok tt.
Proof.
  pose proof (close_spec st) as H. unfold close_post in H.
  destruct (close_connection w st) as [[r st1] t]. apply H.
Qed.

(** C10, as the code has it. [close_connection] never lets an exception
    out.  On an instance that holds a connection and an automation root:
    when [CloseSession] returns, both handles are [None] afterwards and a
    second call makes no call to the outside and leaves the state as it
    is; when [CloseSession] raises, the error is logged and the instance
    keeps both handles. *)
Theorem close_connection_release (st : State) (c a : nat) :
  connection (self st) = Some (VDispatch c) ->
  SapGuiAuto (self st) = Some (VDispatch a) ->
  (forall st0, result_of (close_connection w st0) = Ok tt) /\
  match script w (tick st) with
  | Returns v =>
      close_connection w st
      = (Ok tt, released_state w st,
         [Entered "close_connection";
          Ev (com_call c "CloseSession" [VStr "ses[0]"]) (Returns v);
          Logged INFO "SAP connection closed safely"]) /\
      close_connection w (released_state w st)
      = (Ok tt, released_state w st,
         [Entered "close_connection"; Logged INFO "SAP connection closed safely"])
  | Raises e =>
      close_connection w st
      = (Ok tt, mkState (self st) (sap_bound st) (S (tick st)) (now st + lag w (tick st)),
         [Entered "close_connection";
          Ev (com_call c "CloseSession" [VStr "ses[0]"]) (Raises e);
          Logged ERROR ("Error closing connection: " ++ str e)])
  end.
Proof.
  intros Hc Ha. split; [apply close_connection_total |].
  destruct st as [[cfg auto conn ses] bound tk nw]. cbn in Hc, Ha. subst auto conn.
  cbn [tick]. unfold released_state. cbn [self config session sap_bound tick now].
  destruct (script w tk) as [v | e] eqn:E.
  - split; unfold close_connection, enter, try_except, bind, attr, py_call, ext,
      set_connection, set_SapGuiAuto, set_self, logging, ret, truthy;
      cbn [self connection SapGuiAuto config session tick now sap_bound];
      rewrite ?E; reflexivity.
  - unfold close_connection, enter, try_except, bind, attr, py_call, ext,
      set_connection, set_SapGuiAuto, set_self, logging, ret, truthy;
      cbn [self connection SapGuiAuto config session tick now sap_bound];
      rewrite ?E; reflexivity.
Qed.

End Specs.

Section Plain.
Variable w : World.

Lemma hml_session st : hml_session_post st (_handle_multiple_login w st).
Proof.
  destruct st as [[cfg auto conn ses] bound tk nw].
  unfold _handle_multiple_login.
  crunch.
  all: unfold hml_session_post; cbn.
  all: split; [reflexivity |]; intros H; first [congruence | eauto].
Qed.

Lemma verify_with_session st h :
  session (self st) = Some (VDispatch h) ->
  exists o st',
    _verify_login w st
    = (Ok (found o), st',
       [Entered "_verify_login";
        Ev (com_call h "findById" [VStr "wnd[0]/tbar[0]/btn[15]"]) o]).
Proof.
  destruct st as [[cfg auto conn ses] bound tk nw]. cbn [self session]. intros ->.
  unfold _verify_login.
  cbv beta iota zeta delta
    [bind ret raise try_except enter attr ext py_call
     self sap_bound tick now session fst snd app].
  destruct (script w tk) as [v|e];
    [exists (Returns v) | exists (Raises e)]; eexists; reflexivity.
Qed.

(** C2. In a run of [sapLogin] in which the active window was read twice
    and was the primary window both times, at the password-change check
    and at the multi-session check, the last thing the run does is a lookup
    of the logged-in indicator of the primary toolbar; it is the only such
    lookup, and the result is [True] exactly when it found the element.  A
    lookup that returns a false value, or that raises, gives [False]. *)
Theorem sapLogin_without_popup (st : State) (r : result bool) (st' : State)
    (tr : list event) :
  sapLogin w st = (r, st', tr) ->
  window_names tr = [VStr "wnd[0]"; VStr "wnd[0]"] ->
  exists pre h o,
    tr = (pre ++ [Ev (com_call h "findById" [VStr "wnd[0]/tbar[0]/btn[15]"]) o])%list /\
    indicator_lookups tr = [found o] /\
    r = Ok (found o).
Proof.
  intros Hrun Hnames.
  pose proof (sapLogin_stages w st) as H. rewrite Hrun in H. unfold login_stages in H.
  cbv beta iota zeta in H.
  destruct H as (t1 & (N1 & T1 & I1 & D1) & H).
  destruct H as [[-> ->] | (st1 & st2 & b2 & t2 & E2 & H)].
  { rewrite N1 in Hnames. discriminate. }
  pose proof (hpc_spec w st1) as P2. rewrite E2 in P2. unfold hpc_post in P2.
  destruct P2 as (_ & L2 & _ & W2 & I2 & _).
  destruct H as [(-> & -> & ->) | (-> & st3 & b3 & t3 & E3 & H)].
  { rewrite window_names_app, N1 in Hnames. cbn in Hnames.
    rewrite Hnames in L2. cbn in L2. lia. }
  pose proof (hml_spec w st2) as P3. rewrite E3 in P3. unfold hml_post in P3.
  destruct P3 as (_ & L3 & W3 & I3).
  pose proof (hml_session st2) as S3. rewrite E3 in S3. unfold hml_session_post in S3.
  destruct S3 as [F3 S3].
  destruct H as [(-> & -> & ->) | (-> & t4 & E4 & ->)].
  { exfalso. rewrite !window_names_app, N1 in Hnames. cbn in Hnames.
    destruct (length_le_1 _ L2) as [Z2 | [x2 Z2]], (length_le_1 _ L3) as [Z3 | [x3 Z3]];
      rewrite Z2, Z3 in Hnames; cbn in Hnames; try discriminate.
    inversion Hnames; subst. discriminate (W3 Z3). }
  pose proof (verify_spec w st3) as P4. rewrite E4 in P4. unfold verify_post in P4.
  destruct P4 as (N4 & _).
  assert (N3 : window_names t3 <> []).
  { intros Z3. rewrite !window_names_app, N1, N4, Z3 in Hnames. cbn in Hnames.
    rewrite !app_nil_r in Hnames. rewrite Hnames in L2. cbn in L2. lia. }
  destruct (S3 N3) as [h Hs].
  assert (Hs3 : session (self st3) = Some (VDispatch h)) by (rewrite F3; exact Hs).
  destruct (verify_with_session st3 h Hs3) as (o & st4 & E).
  rewrite E in E4. inversion E4; subst.
  exists ((t1 ++ t2 ++ t3) ++ [Entered "_verify_login"])%list, h, o.
  split; [| split; [| reflexivity]].
  - rewrite <- !app_assoc. reflexivity.
  - rewrite !indicator_lookups_app, I1, I2, I3. reflexivity.
Qed.
End Plain.

Lemma sapLogin_without_popup_witness :
  exists pre h o,
    trace_of (sapLogin plain_login attached_state)
    = (pre ++ [Ev (com_call h "findById" [VStr "wnd[0]/tbar[0]/btn[15]"]) o])%list /\
    indicator_lookups (trace_of (sapLogin plain_login attached_state)) = [found o] /\
    result_of (sapLogin plain_login attached_state) = Ok (found o).
Proof.
  apply (sapLogin_without_popup plain_login attached_state _ _ _ (run_eta _)).
  vm_compute. reflexivity.
Defined.

Lemma unrecognized_popup_fails_witness :
  result_of (sapLogin unknown_dialog attached_state) = Ok false /\
  dismissals (trace_of (sapLogin unknown_dialog attached_state)) = [] /\
  window_names (trace_of (sapLogin unknown_dialog attached_state)) = [VStr "wnd[1]"] /\
  indicator_lookups (trace_of (sapLogin unknown_dialog attached_state)) = [] /\
  exists pre h,
    trace_of (sapLogin unknown_dialog attached_state)
    = (pre ++ [Ev (com_get h "Text") (Returns (VStr "Licence expired"))])%list.
Proof.
  apply (unrecognized_popup_fails unknown_dialog attached_state _ _ _ "Licence expired"
           (run_eta _)); vm_compute; reflexivity.
Defined.

Lemma close_connection_release_witness :
  close_connection (world_of [Returns VNone])
    (released_state (world_of [Returns VNone]) attached_state)
  = (Ok tt, released_state (world_of [Returns VNone]) attached_state,
     [Entered "close_connection"; Logged INFO "SAP connection closed safely"]).
Proof.
  exact (proj2 (proj2 (close_connection_release (world_of [Returns VNone]) attached_state
                         3%nat 1%nat eq_refl eq_refl))).
Defined.

(** C10, as stated, fails when [CloseSession] raises: after the call the
    instance still holds both handles. *)
Lemma close_connection_keeps_handles :
  ~ (connection (self (state_of (close_connection (world_of []) attached_state)))
     = Some VNone /\
     SapGuiAuto (self (state_of (close_connection (world_of []) attached_state)))
     = Some VNone).
Proof.
  vm_compute. intros [H _]. discriminate H.
Qed.

(** ** Pieces of the program that do not bear on teardown *)

Section Combinators.
Context {A B : Type}.

Lemma tame_ret (a : A) : tame (ret a).
Proof. intros st. cbn. repeat split. discriminate. Qed.

Lemma tame_raise c msg : tame (@raise A c msg).
Proof. intros st. cbn. repeat split. discriminate. Qed.

Lemma tame_lift (r : result A) : r <> OutOfFuel -> tame (lift r).
Proof. intros H st. cbn. repeat split. exact H. Qed.

Lemma tame_bind (m : M A) (k : A -> M B) :
  tame m -> (forall a, tame (k a)) -> tame (bind m k).
Proof.
  intros Hm Hk st. unfold bind. specialize (Hm st).
  destruct (m st) as [[[a|e|] st1] t1]; projs; destruct Hm as (H1 & H2 & H3).
  - specialize (Hk a st1). destruct (k a st1) as [[r st2] t2]. projs.
    destruct Hk as (K1 & K2 & K3). rewrite teardown_app, H3, K3. intuition congruence.
  - intuition congruence.
  - congruence.
Qed.

Lemma tame_try_except (m : M A) (h : exn -> M A) :
  tame m -> (forall e, tame (h e)) -> tame (try_except m h).
Proof.
  intros Hm Hh st. unfold try_except. specialize (Hm st).
  destruct (m st) as [[[a|e|] st1] t1]; projs; destruct Hm as (H1 & H2 & H3).
  - intuition congruence.
  - specialize (Hh e st1). destruct (h e st1) as [[r st2] t2]. projs.
    destruct Hh as (K1 & K2 & K3). rewrite teardown_app, H3, K3. intuition congruence.
  - congruence.
Qed.

Lemma tame_try_except_class c (m h : M A) :
  tame m -> tame h -> tame (try_except_class c m h).
Proof.
  intros Hm Hh st. unfold try_except_class. specialize (Hm st).
  destruct (m st) as [[[a|e|] st1] t1]; projs; destruct Hm as (H1 & H2 & H3).
  - intuition congruence.
  - destruct (class_eqb (class_of e) c).
    + specialize (Hh st1). destruct (h st1) as [[r st2] t2]. projs.
      destruct Hh as (K1 & K2 & K3). rewrite teardown_app, H3, K3. intuition congruence.
    + projs. intuition congruence.
  - congruence.
Qed.

Lemma tame_attr (field : SapGui -> option A) name : tame (attr field name).
Proof.
  intros st. unfold attr. destruct (field (self st)); cbn; repeat split; discriminate.
Qed.

End Combinators.

Lemma tame_enter f : teardown_obs (Entered f) = [] -> tame (enter f).
Proof.
  intros H st. unfold enter. projs. unfold teardown. cbn [flat_map]. rewrite H.
  intuition congruence.
Qed.

Lemma tame_logging lvl msg : teardown_obs (Logged lvl msg) = [] -> tame (logging lvl msg).
Proof.
  intros H st. unfold logging. projs. unfold teardown. cbn [flat_map]. rewrite H.
  intuition congruence.
Qed.

Lemma tame_basicConfig : tame logging_basicConfig.
Proof. intros st. cbn. repeat split. discriminate. Qed.

Lemma tame_time_time : tame time_time.
Proof. intros st. cbn. repeat split. discriminate. Qed.

Lemma tame_time_sleep d : tame (time_sleep d).
Proof. intros st. cbn. repeat split. discriminate. Qed.

Lemma tame_set_self f : tame (set_self f).
Proof. intros st. cbn. repeat split. discriminate. Qed.

Lemma py_iter_fuel v : py_iter v <> OutOfFuel.
Proof. destruct v; discriminate. Qed.

Lemma py_in_fuel x v : py_in x v <> OutOfFuel.
Proof. destruct v; discriminate. Qed.

Lemma any_process_matches_fuel name names : any_process_matches name names <> OutOfFuel.
Proof.
  induction names as [|[] rest IH]; cbn; try discriminate.
  destruct (Str.contains _ _); [discriminate | exact IH].
Qed.

Lemma first_match_fuel software entries : first_match software entries <> OutOfFuel.
Proof.
  induction entries as [|e rest IH]; cbn; try discriminate.
  destruct e as [| | | |[|root [|dirs [|files [|]]]]|]; try discriminate.
  pose proof (py_in_fuel software files) as H.
  destruct (py_in software files) as [[]| |]; try discriminate; try congruence.
  destruct root; discriminate.
Qed.

Lemma SapConfig_of_kwargs_fuel args : SapConfig_of_kwargs args <> OutOfFuel.
Proof.
  unfold SapConfig_of_kwargs, SapConfig_init, __post_init__.
  repeat match goal with
         | |- context [if ?b then _ else _] => destruct b
         | |- context [match lookup ?k ?d with _ => _ end] => destruct (lookup k d)
         end; discriminate.
Qed.

Create HintDb tame.
#[local] Hint Resolve tame_ret tame_basicConfig tame_time_time tame_time_sleep tame_set_self
  py_iter_fuel py_in_fuel any_process_matches_fuel first_match_fuel
  SapConfig_of_kwargs_fuel : tame.

Ltac tame_step :=
  lazymatch goal with
  | |- tame (bind _ _) => apply tame_bind; [| intros ?]
  | |- tame (try_except _ _) => apply tame_try_except; [| intros ?]
  | |- tame (try_except_class _ _ _) => apply tame_try_except_class
  | |- tame (ret _) => apply tame_ret
  | |- tame (raise _ _) => apply tame_raise
  | |- tame (lift _) => apply tame_lift; auto with tame
  | |- tame (attr _ _) => apply tame_attr
  | |- tame (enter _) => apply tame_enter; reflexivity
  | |- tame (logging _ _) => apply tame_logging; reflexivity
  | |- tame (if ?b then _ else _) => destruct b
  | |- tame (match ?x with _ => _ end) => destruct x
  | |- tame _ => solve [auto with tame]
  end.

Ltac tame_tac := repeat tame_step.

Lemma tame_ext w c : tame (ext w c).
Proof.
  intros st. unfold ext. cbn. repeat split. destruct (script w (tick st)); discriminate.
Qed.
#[local] Hint Resolve tame_ext : tame.

Lemma tame_py_getattr w v name : tame (py_getattr w v name).
Proof. unfold py_getattr. tame_tac. Qed.

Lemma tame_py_setattr w v name x : tame (py_setattr w v name x).
Proof. unfold py_setattr. tame_tac. Qed.

Lemma tame_py_call w v name args : tame (py_call w v name args).
Proof. unfold py_call. tame_tac. Qed.

Lemma tame_py_lower v : tame (py_lower v).
Proof. unfold py_lower. tame_tac. Qed.
#[local] Hint Resolve tame_py_getattr tame_py_setattr tame_py_call tame_py_lower : tame.

Lemma tame_set_text w p v : tame v -> tame (set_text w p v).
Proof. intros H. unfold set_text, set_session. tame_tac. Qed.

Lemma tame_config_field f : tame (config_field f).
Proof. unfold config_field. tame_tac. Qed.

Lemma tame_sendVKey0 w : tame (sendVKey0 w).
Proof. unfold sendVKey0. tame_tac. Qed.
#[local] Hint Resolve tame_set_text tame_config_field tame_sendVKey0 : tame.

Lemma tame_search_drive w drive software : tame (search_drive w drive software).
Proof. unfold search_drive. tame_tac. Qed.
#[local] Hint Resolve tame_search_drive : tame.

Lemma tame_scan_drives w software start drives : tame (scan_drives w software start drives).
Proof.
  induction drives as [|drive rest IH]; cbn [scan_drives]; tame_tac.
Qed.
#[local] Hint Resolve tame_scan_drives : tame.

Lemma tame_run_application w software : tame (run_application w software).
Proof. unfold run_application, is_process_running. tame_tac. Qed.
#[local] Hint Resolve tame_run_application : tame.

Lemma tame_attach_session w cfg : tame (attach_session w cfg).
Proof.
  unfold attach_session, set_SapGuiAuto, set_connection, set_session. tame_tac.
Qed.
#[local] Hint Resolve tame_attach_session : tame.

Lemma tame_connect_attempt w cfg : tame (connect_attempt w cfg).
Proof. unfold connect_attempt. tame_tac. Qed.
#[local] Hint Resolve tame_connect_attempt : tame.

Lemma tame_retry_loop w cfg fuel :
  forall rc, 0 <= rc < DEFAULT_RETRY_ATTEMPTS ->
             DEFAULT_RETRY_ATTEMPTS - rc <= Z.of_nat fuel ->
             tame (retry_loop w fuel cfg rc).
Proof.
  unfold DEFAULT_RETRY_ATTEMPTS.
  induction fuel as [|fuel IH]; intros rc Hrc Hf; [lia |].
  cbn [retry_loop]. unfold DEFAULT_RETRY_ATTEMPTS.
  destruct (Z.ltb_spec rc 3); [| lia].
  apply tame_try_except; [auto with tame | intros e].
  destruct (Z.eqb_spec (rc + 1) 3); [apply tame_raise |].
  apply tame_bind; [auto with tame | intros _].
  apply IH; lia.
Qed.

Lemma tame_initialize_connection w cfg fuel :
  (3 <= fuel)%nat -> tame (_initialize_connection w fuel cfg).
Proof.
  intros H. unfold _initialize_connection, set_config.
  apply tame_bind; [tame_tac | intros _].
  apply tame_bind; [tame_tac | intros _].
  apply tame_retry_loop; unfold DEFAULT_RETRY_ATTEMPTS; lia.
Qed.

Lemma tame_SapGui__init__ w args fuel : (3 <= fuel)%nat -> tame (SapGui__init__ w fuel args).
Proof.
  intros H. pose proof (tame_initialize_connection w) as Hi.
  unfold SapGui__init__, _setup_logging. tame_tac.
Qed.

Lemma tame_handle_password_change w : tame (handle_password_change w).
Proof.
  unfold handle_password_change, generate_password, randrange, now_strftime. tame_tac.
Qed.

Lemma tame_handle_multiple_login w : tame (_handle_multiple_login w).
Proof. unfold _handle_multiple_login. tame_tac. Qed.

Lemma tame_verify_login w : tame (_verify_login w).
Proof. unfold _verify_login. tame_tac. Qed.

Lemma tame_submit_credentials w : tame (submit_credentials w).
Proof. unfold submit_credentials. tame_tac. Qed.
#[local] Hint Resolve tame_handle_password_change tame_handle_multiple_login
  tame_verify_login tame_submit_credentials : tame.

Lemma tame_sapLogin_try w : tame (sapLogin_try w).
Proof. unfold sapLogin_try. tame_tac. Qed.

(** ** Connection establishment *)

Section Launcher.
Variable w : World.

Lemma connect_attempt_returns cfg st u st' tr :
  connect_attempt w cfg st = (Ok u, st', tr) ->
  attached (self st') \/ unattached (self st').
Proof.
  unfold connect_attempt, bind.
  destruct (run_application w (path cfg) st) as [[[[]|e|] st1] t1]; cbn [negb];
    try discriminate.
  unfold time_sleep at 1.
  pose proof (attach_spec w cfg (mkState (self st1) (sap_bound st1) (tick st1) (now st1 + 2)))
    as Ha.
  unfold attach_post in Ha.
  destruct (attach_session w cfg _) as [[r2 st2] t2].
  intros H. injection H as -> -> _. exact Ha.
Qed.

Lemma connect_attempt_total cfg st : result_of (connect_attempt w cfg st) <> OutOfFuel.
Proof. apply tame_connect_attempt. Qed.

Lemma attempts_end cfg n st r st' tr :
  attempts w cfg n st r st' tr ->
  exists st0 tr0, connect_attempt w cfg st0 = (r, st', tr0).
Proof. induction 1; eauto. Qed.

(** One turn of the retry loop. *)
Lemma retry_step cfg fuel rc st :
  rc < DEFAULT_RETRY_ATTEMPTS ->
  retry_loop w (S fuel) cfg rc st
  = match connect_attempt w cfg st with
    | (Raise e, st1, t1) =>
        if (rc + 1 =? DEFAULT_RETRY_ATTEMPTS)%Z then
          (Raise (mk_exn SapGuiError
                    ("Failed to initialize after " ++ Str.of_Z (rc + 1)
                     ++ " attempts: " ++ str e)), st1, t1)
        else
          let '(r, st2, t2) := retry_loop w fuel cfg (rc + 1) (after_sleep RETRY_DELAY st1) in
          (r, st2, (t1 ++ Slept RETRY_DELAY :: t2)%list)
    | other => other
    end.
Proof.
  intros H. cbn [retry_loop]. apply Z.ltb_lt in H. rewrite H.
  unfold try_except, bind, time_sleep, raise, after_sleep.
  destruct (connect_attempt w cfg st) as [[[u|e|] st1] t1]; try reflexivity.
  destruct (rc + 1 =? DEFAULT_RETRY_ATTEMPTS)%Z.
  - now rewrite app_nil_r.
  - destruct (retry_loop w fuel cfg (rc + 1) _) as [[r st2] t2]. reflexivity.
Qed.

Lemma retry_loop_attempts cfg fuel st :
  (3 <= fuel)%nat ->
  exists n r_last st' tr,
    (1 <= n <= 3)%nat /\
    attempts w cfg n st r_last st' tr /\
    state_of (retry_loop w fuel cfg 0 st) = st' /\
    trace_of (retry_loop w fuel cfg 0 st) = tr /\
    match r_last with
    | Ok _ => result_of (retry_loop w fuel cfg 0 st) = Ok tt
    | Raise e =>
        n = 3%nat /\
        result_of (retry_loop w fuel cfg 0 st)
        = Raise (mk_exn SapGuiError ("Failed to initialize after 3 attempts: " ++ str e))
    | OutOfFuel => False
    end.
Proof.
  intros Hf. destruct fuel as [|[|[|fuel]]]; try lia. clear Hf.
  rewrite retry_step by reflexivity.
  pose proof (connect_attempt_total cfg st) as T1.
  destruct (connect_attempt w cfg st) as [[[[]|e1|] st1] t1] eqn:E1;
    [| | now elim T1].
  { exists 1%nat, (Ok tt), st1, t1. repeat split; try lia. now constructor. }
  change (0 + 1 =? DEFAULT_RETRY_ATTEMPTS)%Z with false. cbv beta iota zeta.
  rewrite retry_step by reflexivity.
  pose proof (connect_attempt_total cfg (after_sleep RETRY_DELAY st1)) as T2.
  destruct (connect_attempt w cfg (after_sleep RETRY_DELAY st1)) as [[[[]|e2|] st2] t2] eqn:E2;
    [| | now elim T2].
  { exists 2%nat, (Ok tt), st2, (t1 ++ Slept RETRY_DELAY :: t2)%list.
    repeat split; try lia. econstructor; [eassumption | now constructor]. }
  change (0 + 1 + 1 =? DEFAULT_RETRY_ATTEMPTS)%Z with false. cbv beta iota zeta.
  rewrite retry_step by reflexivity.
  pose proof (connect_attempt_total cfg (after_sleep RETRY_DELAY st2)) as T3.
  destruct (connect_attempt w cfg (after_sleep RETRY_DELAY st2)) as [[[[]|e3|] st3] t3] eqn:E3;
    [| | now elim T3].
  { exists 3%nat, (Ok tt), st3, (t1 ++ Slept RETRY_DELAY :: t2 ++ Slept RETRY_DELAY :: t3)%list.
    repeat split; try lia.
    econstructor; [eassumption |]. econstructor; [eassumption | now constructor]. }
  change (0 + 1 + 1 + 1 =? DEFAULT_RETRY_ATTEMPTS)%Z with true. cbv beta iota zeta.
  exists 3%nat, (Raise e3), st3, (t1 ++ Slept RETRY_DELAY :: t2 ++ Slept RETRY_DELAY :: t3)%list.
  repeat split; try lia.
  econstructor; [eassumption |]. econstructor; [eassumption | now constructor].
Qed.



End Launcher.





(** ** Element polling *)

Section Polling.
Variable w : World.
Hypothesis Hw : responsive w.

Lemma wait_loop_returns element_id timeout start fuel :
  forall st,
    Z.max 0 (start + timeout - now st) < Z.of_nat fuel ->
    polled w st (start + timeout) (wait_loop w fuel element_id timeout start st).
Proof.
  destruct Hw as [Hlag Hfalse].
  induction fuel as [|fuel IH]; intros st Hf; [lia |].
  destruct st as [[cfg auto conn ses] bound tk nw]. cbn [now] in Hf.
  cbn [wait_loop].
  pose proof (Hlag tk) as Hl.
  crunch.
  all: try match goal with
           | H : (_ <? _)%Z = true |- _ => apply Z.ltb_lt in H
           | H : (_ <? _)%Z = false |- _ => apply Z.ltb_ge in H
           end.
  all: try match goal with
           | H : script w _ = Returns ?v, T : truthy ?v = false |- _ =>
               pose proof (Hfalse _ _ H T)
           end.
  all: try match goal with
           | H : wait_loop _ _ _ _ _ ?st1 = _ |- _ =>
               let P := fresh "P" in
               pose proof (IH st1 ltac:(cbn [now]; lia)) as P; rewrite H in P;
               destruct P as (b' & st' & tr' & Eq & Hs & Ht & Hb & Hn);
               inversion Eq; subst; clear Eq
           end.
  all: unfold polled; do 3 eexists; (split; [reflexivity |]).
  all: rewrite ?slept_cons, ?teardown_cons; cbn [sleep_of teardown_obs app now sap_bound] in *.
  all: change (slept []) with 0 in *.
  all: repeat split; try assumption; try reflexivity; try lia.
  all: intros L HL.
  all: match goal with Hl : 0 <= lag _ ?k |- _ => pose proof (HL k) end.
  all: try match goal with
           | Hn : forall L, _ -> _ <= _ |- _ => specialize (Hn L HL)
           end.
  all: lia.
Qed.

Lemma wait_for_element_returns element_id timeout fuel st :
  Z.max 0 timeout < Z.of_nat fuel ->
  polled w st (now st + timeout) (wait_for_element w fuel element_id timeout st).
Proof.
  intros Hf. unfold wait_for_element, bind, enter, time_time.
  assert (H : Z.max 0 (now st + timeout - now st) < Z.of_nat fuel)
    by (replace (now st + timeout - now st) with timeout by lia; exact Hf).
  destruct (wait_loop_returns element_id timeout (now st) fuel st H)
    as (b & st' & tr & E & Hs & Ht & Hb & Hn).
  replace (now st + timeout - now st) with timeout in Hs by lia.
  rewrite E. exists b, st', (Entered "wait_for_element" :: tr). split; [reflexivity |].
  rewrite slept_cons, teardown_cons, Ht.
  replace (now st + timeout - now st) with timeout by lia.
  cbn [sleep_of]. repeat split; try assumption; try reflexivity; lia.
Qed.

Lemma tame_wait_for_element element_id timeout fuel :
  Z.max 0 timeout < Z.of_nat fuel -> tame (wait_for_element w fuel element_id timeout).
Proof.
  intros Hf st.
  destruct (wait_for_element_returns element_id timeout fuel st Hf)
    as (b & st' & tr & E & Hs & Ht & Hb & Hn).
  rewrite E. projs. repeat split; try assumption. discriminate.
Qed.

End Polling.

Section Pace.

Variable w : World.
Hypothesis Hlag : forall k, 0 <= lag w k.

Lemma wait_loop_paced element_id timeout start fuel :
  forall st, paced w st (start + timeout) (wait_loop w fuel element_id timeout start st).
Proof.
  induction fuel as [|fuel IH]; intros st; [exact I |].
  destruct st as [[cfg auto conn ses] bound tk nw].
  cbn [wait_loop].
  pose proof (Hlag tk) as Hl.
  crunch.
  all: try match goal with
           | H : (_ <? _)%Z = true |- _ => apply Z.ltb_lt in H
           | H : (_ <? _)%Z = false |- _ => apply Z.ltb_ge in H
           end.
  all: try match goal with
           | H : wait_loop _ _ _ _ _ ?st1 = _ |- _ =>
               let P := fresh "P" in
               pose proof (IH st1) as P; rewrite H in P; unfold paced in P;
               cbn [now] in P
           end.
  all: unfold paced.
  all: try match goal with |- match ?r with _ => _ end => destruct r end.
  all: try exact I; try contradiction.
  all: rewrite ?slept_cons; cbn [sleep_of now] in *.
  all: change (slept []) with 0 in *.
  all: try match goal with P : _ /\ _ |- _ => destruct P as [Hs Hn] end.
  all: (split; [lia |]).
  all: intros L HL.
  all: pose proof (HL tk).
  all: try match goal with
           | Hn : forall L, _ -> _ <= _ |- _ => specialize (Hn L HL)
           end.
  all: lia.
Qed.

Lemma wait_for_element_paced element_id timeout fuel st :
  paced w st (now st + timeout) (wait_for_element w fuel element_id timeout st).
Proof.
  unfold wait_for_element, bind, enter, time_time.
  pose proof (wait_loop_paced element_id timeout (now st) fuel st) as P.
  destruct (wait_loop w fuel element_id timeout (now st) st) as [[[b|e|] st'] tr];
    unfold paced in *; exact P.
Qed.

End Pace.

Lemma wait_loop_never_raises w element_id timeout start fuel :
  forall st, unraised (wait_loop w fuel element_id timeout start st).
Proof.
  induction fuel as [|fuel IH]; intros st; [intros e; discriminate |].
  destruct st as [[cfg auto conn ses] bound tk nw].
  cbn [wait_loop].
  crunch.
  all: try match goal with
           | H : wait_loop _ _ _ _ _ ?st1 = _ |- _ =>
               let P := fresh "P" in
               pose proof (IH st1) as P; rewrite H in P
           end.
  all: try assumption.
  all: intros e; discriminate.
Qed.

Lemma step_measure (m d n n' c c' f : Z) :
  0 <= c -> 0 <= c' < m -> n + 1 <= n' -> n < d ->
  m * (d - n - 1) + c + 1 < f + 1 ->
  m * (d - n' - 1) + c' + 1 < f.
Proof. intros. nia. Qed.

Section Ends.

Variable w : World.
Variable m : nat.
Hypothesis Hw : time_passes w m.

Lemma wait_loop_ends element_id timeout start fuel :
  forall st c,
    idle w (tick st + c) = false -> (c < m)%nat ->
    (0 < fuel)%nat ->
    (now st < start + timeout ->
     Z.of_nat m * (start + timeout - now st - 1) + Z.of_nat c + 1 < Z.of_nat fuel) ->
    ended (wait_loop w fuel element_id timeout start st).
Proof.
  destruct Hw as [Hlag Hidle].
  induction fuel as [|fuel IH]; intros st c Hc Hm Hpos Hf; [lia |].
  destruct st as [[cfg auto conn ses] bound tk nw]. cbn [now tick] in *.
  cbn [wait_loop].
  pose proof (Hlag tk) as Hl.
  destruct (Hidle (S tk)) as (c' & Hm' & Hc').
  crunch.
  all: try match goal with
           | H : (_ <? _)%Z = true |- _ => apply Z.ltb_lt in H
           | H : (_ <? _)%Z = false |- _ => apply Z.ltb_ge in H
           end.
  all: try (unfold ended, result_of; cbn [fst]; discriminate).
  all: assert (Hfu : Z.of_nat m * (start + timeout - nw - 1) + Z.of_nat c + 1
                     < Z.of_nat (S fuel)) by (apply Hf; lia).
  all: assert (Hfp : (0 < fuel)%nat) by nia.
  all: match goal with
       | H : wait_loop _ _ _ _ _ _ = (?r, ?s, ?l) |- _ =>
           change (ended (r, s, l)); rewrite <- H
       end.
  all: try match goal with
           | Hs : script _ ?k = Returns ?v, Ht : truthy ?v = false |- _ =>
               destruct (Z.ltb_spec (lag w k) 1) as [Hz | Hz];
               [destruct c as [|c0];
                [exfalso; rewrite Nat.add_0_r in Hc; unfold idle in Hc;
                 rewrite Hs, Ht in Hc; apply Z.ltb_lt in Hz; rewrite Hz in Hc;
                 discriminate Hc
                |apply IH with (c := c0);
                 [cbn [tick]; rewrite Nat.add_succ_comm; exact Hc | lia | exact Hfp
                 |cbn [now]; replace (lag w k) with 0 by lia; rewrite Z.add_0_r; lia]]
               |]
           end.
  all: first
         [ apply IH with (c := c); [exact Hc | exact Hm | exact Hfp |];
           cbn [now]; intros; nia
         | apply IH with (c := c'); [exact Hc' | exact Hm' | exact Hfp |];
           cbn [now]; intros;
           apply step_measure with (n := nw) (c := Z.of_nat c); lia ].
Qed.

End Ends.
Lemma wait_for_element_ends w m element_id timeout fuel st :
  time_passes w m ->
  Z.of_nat m * Z.max 0 timeout < Z.of_nat fuel ->
  ended (wait_for_element w fuel element_id timeout st).
Proof.
  intros Hw Hf.
  destruct (proj2 Hw (tick st)) as (c & Hm & Hc).
  assert (E : ended (wait_loop w fuel element_id timeout (now st) st)).
  { apply (wait_loop_ends w m Hw) with (c := c); [exact Hc | exact Hm | nia |].
    intros Hn. nia. }
  revert E. unfold wait_for_element, bind, enter, time_time, ended.
  destruct (wait_loop w fuel element_id timeout (now st) st) as [[r st'] tr].
  destruct r; intros E; projs; congruence.
Qed.

Lemma responsive_time_passes w : responsive w <-> time_passes w 1.
Proof.
  unfold responsive, time_passes, idle. split; intros [Hlag H]; (split; [exact Hlag |]).
  - intros k. exists 0%nat. split; [lia |]. rewrite Nat.add_0_r.
    destruct (script w k) as [v|e] eqn:E; [| reflexivity].
    destruct (truthy v) eqn:T; [reflexivity |].
    specialize (H k v E T). cbn. apply Z.ltb_ge. exact H.
  - intros k v E T. destruct (H k) as (j & Hj & Hi).
    replace (k + j)%nat with k in Hi by lia.
    rewrite E, T in Hi. cbn in Hi. apply Z.ltb_ge in Hi. exact Hi.
Qed.

(** C9. The default timeout is 60.  With a timeout of 0 or less,
    [wait_for_element] returns [False] at once: the state is unchanged, and
    nothing was probed and nothing slept.  With any timeout it does not
    raise, and it returns a boolean in every world in which time passes:
    the loop is left once the clock has reached the timeout.  The timeout
    bounds the start of a probe, not the return: when the call returns,
    the time it has slept is at most the timeout, and less than the
    timeout, the time one probe takes and the second of one sleep have
    gone by. *)
Theorem wait_for_element_bounded (w : World) (element_id : string) (st : State) :
  DEFAULT_TIMEOUT = 60 /\
  (forall fuel timeout,
     timeout <= 0 ->
     wait_for_element w (S fuel) element_id timeout st
     = (Ok false, st, [Entered "wait_for_element"])) /\
  (forall fuel timeout e,
     result_of (wait_for_element w fuel element_id timeout st) <> Raise e) /\
  (forall m fuel timeout,
     time_passes w m ->
     Z.of_nat m * Z.max 0 timeout < Z.of_nat fuel ->
     exists b, result_of (wait_for_element w fuel element_id timeout st) = Ok b) /\
  ((forall k, 0 <= lag w k) ->
   forall fuel timeout b st' tr,
     wait_for_element w fuel element_id timeout st = (Ok b, st', tr) ->
     0 <= slept tr <= Z.max 0 timeout /\
     forall L, (forall k, lag w k <= L) ->
               now st' - now st < Z.max 0 timeout + L + 1).
Proof.
  assert (NR : forall fuel timeout,
             unraised (wait_for_element w fuel element_id timeout st)).
  { intros fuel timeout e. unfold wait_for_element, bind, enter, time_time.
    pose proof (wait_loop_never_raises w element_id timeout (now st) fuel st e) as H.
    destruct (wait_loop w fuel element_id timeout (now st) st) as [[[b|e'|] st'] tr];
      projs; congruence. }
  split; [reflexivity |]. split; [| split; [| split]].
  - intros fuel timeout Ht. unfold wait_for_element, bind, enter, time_time.
    cbn [wait_loop]. unfold bind, time_time, ret. cbv beta iota zeta.
    rewrite Z.sub_diag. destruct (Z.ltb_spec 0 timeout); [lia | reflexivity].
  - intros fuel timeout. apply NR.
  - intros m fuel timeout Hw Hf.
    pose proof (wait_for_element_ends w m element_id timeout fuel st Hw Hf) as E.
    pose proof (NR fuel timeout) as R. unfold ended, unraised in *.
    destruct (result_of (wait_for_element w fuel element_id timeout st)) as [b|e|].
    + exists b. reflexivity.
    + destruct (R e eq_refl).
    + destruct (E eq_refl).
  - intros Hlag fuel timeout b st' tr E.
    pose proof (wait_for_element_paced w Hlag element_id timeout fuel st) as P.
    rewrite E in P. unfold paced in P. destruct P as [Hs Hn].
    replace (now st + timeout - now st) with timeout in Hs by lia.
    split; [exact Hs |]. intros L HL. specialize (Hn L HL).
    pose proof (Hlag 0%nat). pose proof (HL 0%nat). lia.
Qed.

Lemma wait_for_element_bounded_witness :
  (exists b,
     result_of (wait_for_element element_never_appears 61 "wnd[0]/usr/ctxtVBAK-AUART"
                  DEFAULT_TIMEOUT attached_state) = Ok b) /\
  (0 <= slept (trace_of (wait_for_element slow_probe 2 "wnd[0]/usr/ctxtVBAK-AUART"
                           1 attached_state)) <= Z.max 0 1 /\
   forall L, (forall k, lag slow_probe k <= L) ->
     now (state_of (wait_for_element slow_probe 2 "wnd[0]/usr/ctxtVBAK-AUART"
                      1 attached_state))
     - now attached_state < Z.max 0 1 + L + 1).
Proof.
  split.
  - apply (proj1 (proj2 (proj2 (proj2 (wait_for_element_bounded element_never_appears
                    "wnd[0]/usr/ctxtVBAK-AUART" attached_state)))) 1%nat).
    + apply responsive_time_passes, responsive_world_of.
    + reflexivity.
  - apply (proj2 (proj2 (proj2 (proj2 (wait_for_element_bounded slow_probe
                    "wnd[0]/usr/ctxtVBAK-AUART" attached_state))))
             ltac:(intros k; cbn; lia) 2%nat 1 true).
    reflexivity.
Defined.

(** C9, as stated, fails when a probe is slow: the timeout is not a bound
    on the return.  A first probe that takes 100 time units and finds the
    element brings [wait_for_element] back with [True] after 100 units,
    whatever the fuel, when the timeout was 1. *)
Lemma probe_outlasts_timeout :
  ~ exists fuel,
      back_within_timeout slow_probe fuel "wnd[0]/usr/ctxtVBAK-AUART" 1 attached_state.
Proof.
  intros (fuel & b & st' & tr & E & H).
  destruct fuel as [|fuel]; [discriminate E |].
  cbv in E. inversion E; subst. cbv in H. apply H. reflexivity.
Qed.

(** ** Teardown *)

Lemma invocations_logout tr : invocations "sapLogout" tr = count_step logout (teardown tr).
Proof.
  unfold invocations, count_step, teardown.
  induction tr as [|e tr IH]; [reflexivity |].
  cbn [filter flat_map]. rewrite filter_app, length_app, <- IH.
  destruct e as [| |[] msg| |f]; try reflexivity.
  - cbn. destruct (prefix _ _); reflexivity.
  - cbn [is_entry teardown_obs].
    destruct (String.eqb_spec f "sapLogout") as [-> | Hn]; [reflexivity |].
    destruct (String.eqb f "close_connection"); reflexivity.
Qed.

Lemma invocations_close tr :
  invocations "close_connection" tr = count_step release (teardown tr).
Proof.
  unfold invocations, count_step, teardown.
  induction tr as [|e tr IH]; [reflexivity |].
  cbn [filter flat_map]. rewrite filter_app, length_app, <- IH.
  destruct e as [| |[] msg| |f]; try reflexivity.
  - cbn. destruct (prefix _ _); reflexivity.
  - cbn [is_entry teardown_obs].
    destruct (String.eqb_spec f "sapLogout") as [-> | Hn]; [reflexivity |].
    destruct (String.eqb f "close_connection"); reflexivity.
Qed.

Lemma read_sap_run st :
  read_sap st = (if sap_bound st then Ok tt
                 else Raise (mk_exn UnboundLocalError
                   "cannot access local variable 'sap' where it is not associated with a value"),
                 st, []).
Proof. unfold read_sap. destruct (sap_bound st); reflexivity. Qed.

Section Main.
Variable w : World.
Hypothesis Hw : responsive w.
Variable fuel : nat.
Hypothesis Hfuel : 60 < Z.of_nat fuel.

Lemma tame_perform_operation command element timeout :
  Z.max 0 timeout < Z.of_nat fuel ->
  tame (perform_operation w fuel command element timeout).
Proof.
  intros Ht. pose proof (tame_wait_for_element w Hw) as Hwait.
  unfold perform_operation. tame_tac.
Qed.

Lemma tame_create_sales_order : tame (create_sales_order w fuel).
Proof.
  pose proof tame_perform_operation as Hp.
  unfold create_sales_order. tame_tac.
Qed.

Lemma create_sales_order_returns st :
  exists a, result_of (create_sales_order w fuel st) = Ok a.
Proof.
  pose proof tame_perform_operation as Hp.
  unfold create_sales_order, enter, try_except, bind, logging, ret.
  cbv beta iota zeta.
  match goal with
  | |- context [perform_operation w fuel ?c ?e ?t st] =>
      pose proof (Hp c e t ltac:(unfold DEFAULT_TIMEOUT; lia) st) as (H & _);
      destruct (perform_operation w fuel c e t st) as [[[a|e'|] st1] t1]
  end; projs; [| eauto | congruence].
  unfold ext. destruct (script w (tick st1)); projs; eauto.
Qed.

Lemma sapLogin_spec st : login_post st (sapLogin w st).
Proof.
  unfold sapLogin, enter, try_except, bind, logging, ret.
  pose proof (tame_sapLogin_try w st) as (H1 & H2 & H3).
  destruct (sapLogin_try w st) as [[[b|e|] st1] t1]; projs; [| | congruence].
  - unfold login_post. split; [exact H2 |]. left. split; [eauto |].
    teardown_norm. rewrite H3. reflexivity.
  - pose proof (close_spec w st1) as Hc. unfold close_post in Hc.
    destruct (close_connection w st1) as [[rc stc] tc].
    destruct Hc as (-> & _ & Hc & Hb). unfold login_post.
    split; [congruence |]. right. split; [reflexivity |].
    teardown_norm. rewrite H3, Hc, teardown_login_failed. reflexivity.
Qed.

Lemma new_SapGui_spec args st : acquired_post st (new_SapGui w fuel args st).
Proof.
  unfold new_SapGui, bind. cbv beta iota zeta.
  assert (H3 : (3 <= fuel)%nat) by lia.
  pose proof (tame_SapGui__init__ w args fuel H3
                (mkState blank (sap_bound st) (tick st) (now st))) as (H & Hb & Ht).
  destruct (SapGui__init__ w fuel args _) as [[[u|e|] st1] t1]; projs;
    unfold acquired_post; [| | congruence].
  - split; [discriminate |]. split; [| reflexivity].
    teardown_norm. rewrite Ht. reflexivity.
  - split; [discriminate |]. split; [| exact Hb].
    teardown_norm. exact Ht.
Qed.

Lemma main_try_spec st : sap_bound st = false -> main_try_post (main_try w fuel st).
Proof.
  intros Hst. unfold main_try, bind.
  pose proof (new_SapGui_spec get_sap_config st) as Ha. unfold acquired_post in Ha.
  destruct (new_SapGui w fuel get_sap_config st) as [[[u|e|] st1] t1];
    destruct Ha as (Hf & Ht1 & Hb1); [| | congruence].
  2:{ unfold main_try_post. split; [discriminate |]. left. split; congruence. }
  rewrite read_sap_run, Hb1. cbv beta iota zeta.
  pose proof (sapLogin_spec st1) as Hl. unfold login_post in Hl.
  destruct (sapLogin w st1) as [[r2 st2] t2]. destruct Hl as (Hb2 & Hl).
  assert (B2 : sap_bound st2 = true) by congruence.
  destruct Hl as [[[b ->] Ht2] | [-> Ht2]].
  2:{ cbn [negb]. unfold raise. unfold main_try_post. split; [discriminate |].
      right. split; [exact B2 |]. right.
      teardown_norm. rewrite Ht1, Ht2. reflexivity. }
  destruct b; cbn [negb].
  2:{ unfold raise. unfold main_try_post. split; [discriminate |].
      right. split; [exact B2 |]. left.
      teardown_norm. rewrite Ht1, Ht2. reflexivity. }
  rewrite read_sap_run, B2. cbv beta iota zeta.
  pose proof (tame_create_sales_order st2) as (Hf3 & Hb3 & Ht3).
  destruct (create_sales_order_returns st2) as [a Ha3].
  destruct (create_sales_order w fuel st2) as [[r3 st3] t3]. projs. subst r3.
  assert (B3 : sap_bound st3 = true) by congruence.
  unfold main_try_post.
  destruct a as [[|c rest]|]; unfold logging, ret; cbv beta iota zeta;
    (split; [discriminate |]); right; (split; [exact B3 |]); left.
  all: teardown_norm; rewrite Ht1, Ht2, Ht3; reflexivity.
Qed.

Lemma main_finally_spec st : main_finally_post st (main_finally w st).
Proof.
  unfold main_finally, try_except, bind. rewrite read_sap_run.
  destruct (sap_bound st) eqn:B; cbv beta iota zeta.
  2:{ unfold logging, main_finally_post. rewrite B. repeat split; assumption. }
  pose proof (logout_spec w st) as Ho. unfold logout_post in Ho.
  destruct (sapLogout w st) as [[r1 st1] t1]. destruct Ho as (-> & Ht1 & Hb1).
  rewrite read_sap_run, Hb1, B. cbv beta iota zeta.
  pose proof (close_spec w st1) as Hc. unfold close_post in Hc.
  destruct (close_connection w st1) as [[r2 st2] t2]. destruct Hc as (-> & _ & Ht2 & Hb2).
  unfold main_finally_post. rewrite B. repeat split; [congruence |].
  teardown_norm. rewrite Ht1, Ht2. reflexivity.
Qed.

End Main.

(** ** Teardown, whatever the fuel *)

Section Calm.
Context {A B : Type}.

Lemma tame_calm (m : M A) : tame m -> calm m.
Proof. intros H st. destruct (H st) as (_ & H2 & H3). split; assumption. Qed.

Lemma calm_bind (m : M A) (k : A -> M B) :
  calm m -> (forall a, calm (k a)) -> calm (bind m k).
Proof.
  intros Hm Hk st. unfold bind. specialize (Hm st).
  destruct (m st) as [[[a|e|] st1] t1]; projs; destruct Hm as (H2 & H3).
  - specialize (Hk a st1). destruct (k a st1) as [[r st2] t2]. projs.
    destruct Hk as (K2 & K3). rewrite teardown_app, H3, K3. split; [congruence | reflexivity].
  - split; assumption.
  - split; assumption.
Qed.

Lemma calm_try_except (m : M A) (h : exn -> M A) :
  calm m -> (forall e, calm (h e)) -> calm (try_except m h).
Proof.
  intros Hm Hh st. unfold try_except. specialize (Hm st).
  destruct (m st) as [[[a|e|] st1] t1]; projs; destruct Hm as (H2 & H3).
  - split; assumption.
  - specialize (Hh e st1). destruct (h e st1) as [[r st2] t2]. projs.
    destruct Hh as (K2 & K3). rewrite teardown_app, H3, K3. split; [congruence | reflexivity].
  - split; assumption.
Qed.

End Calm.

Ltac calm_step :=
  lazymatch goal with
  | |- calm (bind _ _) => apply calm_bind; [| intros ?]
  | |- calm (try_except _ _) => apply calm_try_except; [| intros ?]
  | |- calm (if ?b then _ else _) => destruct b
  | |- calm (match ?x with _ => _ end) => destruct x
  | |- calm _ => first [ solve [auto] | solve [apply tame_calm; tame_tac] ]
  end.

Ltac calm_tac := repeat calm_step.

Lemma calm_retry_loop w cfg fuel : forall rc, calm (retry_loop w fuel cfg rc).
Proof.
  induction fuel as [|fuel IH]; intros rc; [intros st; split; reflexivity |].
  cbn [retry_loop]. specialize (IH (rc + 1)). calm_tac.
Qed.

Lemma calm_SapGui__init__ w fuel args : calm (SapGui__init__ w fuel args).
Proof.
  assert (H : forall cfg, calm (retry_loop w fuel cfg 0))
    by (intros cfg; apply calm_retry_loop).
  unfold SapGui__init__, _initialize_connection, _setup_logging, set_config. calm_tac.
Qed.

Lemma calm_wait_loop w element_id timeout start fuel :
  calm (wait_loop w fuel element_id timeout start).
Proof.
  induction fuel as [|fuel IH]; [intros st; split; reflexivity |].
  cbn [wait_loop]. calm_tac.
Qed.

Lemma calm_create_sales_order w fuel : calm (create_sales_order w fuel).
Proof.
  assert (H : forall e t s, calm (wait_loop w fuel e t s))
    by (intros; apply calm_wait_loop).
  unfold create_sales_order, perform_operation, wait_for_element. calm_tac.
Qed.
Lemma new_SapGui_bound w fuel args st :
  let x := new_SapGui w fuel args st in
  teardown (trace_of x) = [] /\
  match result_of x with
  | Ok _ => sap_bound (state_of x) = true
  | _ => sap_bound (state_of x) = sap_bound st
  end.
Proof.
  cbv zeta. unfold new_SapGui, bind. cbv beta iota zeta.
  pose proof (calm_SapGui__init__ w fuel args
                (mkState blank (sap_bound st) (tick st) (now st))) as (Hb & Ht).
  destruct (SapGui__init__ w fuel args _) as [[[u|e|] st1] t1]; projs.
  - split; [| reflexivity]. teardown_norm. rewrite Ht. reflexivity.
  - split; [exact Ht | exact Hb].
  - split; [exact Ht | exact Hb].
Qed.

Lemma sapLogin_cases w st :
  let x := sapLogin w st in
  sap_bound (state_of x) = sap_bound st /\
  match result_of (sapLogin_try w st) with
  | Ok b => result_of x = Ok b /\ teardown (trace_of x) = []
  | Raise _ => result_of x = Ok false /\ teardown (trace_of x) = [login_failed; release]
  | OutOfFuel => False
  end.
Proof.
  cbv zeta. unfold sapLogin, enter, try_except, bind, logging, ret.
  pose proof (tame_sapLogin_try w st) as (H1 & H2 & H3).
  destruct (sapLogin_try w st) as [[[b|e|] st1] t1]; projs; [| | congruence].
  - split; [exact H2 |]. split; [reflexivity |].
    teardown_norm. rewrite H3. reflexivity.
  - pose proof (close_spec w st1) as Hc. unfold close_post in Hc.
    destruct (close_connection w st1) as [[rc stc] tc].
    destruct Hc as (-> & _ & Hc & Hb). projs.
    split; [congruence |]. split; [reflexivity |].
    teardown_norm. rewrite H3, Hc, teardown_login_failed. reflexivity.
Qed.

Lemma main_try_teardown w fuel st :
  sap_bound st = false -> main_try_cases w fuel st (main_try w fuel st).
Proof.
  intros Hst. unfold main_try_cases. cbv zeta. unfold main_try. unfold bind at 1.
  pose proof (new_SapGui_bound w fuel get_sap_config st) as Ha. cbv zeta in Ha.
  destruct (new_SapGui w fuel get_sap_config st) as [[[u|e|] st1] t1]; projs;
    destruct Ha as (Ht1 & Hb1).
  2:{ right. split; congruence. }
  2:{ left. reflexivity. }
  unfold bind at 1. rewrite read_sap_run, Hb1. cbv beta iota zeta.
  unfold bind at 1.
  pose proof (sapLogin_cases w st1) as Hl. cbv zeta in Hl.
  destruct (sapLogin w st1) as [[r2 st2] t2]. projs. destruct Hl as (Hb2 & Hl).
  assert (B2 : sap_bound st2 = true) by congruence.
  destruct (sapLogin_try w st1) as [[[b|e|] s'] t']; projs; [| | contradiction].
  2:{ destruct Hl as [-> Ht2]. cbn [negb]. unfold raise. right.
      split; [exact B2 |]. teardown_norm. rewrite Ht1, Ht2. reflexivity. }
  destruct Hl as [-> Ht2].
  destruct b; cbn [negb].
  2:{ unfold raise. right. split; [exact B2 |].
      teardown_norm. rewrite Ht1, Ht2. reflexivity. }
  unfold bind at 1. rewrite read_sap_run, B2. cbv beta iota zeta.
  unfold bind.
  pose proof (calm_create_sales_order w fuel st2) as (Hb3 & Ht3).
  destruct (create_sales_order w fuel st2) as [[r3 st3] t3]. projs.
  assert (B3 : sap_bound st3 = true) by congruence.
  destruct r3 as [[[|c rest]|]| |]; unfold logging, ret; cbv beta iota zeta;
    [right | right | right | right | left; reflexivity].
  all: (split; [exact B3 |]).
  all: teardown_norm; rewrite Ht1, Ht2, Ht3; reflexivity.
Qed.

Lemma main_returns w fuel st :
  responsive w -> 60 < Z.of_nat fuel -> sap_bound st = false ->
  exists st' tr, main w fuel st = (Ok tt, st', tr).
Proof.
  intros Hw Hfuel Hst.
  unfold main, enter, logging_basicConfig, try_finally, try_except, bind.
  cbv beta iota zeta.
  pose proof (main_try_spec w Hw fuel Hfuel st Hst) as Ht. unfold main_try_post in Ht.
  destruct (main_try w fuel st) as [[r1 st1] t1]. destruct Ht as (Hf1 & _).
  destruct r1 as [[]|e|]; [| | congruence]; unfold logging; cbv beta iota zeta.
  all: pose proof (main_finally_spec w st1) as Hm; unfold main_finally_post in Hm.
  all: destruct (main_finally w st1) as [[r2 st2] t2]; destruct Hm as (-> & _ & _).
  all: eexists; eexists; reflexivity.
Qed.

(** C8. A run of [main] that starts with [sap] unbound does not raise, and
    when it has come back, what was torn down follows from how the
    construction of [SapGui] and the [try] block of the login went.  When
    the construction did not return, [sap] is unbound and neither logout
    nor release runs.  When it returned, the [finally] clause runs one
    logout followed by one release; when in addition the [try] block of
    the login raised, the login had released the connection itself
    before, so that [close_connection] is entered twice.  In the model a
    run can fail to come back only by running out of fuel, which does not
    happen in a world that lets time pass with fuel above 60. *)
Theorem teardown_runs (w : World) (fuel : nat) (st : State) :
  sap_bound st = false ->
  let x := main w fuel st in
  let acquire := new_SapGui w fuel get_sap_config st in
  let tr := trace_of x in
  match result_of x with
  | Ok _ =>
      match result_of acquire with
      | Ok _ =>
          match result_of (sapLogin_try w (state_of acquire)) with
          | Raise _ =>
              teardown tr = [login_failed; release; logout; release] /\
              invocations "sapLogout" tr = 1%nat /\
              invocations "close_connection" tr = 2%nat
          | _ =>
              teardown tr = [logout; release] /\
              invocations "sapLogout" tr = 1%nat /\
              invocations "close_connection" tr = 1%nat
          end
      | _ =>
          teardown tr = [] /\
          invocations "sapLogout" tr = 0%nat /\
          invocations "close_connection" tr = 0%nat
      end
  | Raise _ => False
  | OutOfFuel => ~ (responsive w /\ 60 < Z.of_nat fuel)
  end.
Proof.
  intros Hst. cbv zeta.
  pose proof (main_try_teardown w fuel st Hst) as Ht. unfold main_try_cases in Ht.
  cbv zeta in Ht.
  assert (R : responsive w /\ 60 < Z.of_nat fuel -> result_of (main w fuel st) = Ok tt).
  { intros [Hw Hf]. destruct (main_returns w fuel st Hw Hf Hst) as (st' & tr & ->).
    reflexivity. }
  revert R.
  rewrite invocations_logout, invocations_close.
  destruct (new_SapGui w fuel get_sap_config st) as [[ra sa] ta].
  unfold state_of at 1, result_of at 2. cbn [fst snd].
  unfold state_of at 1, result_of at 1 in Ht. cbn [fst snd] in Ht.
  destruct (sapLogin_try w sa) as [[rl sl] tl].
  unfold result_of at 2. unfold result_of at 1 in Ht. cbn [fst snd] in *.
  unfold main, enter, logging_basicConfig, try_finally, try_except, bind.
  cbv beta iota zeta.
  destruct (main_try w fuel st) as [[r1 st1] t1].
  assert (Hsaf : forall e, teardown_obs (Logged ERROR ("SAP automation failed: " ++ str e)) = [])
    by reflexivity.
  destruct r1 as [[]|e|]; unfold logging; cbv beta iota zeta.
  3:{ projs. intros R H. specialize (R H). discriminate R. }
  all: pose proof (main_finally_spec w st1) as Hm; unfold main_finally_post in Hm.
  all: destruct (main_finally w st1) as [[r2 st2] t2]; destruct Hm as (-> & Hb2 & Ht2).
  all: projs; intros _.
  all: destruct Ht as [Ht | Ht]; [discriminate Ht |].
  all: teardown_norm; rewrite ?Hsaf, Ht2.
  all: destruct ra as [u|e0|].
  all: try (destruct Ht as [B T]; rewrite B, T; repeat split; reflexivity).
  all: destruct Ht as [B T]; rewrite B.
  all: destruct rl as [b|e1|]; rewrite T; repeat split; reflexivity.
Qed.

Lemma teardown_runs_witness :
  teardown (trace_of (main login_raises 61 initial))
  = [login_failed; release; logout; release] /\
  invocations "sapLogout" (trace_of (main login_raises 61 initial)) = 1%nat /\
  invocations "close_connection" (trace_of (main login_raises 61 initial)) = 2%nat.
Proof.
  pose proof (teardown_runs login_raises 61 initial eq_refl) as H.
  vm_compute in H. vm_compute. exact H.
Defined.

(** C8, as stated, fails when the login raises: the connection is released
    twice, once by the login itself and once by the driver. *)
Lemma release_invoked_twice : ~ teardown_once (trace_of (main login_raises 61 initial)).
Proof.
  unfold teardown_once. intros [_ H]. vm_compute in H. discriminate H.
Qed.

(** * Further properties

    What the launcher, the constructor, the login stages, the element
    helpers and [main] guarantee besides. *)

Arguments parent_path : simpl never.
Arguments logon_multiplo : simpl never.

Ltac eqb_subst :=
  repeat match goal with
         | H : String.eqb _ _ = true |- _ => apply String.eqb_eq in H; subst
         end.

Ltac paths := cbn; repeat split; intros; tidy; eqb_subst; try congruence; eauto.

(** Turn a statement about a run into a predicate applied to the run, the
    shape [crunch] follows. *)
Ltac on_run :=
  lazymatch goal with
  | |- context [trace_of ?m] =>
      pattern m;
      lazymatch goal with |- ?P _ => let Q := fresh "Q" in set (Q := P) end
  end.

(** At the end of a path: back to the statement. *)
Ltac at_end := lazymatch goal with Q := _ |- _ => subst Q end; cbv beta.

(** ** Splitting and joining *)

Lemma split_nonempty sep s : Str.split sep s <> [].
Proof.
  destruct s as [|c s]; cbn; [discriminate |].
  destruct (Ascii.eqb c sep); [discriminate |].
  destruct (Str.split sep s); discriminate.
Qed.

Lemma split_no_sep sep s : has_char sep s = false -> Str.split sep s = [s].
Proof.
  induction s as [|c s IH]; cbn; [reflexivity |].
  intros H. apply orb_false_iff in H as [H1 H2]. rewrite H1, (IH H2). reflexivity.
Qed.

Lemma split_cons_sep sep a b :
  has_char sep a = false ->
  Str.split sep (a ++ String sep b) = a :: Str.split sep b.
Proof.
  induction a as [|c a IH]; cbn.
  - intros _. rewrite Ascii.eqb_refl. reflexivity.
  - intros H. apply orb_false_iff in H as [H1 H2]. rewrite H1, (IH H2). reflexivity.
Qed.

Lemma split_app_sep sep a b :
  Str.split sep (a ++ String sep b) = (Str.split sep a ++ Str.split sep b)%list.
Proof.
  induction a as [|c a IH]; cbn.
  - rewrite Ascii.eqb_refl. reflexivity.
  - destruct (Ascii.eqb c sep); [rewrite IH; reflexivity |].
    rewrite IH. destruct (Str.split sep a) eqn:E; [now apply split_nonempty in E |].
    reflexivity.
Qed.

Lemma join_split sep s : join_with (String sep "") (Str.split sep s) = s.
Proof.
  induction s as [|c s IH]; cbn; [reflexivity |].
  destruct (Ascii.eqb c sep) eqn:E.
  - apply Ascii.eqb_eq in E. subst c.
    destruct (Str.split sep s) eqn:S; [now apply split_nonempty in S |].
    rewrite <- S in *. cbn. rewrite S. rewrite <- S. rewrite IH. reflexivity.
  - destruct (Str.split sep s) as [|h t] eqn:S; [now apply split_nonempty in S |].
    cbn in *. destruct t; cbn in *; [congruence |].
    rewrite <- IH. reflexivity.
Qed.

(** X1. Splitting the drive strings at NUL and dropping the last piece, as
    [run_application] does, gives back the volumes: for every list of
    volume roots that contain no NUL, the drives searched are exactly those
    roots, in order. *)
Theorem drive_strings_round_trip (drives : list string) :
  Forall (fun d => has_char Ascii.zero d = false) drives ->
  removelast (Str.split Ascii.zero (drive_strings drives)) = drives.
Proof.
  induction 1 as [|d ds Hd _ IH]; [reflexivity |].
  cbn [drive_strings]. rewrite split_cons_sep by exact Hd.
  pose proof (split_nonempty zero (drive_strings ds)) as N.
  destruct (Str.split zero (drive_strings ds)) as [|x l] eqn:S; [congruence |].
  change (removelast (d :: x :: l)) with (d :: removelast (x :: l)).
  rewrite IH. reflexivity.
Qed.

Lemma drive_strings_round_trip_witness :
  removelast (Str.split Ascii.zero (drive_strings ["C:\"; "D:\"])) = ["C:\"; "D:\"].
Proof.
  apply (drive_strings_round_trip ["C:\"; "D:\"]).
  repeat constructor.
Defined.

(** X2. The path [scroll_to_field] falls back to is the parent of the
    field: for a path made of a parent, a slash and a last component
    without slash, it is the parent; for a path without any slash it is
    the empty string. *)
Theorem parent_path_of_child (parent leaf : string) :
  has_char "/" leaf = false ->
  parent_path (parent ++ "/" ++ leaf) = parent /\ parent_path leaf = "".
Proof.
  intros H. unfold parent_path. split.
  - cbn [append]. rewrite split_app_sep, (split_no_sep _ _ H), removelast_last.
    apply (join_split "/").
  - rewrite (split_no_sep _ _ H). reflexivity.
Qed.

Lemma parent_path_of_child_witness :
  parent_path ("wnd[0]/usr" ++ "/" ++ "txtVBELN") = "wnd[0]/usr" /\
  parent_path "txtVBELN" = "".
Proof.
  apply (parent_path_of_child "wnd[0]/usr" "txtVBELN"). reflexivity.
Defined.

(** ** get_dates *)

(** X3. For a current date after the year 1000, [get_dates] returns the
    first day of the month before the current one, December of the year
    before when the current month is January, and as end date the current
    date itself, both as day.month.year. *)
Theorem get_dates_previous_month (d : datetime.date) :
  datetime.valid d ->
  1000 < datetime.year d ->
  get_dates d
  = Ok ("01." ++ datetime.two_digits (if Z.eqb (datetime.month d) 1 then 12
                                      else datetime.month d - 1)
        ++ "." ++ Str.of_Z (if Z.eqb (datetime.month d) 1 then datetime.year d - 1
                            else datetime.year d),
        datetime.two_digits (datetime.day d) ++ "." ++
        datetime.two_digits (datetime.month d) ++ "." ++ Str.of_Z (datetime.year d)).
Proof.
  destruct d as [y m dd]. unfold datetime.valid. cbn [datetime.year datetime.month datetime.day].
  intros (Hy & Hm & Hd) Hy'.
  assert (D : forall y' m', 28 <= datetime.days_in_month y' m').
  { intros y' m'. unfold datetime.days_in_month.
    repeat match goal with |- context [if ?b then _ else _] => destruct b end; lia. }
  unfold get_dates, datetime.replace_day.
  cbn [datetime.year datetime.month datetime.day].
  pose proof (D y m) as D1.
  replace ((1 <=? 1) && (1 <=? datetime.days_in_month y m))%Z with true
    by (symmetry; apply andb_true_iff; split; apply Z.leb_le; lia).
  unfold datetime.minus_one_day. cbn [datetime.year datetime.month datetime.day].
  change (1 <? 1)%Z with false. cbv iota.
  destruct (Z.eqb_spec m 1) as [-> | Hm1].
  - change (1 <? 1)%Z with false. cbv iota.
    replace (1 <? y)%Z with true by (symmetry; apply Z.ltb_lt; lia).
    cbn [datetime.year datetime.month datetime.day].
    reflexivity.
  - replace (1 <? m)%Z with true by (symmetry; apply Z.ltb_lt; lia).
    cbn [datetime.year datetime.month datetime.day].
    pose proof (D y (m - 1)) as D2.
    replace ((1 <=? 1) && (1 <=? datetime.days_in_month y (m - 1)))%Z with true
      by (symmetry; apply andb_true_iff; split; apply Z.leb_le; lia).
    reflexivity.
Qed.

Lemma get_dates_previous_month_witness :
  get_dates (datetime.mk 2025 1 15) = Ok ("01.12.2024", "15.01.2025").
Proof.
  apply (get_dates_previous_month (datetime.mk 2025 1 15)).
  - unfold datetime.valid. cbn. lia.
  - cbn. lia.
Defined.

(** ** The element helpers *)

(** X4. [scroll_to_field] looks up the field and, only when that or the
    focus fails, the parent of the field.  When the focus succeeds it
    returns and writes no scrollbar position.  A position it writes is the
    one it has just read from the same scrollbar, plus one.  When it
    returns, it has either focused the field or written a position.  The
    attributes of the instance stay as they were. *)
Theorem scroll_to_field_steps (w : World) (field_path : string) (st : State) :
  let x := scroll_to_field w field_path st in
  let t := trace_of x in
  (lookups t = [] \/ lookups t = [field_path] \/
   lookups t = [field_path; parent_path field_path]) /\
  (focused t <> [] ->
   result_of x = Ok tt /\ lookups t = [field_path] /\ position_writes t = []) /\
  (position_writes t <> [] ->
   exists b v v', position_reads t = [(b, v)] /\ add_one v = Ok v' /\
                  position_writes t = [(b, v')]) /\
  (result_of x = Ok tt -> focused t <> [] \/ position_writes t <> []) /\
  self (state_of x) = self st.
Proof.
  cbv zeta. destruct st as [[cfg auto conn ses] bound tk nw].
  unfold scroll_to_field.
  on_run. crunch.
  all: at_end; cbn.
  all: repeat split; intros; tidy; try congruence; eauto.
  all: try (left; congruence).
  all: try (right; congruence).
  all: do 3 eexists; repeat split; (eassumption || reflexivity).
Qed.

(** X5. [check_element_exists] never raises.  It returns [True] exactly
    when the instance has a session object and the lookup returns,
    whatever it returns, also [None]; so it says [True] whenever
    [_verify_login], which tests what the lookup returned, says [True] for
    the same element in the same state. *)
Theorem check_element_exists_any_answer (w : World) (element_path : string) (st : State) :
  let x := check_element_exists w element_path st in
  (result_of x = Ok true \/ result_of x = Ok false) /\
  (result_of x = Ok true <->
   exists h v, session (self st) = Some (VDispatch h) /\ script w (tick st) = Returns v) /\
  (result_of (_verify_login w st) = Ok true ->
   result_of (check_element_exists w "wnd[0]/tbar[0]/btn[15]" st) = Ok true).
Proof.
  cbv zeta. destruct st as [[cfg auto conn ses] bound tk nw].
  unfold check_element_exists, _verify_login, result_of.
  cbv beta iota zeta delta
    [bind ret raise try_except enter attr ext py_call
     self sap_bound tick now session fst snd].
  destruct ses as [[| | | | |h]|]; cbn.
  all: try (split; [right; reflexivity |]; split;
            [split; [discriminate | intros (h' & v' & H & _); discriminate]
            | discriminate]).
  destruct (script w tk) as [v|e] eqn:E; cbn.
  - split; [left; reflexivity |]. split; [| reflexivity].
    split; [intros _; exists h, v; auto | reflexivity].
  - split; [right; reflexivity |]. split; [| discriminate].
    split; [discriminate | intros (h' & v' & _ & H); discriminate].
Qed.

(** X6. [get_sap_element_text] never raises.  When the [Text] of the
    element was read, it returns what the read gave and logs no error; in
    every other case it returns [None] and logs one error, so a caller
    cannot tell a failure from a text that is [None]. *)
Theorem get_sap_element_text_result (w : World) (element_path : string) (st : State) :
  let x := get_sap_element_text w element_path st in
  let t := trace_of x in
  (exists v, text_reads t = [v] /\ result_of x = Ok v /\ messages ERROR t = []) \/
  (text_reads t = [] /\ result_of x = Ok VNone /\
   exists msg, messages ERROR t = ["Failed to get element text: " ++ msg]).
Proof.
  cbv zeta. destruct st as [[cfg auto conn ses] bound tk nw].
  unfold get_sap_element_text.
  on_run. crunch.
  all: at_end; cbn.
  all: first [ left; eexists; repeat split; reflexivity
             | right; repeat split; eexists; reflexivity ].
Qed.

(** ** The login stages *)


(** X8. [_handle_multiple_login] selects the first option and then
    presses the confirm button, in this order and at most once each, and
    only when the active window is the secondary window and its text
    contains the phrase [logon_multiplo], in lower case as written.  It returns
    [True] without touching a secondary window whose text does not contain
    the phrase, and [True] after a selection only when the button was
    pressed as well. *)
Theorem multiple_login_dismissal (w : World) (st : State) :
  let x := _handle_multiple_login w st in
  let t := trace_of x in
  (dismissals t = [] \/ dismissals t = ["select"] \/ dismissals t = ["select"; "press"]) /\
  (result_of x = Ok true -> dismissals t = [] \/ dismissals t = ["select"; "press"]) /\
  (dismissals t <> [] ->
   window_names t = [VStr "wnd[1]"] /\
   exists v, text_reads t = [v] /\ py_in logon_multiplo v = Ok true) /\
  (forall s, window_names t = [VStr "wnd[1]"] -> text_reads t = [VStr s] ->
             Str.contains logon_multiplo s = false ->
             result_of x = Ok true /\ dismissals t = []).
Proof.
  cbv zeta. destruct st as [[cfg auto conn ses] bound tk nw].
  unfold _handle_multiple_login.
  on_run. crunch.
  all: at_end; paths.
  all: try (right; left; reflexivity).
  all: try (right; right; reflexivity).
  all: eexists; (split; [reflexivity |]).
  all: first [cbn; congruence | unfold py_in, eq_str; f_equal; assumption].
Qed.

(** X9. [sapLogout] never raises and assigns nothing but "/nex" to a
    [text].  It ends in one of two ways: it has written "/nex", sent the
    confirm key to one window and logged the success, with no error
    logged; or no confirm key came back, nothing is logged as success and
    one error "Logout failed: ..." is logged. *)
Theorem sapLogout_steps (w : World) (st : State) :
  let x := sapLogout w st in
  let t := trace_of x in
  result_of x = Ok tt /\
  (assigned "text" t = [] \/ assigned "text" t = [VStr "/nex"]) /\
  (messages INFO t = ["Successfully logged out"] /\ messages ERROR t = [] /\
   assigned "text" t = [VStr "/nex"] /\ (exists h, keys_sent t = [h]) \/
   messages INFO t = [] /\ keys_sent t = [] /\
   exists msg, messages ERROR t = ["Logout failed: " ++ msg]).
Proof.
  cbv zeta. destruct st as [[cfg auto conn ses] bound tk nw].
  unfold sapLogout, set_text, sendVKey0.
  on_run. crunch.
  all: at_end; cbn.
  all: split; [reflexivity |]; split; [first [left; reflexivity | right; reflexivity] |].
  all: first [left; repeat split; try reflexivity; eexists; reflexivity
             | right; repeat split; try reflexivity; eexists; reflexivity].
Qed.

(** ** The launcher *)

Lemma first_match_some software entries p :
  first_match software entries = Ok (Some p) ->
  exists root dirs files,
    In (VList [VStr root; dirs; files]) entries /\
    py_in software files = Ok true /\
    p = Str.path_join root software.
Proof.
  induction entries as [|e rest IH]; cbn; [discriminate |].
  destruct e as [| | | |[|root [|dirs [|files [|]]]]|]; try discriminate.
  destruct (py_in software files) as [[]| |] eqn:E; try discriminate.
  - destruct root; try discriminate. intros H. inversion H; subst.
    exists s, dirs, files. repeat split; auto.
  - intros H. destruct (IH H) as (r & d & f & Hin & Hf & Hp).
    exists r, d, f. repeat split; auto.
Qed.

Lemma launches_cons e t : launches (e :: t) = (launch_of e ++ launches t)%list.
Proof. reflexivity. Qed.

Lemma walks_cons e t : walks (e :: t) = (walk_of e ++ walks t)%list.
Proof. reflexivity. Qed.

Lemma listed_cons software p e t : listed software p t -> listed software p (e :: t).
Proof.
  intros (d & tree & en & r & di & f & H1 & H2). exists d, tree, en, r, di, f.
  split; [now right | exact H2].
Qed.

Lemma scan_drives_spec w software start drives :
  forall st, scan_post software drives (scan_drives w software start drives st).
Proof.
  induction drives as [|drive rest IH]; intros st.
  { cbn. split; [exists []; reflexivity |]. split; [now left | now split]. }
  destruct st as [o bound tk nw].
  cbn [scan_drives]. unfold search_drive.
  crunch.
  all: try match goal with
           | H : scan_drives _ _ _ _ ?st1 = _ |- _ =>
               let P := fresh "P" in
               pose proof (IH st1) as P; rewrite H in P; unfold scan_post in P;
               destruct P as ([rest' P1] & P2 & P3)
           end.
  all: unfold scan_post.
  all: rewrite ?launches_cons, ?walks_cons; cbn [launch_of walk_of app].
  all: change (launches []) with (@nil string); change (walks []) with (@nil string).
  all: try match goal with
           | H : py_iter _ = OutOfFuel |- _ => now apply py_iter_fuel in H
           | H : first_match _ _ = OutOfFuel |- _ => now apply first_match_fuel in H
           end.
  all: split; [first [exists rest; reflexivity | exists rest'; cbn; congruence] |].
  all: split.
  all: try (destruct P2 as [P2 | (p' & P2 & P2')];
            [left; exact P2 | right; exists p'; split; [exact P2 | now apply listed_cons]]).
  all: try (left; reflexivity).
  all: try (right; eexists; split; [reflexivity |];
            match goal with
            | H : first_match _ _ = Ok (Some _) |- _ =>
                destruct (first_match_some _ _ _ H) as (r0 & d0 & f0 & F1 & F2 & F3)
            end;
            do 6 eexists; split; [left; reflexivity |]; eauto).
  all: try exact I; try discriminate.
  all: destruct r as [[] | |]; auto.
  all: destruct P3 as [P3 P4]; split; [exact P3 | congruence].
Qed.

(** X10. [run_application] starts at most one executable, and only one
    that a walk of this run listed: the path it starts is the join of a
    directory of the walk and the name, for a directory whose files
    contain the name.  When it returns [True], either the process was
    found running, and then no drive was walked and nothing was started, or
    an executable was started.  When it returns [False], nothing was
    started and every drive of the drive strings was walked, in order. *)
Theorem run_application_launches (w : World) (software : string) (st : State) :
  let x := run_application w software st in
  let t := trace_of x in
  (launches t = [] \/ exists p, launches t = [p] /\ listed software p t) /\
  match result_of x with
  | Ok true =>
      (walks t = [] /\ launches t = [] /\
       messages INFO t = [software ++ " is already running"]) \/
      launches t <> []
  | Ok false =>
      launches t = [] /\
      exists s, In (Ev GetLogicalDriveStrings (Returns (VStr s))) t /\
                walks t = removelast (Str.split Ascii.zero s)
  | Raise _ => True
  | OutOfFuel => False
  end.
Proof.
  cbv zeta. destruct st as [o bound tk nw].
  unfold run_application, is_process_running.
  on_run. crunch.
  all: try match goal with
           | H : py_iter _ = OutOfFuel |- _ => now apply py_iter_fuel in H
           | H : any_process_matches _ _ = OutOfFuel |- _ =>
               now apply any_process_matches_fuel in H
           end.
  all: try match goal with
           | H : scan_drives ?w0 ?sw ?t0 ?d ?st1 = _ |- _ =>
               let P := fresh "P" in
               pose proof (scan_drives_spec w0 sw t0 d st1) as P; rewrite H in P;
               unfold scan_post in P; destruct P as ([rest' P1] & P2 & P3)
           end.
  all: at_end; unfold result_of, trace_of; cbn [fst snd].
  all: rewrite ?launches_cons, ?walks_cons; cbn [launch_of walk_of app].
  all: change (launches []) with (@nil string); change (walks []) with (@nil string).
  all: split.
  all: try (destruct P2 as [P2 | (p' & P2 & P2')];
            [left; exact P2
            | right; exists p'; split; [exact P2 | do 3 apply listed_cons; exact P2']]).
  all: try (left; reflexivity).
  all: try exact I.
  all: try (left; repeat split; reflexivity).
  all: destruct r as [[] | |]; auto.
  destruct P3 as [P3 P4]. split; [exact P3 |].
  eexists. split; [right; right; left; reflexivity | exact P4].
Qed.

(** ** Polling and operations *)

Lemma answers_cons id e t : answers id (e :: t) = (answer_of id e ++ answers id t)%list.
Proof. reflexivity. Qed.

Lemma answers_app id t1 t2 : answers id (t1 ++ t2) = (answers id t1 ++ answers id t2)%list.
Proof. apply flat_map_app. Qed.

Lemma refusals_cons id e t : refusals id (e :: t) = refusal_of id e + refusals id t.
Proof. reflexivity. Qed.

Lemma wait_loop_waited w element_id timeout start fuel :
  forall st, waited element_id st (wait_loop w fuel element_id timeout start st).
Proof.
  induction fuel as [|fuel IH]; intros st.
  { cbn. split; [exact I | intros; reflexivity]. }
  destruct st as [[cfg auto conn ses] bound tk nw].
  cbn [wait_loop].
  crunch.
  all: try match goal with
           | H : wait_loop _ _ _ _ _ ?st1 = _ |- _ =>
               let P := fresh "P" in
               pose proof (IH st1) as P; rewrite H in P; unfold waited in P;
               cbn [self session] in P; destruct P as [P1 P2]
           end.
  all: unfold waited; cbn [self session].
  all: rewrite ?answers_cons, ?refusals_cons, ?slept_cons.
  all: cbn [answer_of refusal_of sleep_of String.eqb Ascii.eqb Bool.eqb andb app].
  all: rewrite ?String.eqb_refl.
  all: cbn [andb app].
  all: change (slept []) with 0; change (refusals element_id []) with 0;
       change (answers element_id []) with (@nil bool).
  all: split.
  all: try match goal with |- forall h, _ -> _ => intros h0 Hh; tidy;
           try (specialize (P2 _ eq_refl)); try lia; try congruence end.
  all: try exact P1.
  all: try (exists 0%nat; cbn; congruence).
  all: match goal with H : truthy _ = false |- _ => rewrite H end.
  all: destruct r as [[]| |]; try exact I; destruct P1 as [n P1]; exists (S n);
       rewrite P1; reflexivity.
Qed.

Lemma wait_for_element_waited w element_id timeout fuel st :
  waited element_id st (wait_for_element w fuel element_id timeout st).
Proof.
  unfold wait_for_element, bind, enter, time_time.
  pose proof (wait_loop_waited w element_id timeout (now st) fuel st) as H.
  destruct (wait_loop w fuel element_id timeout (now st) st) as [[r st'] tr].
  exact H.
Qed.

(** X11. [wait_for_element] returns [True] only when its last lookup of
    the element returned something true, and every lookup before that
    raised or returned something false; when it returns [False], no lookup
    returned something true.  On an instance with a session it sleeps one
    time unit for each lookup that raised and not at all after a lookup
    that returned, so a lookup that returns something false is repeated at
    once. *)
Theorem wait_for_element_answers (w : World) (fuel : nat) (element_id : string)
    (timeout : Z) (st : State) :
  let x := wait_for_element w fuel element_id timeout st in
  let t := trace_of x in
  match result_of x with
  | Ok true => exists n, answers element_id t = (repeat false n ++ [true])%list
  | Ok false => exists n, answers element_id t = repeat false n
  | _ => True
  end /\
  (forall h, session (self st) = Some (VDispatch h) ->
             slept t = refusals element_id t).
Proof.
  cbv zeta. pose proof (wait_for_element_waited w element_id timeout fuel st) as H.
  destruct (wait_for_element w fuel element_id timeout st) as [[r st'] tr].
  exact H.
Qed.

Section RaisesOnly.
Context {A : Type}.

Lemma ro_try_except c pre (m : M A) (h : exn -> M A) :
  (forall e, raises_only c pre (h e)) -> raises_only c pre (try_except m h).
Proof.
  intros Hh st e. unfold try_except.
  destruct (m st) as [[[a|e'|] st1] t1]; projs; try discriminate.
  specialize (Hh e' st1 e). destruct (h e' st1) as [[r st2] t2]. exact Hh.
Qed.

Lemma ro_raise c pre msg : raises_only c pre (@raise A c (pre ++ msg)).
Proof. intros st e H. cbn in H. inversion H; subst. cbn. eauto. Qed.

Lemma ro_logging_raise lvl text c pre msg :
  raises_only c pre (logging lvl text ;; @raise A c (pre ++ msg)).
Proof. intros st e H. cbn in H. inversion H; subst. cbn. eauto. Qed.

Lemma ro_entered f (m : M A) c pre : raises_only c pre m -> raises_only c pre (enter f ;; m).
Proof.
  intros H st e. unfold bind, enter. specialize (H st e).
  destruct (m st) as [[r st1] t1]. exact H.
Qed.

End RaisesOnly.

Lemma ro_perform_operation w fuel command element timeout :
  raises_only SapGuiError "Operation failed: "
    (perform_operation w fuel command element timeout).
Proof.
  unfold perform_operation. apply ro_entered, ro_try_except.
  intros e. apply ro_logging_raise.
Qed.

Lemma perform_operation_found w fuel command element timeout st a :
  result_of (perform_operation w fuel command element timeout st) = Ok a ->
  a = true /\
  forall id, element = Some id -> id <> "" ->
             exists l, answers id (trace_of (perform_operation w fuel command element
                                               timeout st)) = (l ++ [true])%list.
Proof.
  unfold perform_operation, enter, try_except, bind, ret, logging, raise.
  cbv beta iota zeta.
  destruct (set_text w _ _ st) as [[[[]|e|] st1] t1]; cbv beta iota zeta;
    [| cbn; intros H; discriminate ..].
  destruct (sendVKey0 w st1) as [[[[]|e|] st2] t2]; cbv beta iota zeta;
    [| cbn; intros H; discriminate ..].
  destruct element as [[|c rest]|]; cbv beta iota zeta.
  - cbn. intros H. split; [congruence |]. intros id E. inversion E. congruence.
  - pose proof (wait_for_element_waited w (String c rest) timeout fuel st2) as W.
    destruct (wait_for_element w fuel _ timeout st2) as [[[[]|e|] st3] t3];
      unfold result_of, trace_of; cbn [fst snd negb]; intros H; try discriminate.
    split; [congruence |]. intros id E _. inversion E; subst id.
    destruct W as [[n W] _].
    rewrite !answers_app, W.
    change (answers (String c rest) [Logged INFO ?m]) with (@nil bool).
    change (answers (String c rest) []) with (@nil bool).
    rewrite !app_nil_r.
    eexists. rewrite !app_assoc. reflexivity.
  - cbn. intros H. split; [congruence |]. intros id E. discriminate.
Qed.

(** X12. [perform_operation] never returns [False]: it returns [True] or
    raises [SapGuiError] with a message that starts with "Operation
    failed: ".  When it returns and an element to wait for was given, the
    last lookup of that element returned something true.  In a world that
    lets time pass the model does not run out of fuel when the fuel
    exceeds the timeout. *)
Theorem perform_operation_outcome (w : World) (fuel : nat) (command : string)
    (element : option string) (timeout : Z) (st : State) :
  let x := perform_operation w fuel command element timeout st in
  match result_of x with
  | Ok b =>
      b = true /\
      forall id, element = Some id -> id <> "" ->
                 exists l, answers id (trace_of x) = (l ++ [true])%list
  | Raise e => class_of e = SapGuiError /\ exists msg, str e = "Operation failed: " ++ msg
  | OutOfFuel => ~ (responsive w /\ Z.max 0 timeout < Z.of_nat fuel)
  end.
Proof.
  cbv zeta.
  pose proof (perform_operation_found w fuel command element timeout st) as F.
  pose proof (ro_perform_operation w fuel command element timeout st) as R.
  destruct (result_of (perform_operation w fuel command element timeout st))
    as [b|e|] eqn:E.
  - exact (F b eq_refl).
  - exact (R e eq_refl).
  - intros [Hw Hf].
    destruct (tame_perform_operation w Hw fuel command element timeout Hf st) as [H _].
    congruence.
Qed.

(** ** Table cells *)

Lemma lookups_cons e t : lookups (e :: t) = (lookup_of e ++ lookups t)%list.
Proof. reflexivity. Qed.

Lemma assigned_cons name e t :
  assigned name (e :: t) = (assign_of name e ++ assigned name t)%list.
Proof. reflexivity. Qed.

Lemma text_reads_cons e t : text_reads (e :: t) = (text_read e ++ text_reads t)%list.
Proof. reflexivity. Qed.

Lemma cell_loop_spec w format column_path text fuel :
  forall row st,
    cell_post format column_path text row
      (cell_loop w format fuel column_path text row st).
Proof.
  induction fuel as [|fuel IH]; intros row st; [exact I |].
  destruct st as [[cfg auto conn ses] bound tk nw].
  cbn [cell_loop]. unfold sendVKey0.
  crunch.
  all: try match goal with
           | H : cell_loop _ _ _ _ _ ?row1 ?st1 = _ |- _ =>
               let P := fresh "P" in
               pose proof (IH row1 st1) as P; rewrite H in P; unfold cell_post in P
           end.
  all: unfold cell_post; try exact I.
  all: try match goal with r : result Z |- _ => destruct r as [? | |]; try exact I end.
  all: rewrite ?lookups_cons, ?assigned_cons, ?text_reads_cons.
  all: cbn [lookup_of assign_of text_read String.eqb Ascii.eqb Bool.eqb app length].
  all: try (destruct P as (P1 & (ps & L1 & L2 & L3) & P3 & P4 & sk & S1 & S2 & S3);
            split; [lia |];
            split;
            [ match goal with
              | H : _ = @Ok string ?a |- _ => exists (a :: ps)
              end;
              split; [rewrite L1; reflexivity |];
              split; [cbn [length]; lia |];
              intros [|k] Hk;
              [ rewrite Z.add_0_r; assumption
              | cbn [nth]; rewrite <- L3 by (cbn [length] in Hk; lia); f_equal; lia ]
            |];
            split; [assumption |]; split; [assumption |];
            match goal with
            | |- exists _, _ /\ _ /\ (?v :: _ = _ \/ _) => exists (v :: sk)
            end; split; [cbn [length]; lia |];
            split; [constructor; [first [reflexivity | assumption] | exact S2] |];
            destruct S3 as [-> | ->]; [left | right]; reflexivity).
  all: eqb_subst.
  all: split; [lia |].
  all: (split;
        [ match goal with
          | H : _ = @Ok string ?a |- _ => exists [a]
          end;
          split; [reflexivity |]; split; [cbn; lia |];
          intros [|k] Hk; [rewrite Z.add_0_r; assumption | cbn in Hk; lia ]
        |]).
  all: split; [reflexivity |]; split; [reflexivity |].
  all: exists []; split; [cbn; lia |]; split; [constructor |].
  all: first [left; reflexivity | right; reflexivity].
Qed.

Lemma ro_set_cell_value w format fuel column_path text :
  raises_only SapGuiError "Failed to set cell value: "
    (set_cell_value w format fuel column_path text).
Proof.
  unfold set_cell_value. apply ro_entered, ro_try_except.
  intros e. apply ro_logging_raise.
Qed.

(** X13. When [set_cell_value] returns the row [n], it has looked up the
    cells of the rows 0 to [n] of the column, in order, and then the main
    window; the cells of the rows before [n] had a [Text] other than the
    empty string, and the cell of row [n] was false or had the empty
    string as [Text]; it has assigned the text to one cell and set the
    caret to the length of the text.  An exception of any kind leaves as
    [SapGuiError] with a message that starts with "Failed to set cell
    value: ". *)
Theorem set_cell_value_first_empty (w : World) (format : string -> Z -> result string)
    (fuel : nat) (column_path text : string) (st : State) :
  let x := set_cell_value w format fuel column_path text st in
  let t := trace_of x in
  match result_of x with
  | Ok n =>
      0 <= n /\
      (exists paths,
         lookups t = (paths ++ ["wnd[0]"])%list /\
         Z.of_nat (length paths) = n + 1 /\
         forall k, (k < length paths)%nat ->
                   format column_path (Z.of_nat k) = Ok (nth k paths "")) /\
      assigned "Text" t = [VStr text] /\
      assigned "caretPosition" t = [VInt (Z.of_nat (String.length text))] /\
      exists skipped,
        Z.of_nat (length skipped) = n /\
        Forall (fun v => eq_str v "" = false) skipped /\
        (text_reads t = skipped \/ text_reads t = (skipped ++ [VStr ""])%list)
  | Raise e =>
      class_of e = SapGuiError /\ exists msg, str e = "Failed to set cell value: " ++ msg
  | OutOfFuel => True
  end.
Proof.
  cbv zeta.
  pose proof (ro_set_cell_value w format fuel column_path text st) as R.
  revert R.
  unfold set_cell_value, enter, try_except, bind.
  pose proof (cell_loop_spec w format column_path text fuel 0 st) as H.
  destruct (cell_loop w format fuel column_path text 0 st) as [[[n|e|] st'] tr];
    cbv beta iota zeta; intros R; projs.
  - unfold cell_post in H.
    destruct H as (H1 & (ps & L1 & L2 & L3) & H3 & H4 & sk & S1 & S2 & S3).
    split; [exact H1 |]. split.
    { exists ps. split; [exact L1 |]. split; [lia |]. exact L3. }
    split; [exact H3 |]. split; [exact H4 |].
    exists sk. split; [lia |]. split; assumption.
  - exact (R _ eq_refl).
  - exact I.
Qed.

(** ** Attributes of the instance *)

Section Keeps.
Context {A B X : Type}.
Variable f : SapGui -> X.

Lemma keeps_ret (a : A) : keeps f (ret a).
Proof. intros st. reflexivity. Qed.

Lemma keeps_raise c msg : keeps f (@raise A c msg).
Proof. intros st. reflexivity. Qed.

Lemma keeps_lift (r : result A) : keeps f (lift r).
Proof. intros st. reflexivity. Qed.

Lemma keeps_out_of_fuel : keeps f (@out_of_fuel A).
Proof. intros st. reflexivity. Qed.

Lemma keeps_bind (m : M A) (k : A -> M B) :
  keeps f m -> (forall a, keeps f (k a)) -> keeps f (bind m k).
Proof.
  intros Hm Hk st. unfold bind. specialize (Hm st).
  destruct (m st) as [[[a|e|] st1] t1]; projs; try exact Hm.
  specialize (Hk a st1). destruct (k a st1) as [[r st2] t2]. projs. congruence.
Qed.

Lemma keeps_try_except (m : M A) (h : exn -> M A) :
  keeps f m -> (forall e, keeps f (h e)) -> keeps f (try_except m h).
Proof.
  intros Hm Hh st. unfold try_except. specialize (Hm st).
  destruct (m st) as [[[a|e|] st1] t1]; projs; try exact Hm.
  specialize (Hh e st1). destruct (h e st1) as [[r st2] t2]. projs. congruence.
Qed.

Lemma keeps_try_except_class c (m h : M A) :
  keeps f m -> keeps f h -> keeps f (try_except_class c m h).
Proof.
  intros Hm Hh st. unfold try_except_class. specialize (Hm st).
  destruct (m st) as [[[a|e|] st1] t1]; projs; try exact Hm.
  destruct (class_eqb (class_of e) c); projs; [| exact Hm].
  specialize (Hh st1). destruct (h st1) as [[r st2] t2]. projs. congruence.
Qed.

Lemma keeps_attr (field : SapGui -> option A) name : keeps f (attr field name).
Proof. intros st. unfold attr. destruct (field (self st)); reflexivity. Qed.

End Keeps.

Lemma keeps_ext {X} (f : SapGui -> X) w c : keeps f (ext w c).
Proof. intros st. reflexivity. Qed.

Lemma keeps_set_self {X} (f : SapGui -> X) g :
  (forall o, f (g o) = f o) -> keeps f (set_self g).
Proof. intros H st. apply H. Qed.

Ltac keeps_step :=
  lazymatch goal with
  | |- keeps _ (bind _ _) => apply keeps_bind; [| intros ?]
  | |- keeps _ (try_except _ _) => apply keeps_try_except; [| intros ?]
  | |- keeps _ (try_except_class _ _ _) => apply keeps_try_except_class
  | |- keeps _ (ret _) => apply keeps_ret
  | |- keeps _ (raise _ _) => apply keeps_raise
  | |- keeps _ (lift _) => apply keeps_lift
  | |- keeps _ out_of_fuel => apply keeps_out_of_fuel
  | |- keeps _ (attr _ _) => apply keeps_attr
  | |- keeps _ (ext _ _) => apply keeps_ext
  | |- keeps _ (set_self _) => apply keeps_set_self; intros ?; reflexivity
  | |- keeps _ (enter _) => intros ?; reflexivity
  | |- keeps _ (logging _ _) => intros ?; reflexivity
  | |- keeps _ logging_basicConfig => intros ?; reflexivity
  | |- keeps _ time_time => intros ?; reflexivity
  | |- keeps _ (time_sleep _) => intros ?; reflexivity
  | |- keeps _ (if ?b then _ else _) => destruct b
  | |- keeps _ (match ?x with _ => _ end) => destruct x
  | |- keeps _ (py_getattr _ ?v _) => unfold py_getattr; destruct v
  | |- keeps _ (py_setattr _ ?v _ _) => unfold py_setattr; destruct v
  | |- keeps _ (py_call _ ?v _ _) => unfold py_call; destruct v
  | |- keeps _ (py_lower ?v) => unfold py_lower; destruct v
  | |- keeps _ (set_text _ _ _) => unfold set_text
  | |- keeps _ (sendVKey0 _) => unfold sendVKey0
  | |- keeps _ (config_field _) => unfold config_field
  | |- keeps _ (set_config _) => unfold set_config
  | |- keeps _ (set_SapGuiAuto _) => unfold set_SapGuiAuto
  | |- keeps _ (set_connection _) => unfold set_connection
  | |- keeps _ (set_session _) => unfold set_session
  | |- keeps _ _ => solve [auto]
  end.

Ltac keeps_tac := repeat keeps_step.

Section KeepsProgram.
Context {X : Type}.
Variable f : SapGui -> X.
Variable w : World.

Lemma keeps_scan_drives software start drives : keeps f (scan_drives w software start drives).
Proof.
  induction drives as [|drive rest IH]; cbn [scan_drives]; unfold search_drive; keeps_tac.
Qed.

Lemma keeps_run_application software : keeps f (run_application w software).
Proof.
  pose proof keeps_scan_drives.
  unfold run_application, is_process_running. keeps_tac.
Qed.

Lemma keeps_handle_password_change : keeps f (handle_password_change w).
Proof.
  unfold handle_password_change, generate_password, randrange, now_strftime. keeps_tac.
Qed.

Lemma keeps_handle_multiple_login : keeps f (_handle_multiple_login w).
Proof. unfold _handle_multiple_login. keeps_tac. Qed.

Lemma keeps_verify_login : keeps f (_verify_login w).
Proof. unfold _verify_login. keeps_tac. Qed.

Lemma keeps_submit_credentials : keeps f (submit_credentials w).
Proof. unfold submit_credentials. keeps_tac. Qed.

Lemma keeps_sapLogin_try : keeps f (sapLogin_try w).
Proof.
  pose proof keeps_submit_credentials. pose proof keeps_handle_password_change.
  pose proof keeps_handle_multiple_login. pose proof keeps_verify_login.
  unfold sapLogin_try. keeps_tac.
Qed.

Lemma keeps_sapLogin : keeps f (close_connection w) -> keeps f (sapLogin w).
Proof.
  intros Hc. pose proof keeps_sapLogin_try.
  unfold sapLogin. keeps_tac.
Qed.

Lemma keeps_sapLogout : keeps f (sapLogout w).
Proof. unfold sapLogout. keeps_tac. Qed.

Lemma keeps_wait_loop fuel element_id timeout start :
  keeps f (wait_loop w fuel element_id timeout start).
Proof.
  induction fuel as [|fuel IH]; cbn [wait_loop]; keeps_tac.
Qed.

Lemma keeps_wait_for_element fuel element_id timeout :
  keeps f (wait_for_element w fuel element_id timeout).
Proof. pose proof keeps_wait_loop. unfold wait_for_element. keeps_tac. Qed.

Lemma keeps_perform_operation fuel command element timeout :
  keeps f (perform_operation w fuel command element timeout).
Proof.
  pose proof keeps_wait_for_element.
  unfold perform_operation. keeps_tac.
Qed.

Lemma keeps_create_sales_order fuel : keeps f (create_sales_order w fuel).
Proof.
  pose proof keeps_perform_operation.
  unfold create_sales_order. keeps_tac.
Qed.

Lemma keeps_scroll_to_field field_path : keeps f (scroll_to_field w field_path).
Proof. unfold scroll_to_field. keeps_tac. Qed.

Lemma keeps_check_element_exists element_path : keeps f (check_element_exists w element_path).
Proof. unfold check_element_exists. keeps_tac. Qed.

Lemma keeps_get_sap_element_text element_path : keeps f (get_sap_element_text w element_path).
Proof. unfold get_sap_element_text. keeps_tac. Qed.

Lemma keeps_cell_loop format fuel column_path text row :
  keeps f (cell_loop w format fuel column_path text row).
Proof.
  revert row. induction fuel as [|fuel IH]; intros row; cbn [cell_loop]; keeps_tac.
Qed.

Lemma keeps_set_cell_value format fuel column_path text :
  keeps f (set_cell_value w format fuel column_path text).
Proof. pose proof keeps_cell_loop. unfold set_cell_value. keeps_tac. Qed.

End KeepsProgram.

Section KeepsField.
Variable w : World.

Lemma keeps_config_close : keeps config (close_connection w).
Proof. unfold close_connection. keeps_tac. Qed.

Lemma keeps_session_close : keeps session (close_connection w).
Proof. unfold close_connection. keeps_tac. Qed.

Lemma keeps_config_attach cfg : keeps config (attach_session w cfg).
Proof. unfold attach_session. keeps_tac. Qed.

Lemma keeps_config_connect cfg : keeps config (connect_attempt w cfg).
Proof.
  pose proof (keeps_run_application config w). pose proof keeps_config_attach.
  unfold connect_attempt. keeps_tac.
Qed.

Lemma keeps_config_retry fuel cfg rc : keeps config (retry_loop w fuel cfg rc).
Proof.
  pose proof keeps_config_connect.
  revert rc. induction fuel as [|fuel IH]; intros rc; cbn [retry_loop]; keeps_tac.
Qed.

Lemma config_after_initialize fuel cfg st :
  config (self (state_of (_initialize_connection w fuel cfg st))) = Some cfg.
Proof.
  unfold _initialize_connection, enter, set_config, set_self.
  unfold bind at 1 2. cbv beta iota zeta.
  pose proof (keeps_config_retry fuel cfg 0 (with_config cfg st)) as H.
  unfold with_config in H.
  destruct (retry_loop w fuel cfg 0 _) as [[r st'] t'] eqn:E.
  destruct r; projs; exact H.
Qed.

End KeepsField.

(** X14. The methods that work on elements, and the launcher, never
    assign an attribute of the instance: after [run_application], the
    login stages, [sapLogout], [wait_for_element], [perform_operation],
    [create_sales_order], [scroll_to_field], [check_element_exists],
    [get_sap_element_text] and [set_cell_value] the instance holds the
    configuration and the handles it held before, however the call ended.
    In particular the password that [handle_password_change] generates is
    not kept in the configuration. *)
Theorem element_methods_keep_instance (w : World) :
  let same {A} (m : M A) := keeps (fun o => o) m in
  (forall software, same (run_application w software)) /\
  same (handle_password_change w) /\
  same (_handle_multiple_login w) /\
  same (_verify_login w) /\
  same (sapLogout w) /\
  (forall fuel element_id timeout, same (wait_for_element w fuel element_id timeout)) /\
  (forall fuel command element timeout,
     same (perform_operation w fuel command element timeout)) /\
  (forall fuel, same (create_sales_order w fuel)) /\
  (forall field_path, same (scroll_to_field w field_path)) /\
  (forall element_path, same (check_element_exists w element_path)) /\
  (forall element_path, same (get_sap_element_text w element_path)) /\
  (forall format fuel column_path text,
     same (set_cell_value w format fuel column_path text)).
Proof.
  cbv zeta.
  repeat split; intros.
  - apply keeps_run_application.
  - apply keeps_handle_password_change.
  - apply keeps_handle_multiple_login.
  - apply keeps_verify_login.
  - apply keeps_sapLogout.
  - apply keeps_wait_for_element.
  - apply keeps_perform_operation.
  - apply keeps_create_sales_order.
  - apply keeps_scroll_to_field.
  - apply keeps_check_element_exists.
  - apply keeps_get_sap_element_text.
  - apply keeps_set_cell_value.
Qed.

(** X15. Only [_initialize_connection] assigns the configuration: after
    it, however it ended, the instance holds the configuration passed in,
    and [sapLogin] and [close_connection] leave it as it is.
    [close_connection] and [sapLogin] also leave the session attribute as
    it is: the instance keeps its session handle after the connection was
    released. *)
Theorem config_and_session_survive (w : World) :
  (forall fuel cfg st,
     config (self (state_of (_initialize_connection w fuel cfg st))) = Some cfg) /\
  keeps config (sapLogin w) /\
  keeps config (close_connection w) /\
  keeps session (sapLogin w) /\
  keeps session (close_connection w).
Proof.
  split; [intros; apply config_after_initialize |].
  split; [apply keeps_sapLogin, keeps_config_close |].
  split; [apply keeps_config_close |].
  split; [apply keeps_sapLogin, keeps_session_close |].
  apply keeps_session_close.
Qed.

(** ** Exceptions *)

Section NeverRaises.
Context {A B : Type}.

Lemma nr_ret (a : A) : never_raises (ret a).
Proof. intros st e. discriminate. Qed.

Lemma nr_bind (m : M A) (k : A -> M B) :
  never_raises m -> (forall a, never_raises (k a)) -> never_raises (bind m k).
Proof.
  intros Hm Hk st e. unfold bind. specialize (Hm st).
  destruct (m st) as [[[a|e'|] st1] t1]; projs.
  - specialize (Hk a st1 e). destruct (k a st1) as [[r st2] t2]. exact Hk.
  - now destruct (Hm e').
  - discriminate.
Qed.

Lemma nr_try_except (m : M A) (h : exn -> M A) :
  (forall e, never_raises (h e)) -> never_raises (try_except m h).
Proof.
  intros Hh st e. unfold try_except.
  destruct (m st) as [[[a|e'|] st1] t1]; projs; try discriminate.
  specialize (Hh e' st1 e). destruct (h e' st1) as [[r st2] t2]. exact Hh.
Qed.

End NeverRaises.

Lemma nr_enter f : never_raises (enter f).
Proof. intros st e. discriminate. Qed.

Lemma nr_logging lvl msg : never_raises (logging lvl msg).
Proof. intros st e. discriminate. Qed.

Ltac nr_step :=
  lazymatch goal with
  | |- never_raises (bind _ _) => apply nr_bind; [| intros ?]
  | |- never_raises (try_except _ _) => apply nr_try_except; intros ?
  | |- never_raises (ret _) => apply nr_ret
  | |- never_raises (enter _) => apply nr_enter
  | |- never_raises (logging _ _) => apply nr_logging
  | |- never_raises _ => solve [auto]
  end.

Ltac nr_tac := repeat nr_step.

Lemma nr_close_connection w : never_raises (close_connection w).
Proof. unfold close_connection. nr_tac. Qed.

(** X16. The methods that catch every exception let none out, whatever
    the world does: [sapLogin], [sapLogout], [handle_password_change],
    [_handle_multiple_login], [_verify_login], [check_element_exists],
    [get_sap_element_text] and [create_sales_order] return or, in the
    model, run out of fuel, and never raise. *)
Theorem catching_methods_never_raise (w : World) :
  never_raises (sapLogin w) /\
  never_raises (sapLogout w) /\
  never_raises (handle_password_change w) /\
  never_raises (_handle_multiple_login w) /\
  never_raises (_verify_login w) /\
  (forall element_path, never_raises (check_element_exists w element_path)) /\
  (forall element_path, never_raises (get_sap_element_text w element_path)) /\
  (forall fuel, never_raises (create_sales_order w fuel)).
Proof.
  pose proof (nr_close_connection w).
  repeat split; intros.
  - unfold sapLogin. nr_tac.
  - unfold sapLogout. nr_tac.
  - unfold handle_password_change. nr_tac.
  - unfold _handle_multiple_login. nr_tac.
  - unfold _verify_login. nr_tac.
  - unfold check_element_exists. nr_tac.
  - unfold get_sap_element_text. nr_tac.
  - unfold create_sales_order. nr_tac.
Qed.

(** ** The constructor *)

Lemma of_kwargs_valid args cfg : SapConfig_of_kwargs args = Ok cfg -> valid_config cfg.
Proof.
  unfold SapConfig_of_kwargs, SapConfig_init.
  destruct (negb _); [discriminate |].
  destruct (lookup "platform" args); [| discriminate].
  destruct (lookup "client" args); [| discriminate].
  destruct (lookup "username" args); [| discriminate].
  destruct (lookup "password" args); [| discriminate].
  destruct (lookup "language" args); [| discriminate].
  match goal with
  | |- match __post_init__ ?c with _ => _ end = _ -> _ =>
      destruct (__post_init__ c) as [[]| |] eqn:E; try discriminate;
      intros H; inversion H; subst; now apply post_init_valid
  end.
Qed.

Lemma ro_init w fuel args :
  raises_only SapGuiError "Failed to initialize SAP GUI: " (SapGui__init__ w fuel args).
Proof.
  unfold SapGui__init__. apply ro_entered, ro_try_except.
  intros e. apply ro_raise.
Qed.

(** X17. [SapGui.__init__] ends in one of two ways.  It returns, and then
    the dict gave a configuration that passed the validation and the
    instance holds it; or it raises [SapGuiError] with a message that
    starts with "Failed to initialize SAP GUI: ", whatever went wrong.
    The model runs out of fuel only with fuel for fewer than 3
    attempts. *)
Theorem constructed_instance_is_configured (w : World) (fuel : nat) (args : kwargs)
    (st : State) :
  let x := SapGui__init__ w fuel args st in
  match result_of x with
  | Ok _ =>
      exists cfg, SapConfig_of_kwargs args = Ok cfg /\ valid_config cfg /\
                  config (self (state_of x)) = Some cfg
  | Raise e =>
      class_of e = SapGuiError /\
      exists msg, str e = "Failed to initialize SAP GUI: " ++ msg
  | OutOfFuel => (fuel < 3)%nat
  end.
Proof.
  cbv zeta.
  pose proof (ro_init w fuel args st) as R.
  assert (F : (3 <= fuel)%nat -> result_of (SapGui__init__ w fuel args st) <> OutOfFuel)
    by (intros H; apply (tame_SapGui__init__ w args fuel H st)).
  revert R F.
  unfold SapGui__init__, enter, try_except, _setup_logging, logging_basicConfig.
  unfold bind at 1 2. unfold lift. cbv beta iota zeta.
  destruct (SapConfig_of_kwargs args) as [cfg|e|] eqn:K; cbv beta iota zeta.
  - pose proof (config_after_initialize w fuel cfg st) as C.
    unfold bind.
    destruct (_initialize_connection w fuel cfg st) as [[[[]|e|] st1] t1];
      cbn; intros R F.
    + exists cfg. split; [reflexivity |]. split; [exact (of_kwargs_valid args cfg K) | exact C].
    + exact (R _ eq_refl).
    + destruct (Nat.lt_ge_cases fuel 3) as [H | H]; [exact H | destruct (F H eq_refl)].
  - cbn. intros R _. exact (R _ eq_refl).
  - destruct (SapConfig_of_kwargs_fuel args K).
Qed.

(** X18. A dict with a key that is not a field of [SapConfig], or without
    one of the five fields that have no default, is refused by the
    constructor before anything is launched or called: [SapGui.__init__]
    raises [SapGuiError] and leaves no trace but its own entry.  The
    example dict of the class documentation, with the keys sap_client,
    sap_language and sap_path, is such a dict. *)
Theorem constructor_refuses_keys (w : World) (fuel : nat) (args : kwargs) (st : State) :
  (exists k v, In (k, v) args /\ ~ In k SapConfig_fields) \/
  (exists k, In k ["platform"; "client"; "username"; "password"; "language"] /\
             lookup k args = None) ->
  exists msg,
    SapGui__init__ w fuel args st
    = (Raise (mk_exn SapGuiError ("Failed to initialize SAP GUI: " ++ msg)), st,
       [Entered "__init__"]).
Proof.
  intros H.
  assert (K : exists msg, SapConfig_of_kwargs args = Raise (mk_exn TypeError msg)).
  { unfold SapConfig_of_kwargs.
    destruct (forallb _ args) eqn:F; cbn [negb]; [| eauto].
    destruct H as [(k & v & Hin & Hk) | (k & Hk & Hn)].
    - exfalso. apply Hk.
      rewrite forallb_forall in F. specialize (F _ Hin). cbn [fst] in F.
      apply existsb_exists in F as (x & Hx & E). apply String.eqb_eq in E. now subst.
    - cbn in Hk.
      destruct Hk as [<- | [<- | [<- | [<- | [<- | []]]]]]; rewrite Hn;
        repeat match goal with
               | |- context [match lookup ?a ?b with _ => _ end] => destruct (lookup a b)
               end; eauto. }
  destruct K as [msg K]. exists msg.
  unfold SapGui__init__, enter, try_except, bind, lift, raise. rewrite K. reflexivity.
Qed.

Lemma constructor_refuses_keys_witness :
  exists msg,
    SapGui__init__ login_raises 3 documented_args initial
    = (Raise (mk_exn SapGuiError ("Failed to initialize SAP GUI: " ++ msg)), initial,
       [Entered "__init__"]).
Proof.
  apply (constructor_refuses_keys login_raises 3 documented_args initial).
  left. exists "sap_client", "100". split.
  - cbn. auto 10.
  - cbn. intros H.
    repeat match goal with H : _ \/ _ |- _ => destruct H as [H | H]; try discriminate H end.
    exact H.
Defined.

(** ** Login *)

Lemma sapLogin_verified w st r st' tr :
  sapLogin w st = (r, st', tr) ->
  (r = Ok true \/ r = Ok false) /\
  (r = Ok true <-> indicator_lookups tr = [true]) /\
  (r = Ok true -> teardown tr = []) /\
  sap_bound st' = sap_bound st.
Proof.
  intros Hrun.
  pose proof (sapLogin_stages w st) as S.
  pose proof (sapLogin_spec w st) as L.
  rewrite Hrun in S, L.
  unfold login_post in L. destruct L as [Hb L].
  split.
  { destruct L as [[[[] ->] _] | [-> _]]; auto. }
  split.
  2:{ split; [| exact Hb]. intros E.
      destruct L as [[_ L] | [L _]]; [exact L | congruence]. }
  unfold login_stages in S. cbv beta iota zeta in S.
  destruct S as (t1 & (N1 & T1 & I1 & D1) & S).
  destruct S as [[-> ->] | (st1 & st2 & b2 & t2 & E2 & S)].
  { rewrite I1. split; discriminate. }
  pose proof (hpc_spec w st1) as P2. rewrite E2 in P2. unfold hpc_post in P2.
  destruct P2 as (_ & _ & _ & _ & I2 & _).
  destruct S as [(-> & -> & ->) | (-> & st3 & b3 & t3 & E3 & S)].
  { rewrite indicator_lookups_app, I1, I2. split; discriminate. }
  pose proof (hml_spec w st2) as P3. rewrite E3 in P3. unfold hml_post in P3.
  destruct P3 as (_ & _ & _ & I3).
  destruct S as [(-> & -> & ->) | (-> & t4 & E4 & ->)].
  { rewrite !indicator_lookups_app, I1, I2, I3. split; discriminate. }
  pose proof (verify_spec w st3) as P4. rewrite E4 in P4. unfold verify_post in P4.
  destruct P4 as (_ & P4).
  rewrite !indicator_lookups_app, I1, I2, I3. cbn [app].
  destruct P4 as [[-> ->] | [-> P4]]; split; congruence.
Qed.

(** X19. [sapLogin] returns a boolean, and [True] exactly when the lookup
    of the logged-in indicator in [_verify_login] was made and found the
    element: no path through the password and multi-session stages ends
    with [True] without that lookup.  A login that returns [True] has not
    released the connection and has left the attributes of the instance as
    they were. *)
Theorem sapLogin_true_iff_verified (w : World) (st : State) :
  let x := sapLogin w st in
  (result_of x = Ok true \/ result_of x = Ok false) /\
  (result_of x = Ok true <-> indicator_lookups (trace_of x) = [true]) /\
  (result_of x = Ok true ->
   teardown (trace_of x) = [] /\ self (state_of x) = self st).
Proof.
  cbv zeta.
  assert (K : result_of (sapLogin w st) = Ok true -> self (state_of (sapLogin w st)) = self st).
  { pose proof (keeps_sapLogin_try (fun o => o) w st) as T.
    unfold sapLogin, enter, try_except, bind, logging, ret.
    destruct (sapLogin_try w st) as [[[b|e|] st1] t1]; projs; cbv beta iota zeta.
    - intros _. exact T.
    - destruct (close_connection w st1) as [[[[]|e'|] st2] t2]; cbn; discriminate.
    - discriminate. }
  destruct (sapLogin_verified w st _ _ _ (run_eta _)) as (H1 & H2 & H3 & _).
  split; [exact H1 |]. split; [exact H2 |].
  intros E. split; [exact (H3 E) | exact (K E)].
Qed.

(** ** Dialogs *)

Lemma save_as_loop_slept gw title remaining :
  (forall st, slept (trace_of (gw title st)) = 0) ->
  forall st,
    let x := save_as_loop gw remaining title st in
    match result_of x with
    | Ok false => slept (trace_of x) = Z.of_nat remaining
    | _ => 0 <= slept (trace_of x) < Z.of_nat remaining
    end.
Proof.
  intros Hq. induction remaining as [|n IH]; intros st; cbv zeta.
  { cbn. reflexivity. }
  cbn [save_as_loop]. unfold bind, ret, time_sleep.
  specialize (Hq st).
  destruct (gw title st) as [[[v|e|] st1] t1]; projs; try lia.
  destruct (truthy v); projs.
  { rewrite slept_app, Hq. cbn. lia. }
  match goal with
  | |- context [save_as_loop gw n title ?s] =>
      specialize (IH s); cbv zeta in IH;
      destruct (save_as_loop gw n title s) as [[r st2] t2]
  end.
  projs. rewrite ?slept_app, ?slept_cons, Hq. cbn [sleep_of].
  change (slept []) with 0.
  destruct r as [[]| |]; lia.
Qed.

(** X20. [wait_for_save_as_dialog] sleeps one time unit after every
    attempt that finds no window, also after the last one: when the window
    library itself does not sleep, a [False] comes after exactly
    [max_attempts] time units of sleep (none when [max_attempts] is zero
    or negative), and a [True] or an exception of the library after fewer.
    An exception of the library is not caught. *)
Theorem wait_for_save_as_dialog_sleeps (gw : string -> M value) (title : string)
    (max_attempts : Z) (st : State) :
  (forall st, slept (trace_of (gw title st)) = 0) ->
  let x := wait_for_save_as_dialog gw title max_attempts st in
  match result_of x with
  | Ok false => slept (trace_of x) = Z.max 0 max_attempts
  | Ok true => 0 <= slept (trace_of x) < max_attempts
  | Raise e =>
      0 <= slept (trace_of x) < max_attempts /\
      exists st0, result_of (gw title st0) = Raise e
  | OutOfFuel => exists st0, result_of (gw title st0) = OutOfFuel
  end.
Proof.
  intros Hq. cbv zeta.
  assert (P : forall remaining st,
            match result_of (save_as_loop gw remaining title st) with
            | Ok _ => True
            | Raise e => exists st0, result_of (gw title st0) = Raise e
            | OutOfFuel => exists st0, result_of (gw title st0) = OutOfFuel
            end).
  { induction remaining as [|n IH]; intros s; [exact I |].
    cbn [save_as_loop]. unfold bind, ret, time_sleep.
    destruct (gw title s) as [[[v|e|] s1] t1] eqn:E; projs.
    - destruct (truthy v); projs; [exact I |].
      match goal with
      | |- context [save_as_loop gw n title ?s'] =>
          specialize (IH s'); destruct (save_as_loop gw n title s') as [[r s2] t2]
      end.
      exact IH.
    - exists s. rewrite E. reflexivity.
    - exists s. rewrite E. reflexivity. }
  pose proof (save_as_loop_slept gw title (Z.to_nat max_attempts) Hq st) as S.
  specialize (P (Z.to_nat max_attempts) st).
  cbv zeta in S. unfold wait_for_save_as_dialog, bind, enter.
  destruct (save_as_loop gw (Z.to_nat max_attempts) title st) as [[r st1] t1].
  projs. rewrite ?slept_app, ?slept_cons. cbn [sleep_of]. change (slept []) with 0.
  destruct r as [[]| |]; try split; try exact P; lia.
Qed.

Lemma wait_for_save_as_dialog_sleeps_witness :
  slept (trace_of (wait_for_save_as_dialog no_window "Save As" 10 initial)) = 10.
Proof.
  exact (wait_for_save_as_dialog_sleeps no_window "Save As" 10 initial
           (fun _ => eq_refl)).
Defined.

(** ** Credentials *)

(** X21. [sapLogin] starts by writing the configured client, user name,
    password and language, in this order, each to its own field of the
    login screen, and then sends the confirm key and sleeps 2 time units.
    What it has assigned at any point is a prefix of these four values,
    what it has looked up is a prefix of the four fields followed by the
    main window, and a value is assigned only after its field was looked
    up.  When the step returns, all four were assigned and the key was
    sent.  Without a configuration nothing is looked up. *)
Theorem credentials_go_to_their_fields (w : World) (st : State) :
  let x := submit_credentials w st in
  let t := trace_of x in
  match config (self st) with
  | Some c =>
      exists j k,
        (k <= j <= k + 1)%nat /\
        lookups t = firstn j (login_fields ++ ["wnd[0]"])%list /\
        assigned "text" t = firstn k (login_values c) /\
        (result_of x = Ok tt -> j = 5%nat /\ k = 4%nat /\ slept t = 2 /\
                                exists h, keys_sent t = [h])
  | None => lookups t = [] /\ assigned "text" t = []
  end.
Proof.
  cbv zeta. destruct st as [[cfg auto conn ses] bound tk nw].
  unfold submit_credentials, set_text, sendVKey0, config_field.
  on_run. crunch.
  all: at_end; cbn.
  all: try (split; reflexivity).
  all: first
        [ exists 0%nat, 0%nat; split; [lia |]; repeat split; try reflexivity; discriminate
        | exists 1%nat, 0%nat; split; [lia |]; repeat split; try reflexivity; discriminate
        | exists 1%nat, 1%nat; split; [lia |]; repeat split; try reflexivity; discriminate
        | exists 2%nat, 1%nat; split; [lia |]; repeat split; try reflexivity; discriminate
        | exists 2%nat, 2%nat; split; [lia |]; repeat split; try reflexivity; discriminate
        | exists 3%nat, 2%nat; split; [lia |]; repeat split; try reflexivity; discriminate
        | exists 3%nat, 3%nat; split; [lia |]; repeat split; try reflexivity; discriminate
        | exists 4%nat, 3%nat; split; [lia |]; repeat split; try reflexivity; discriminate
        | exists 4%nat, 4%nat; split; [lia |]; repeat split; try reflexivity; discriminate
        | exists 5%nat, 4%nat; split; [lia |]; repeat split; try reflexivity;
          first [discriminate | eexists; reflexivity] ].
Qed.

(** ** The order of the steps of [main] *)

Section Emits.
Context {A B : Type}.
Variable P : event -> bool.

Lemma emits_silent (m : M A) : (forall st, trace_of (m st) = []) -> emits P m.
Proof. intros H st. rewrite H. reflexivity. Qed.

Lemma emits_one (m : M A) e :
  P e = true -> (forall st, trace_of (m st) = [e]) -> emits P m.
Proof. intros He H st. rewrite H. cbn. now rewrite He. Qed.

Lemma emits_bind (m : M A) (k : A -> M B) :
  emits P m -> (forall a, emits P (k a)) -> emits P (bind m k).
Proof.
  intros Hm Hk st. unfold bind. specialize (Hm st).
  destruct (m st) as [[[a|e|] st1] t1]; projs; try exact Hm.
  specialize (Hk a st1). destruct (k a st1) as [[r st2] t2]. projs.
  rewrite forallb_app, Hm, Hk. reflexivity.
Qed.

Lemma emits_try_except (m : M A) (h : exn -> M A) :
  emits P m -> (forall e, emits P (h e)) -> emits P (try_except m h).
Proof.
  intros Hm Hh st. unfold try_except. specialize (Hm st).
  destruct (m st) as [[[a|e|] st1] t1]; projs; try exact Hm.
  specialize (Hh e st1). destruct (h e st1) as [[r st2] t2]. projs.
  rewrite forallb_app, Hm, Hh. reflexivity.
Qed.

Lemma emits_try_except_class c (m h : M A) :
  emits P m -> emits P h -> emits P (try_except_class c m h).
Proof.
  intros Hm Hh st. unfold try_except_class. specialize (Hm st).
  destruct (m st) as [[[a|e|] st1] t1]; projs; try exact Hm.
  destruct (class_eqb (class_of e) c); projs; [| exact Hm].
  specialize (Hh st1). destruct (h st1) as [[r st2] t2]. projs.
  rewrite forallb_app, Hm, Hh. reflexivity.
Qed.

Lemma emits_attr (field : SapGui -> option A) name : emits P (attr field name).
Proof. intros st. unfold attr. destruct (field (self st)); reflexivity. Qed.

End Emits.

Lemma emits_ext P w c : (forall r, P (Ev c r) = true) -> emits P (ext w c).
Proof. intros H st. cbn. now rewrite H. Qed.

Ltac emits_step :=
  lazymatch goal with
  | |- emits _ (bind _ _) => apply emits_bind; [| intros ?]
  | |- emits _ (try_except _ _) => apply emits_try_except; [| intros ?]
  | |- emits _ (try_except_class _ _ _) => apply emits_try_except_class
  | |- emits _ (ret _) => apply emits_silent; reflexivity
  | |- emits _ (raise _ _) => apply emits_silent; reflexivity
  | |- emits _ (lift _) => apply emits_silent; reflexivity
  | |- emits _ out_of_fuel => apply emits_silent; reflexivity
  | |- emits _ time_time => apply emits_silent; reflexivity
  | |- emits _ (set_self _) => apply emits_silent; reflexivity
  | |- emits _ (attr _ _) => apply emits_attr
  | |- emits _ (ext _ _) => apply emits_ext; intros ?; reflexivity
  | |- emits _ (enter _) => intros ?; reflexivity
  | |- emits _ (logging _ _) => intros ?; reflexivity
  | |- emits _ logging_basicConfig => intros ?; reflexivity
  | |- emits _ (time_sleep _) => intros ?; reflexivity
  | |- emits _ (if ?b then _ else _) => destruct b
  | |- emits _ (match ?x with _ => _ end) => destruct x
  | |- emits _ (py_getattr _ ?v _) => unfold py_getattr; destruct v
  | |- emits _ (py_setattr _ ?v _ _) => unfold py_setattr; destruct v
  | |- emits _ (py_call _ ?v _ _) => unfold py_call; destruct v
  | |- emits _ (py_lower ?v) => unfold py_lower; destruct v
  | |- emits _ (set_text _ _ _) => unfold set_text
  | |- emits _ (sendVKey0 _) => unfold sendVKey0
  | |- emits _ (config_field _) => unfold config_field
  | |- emits _ (set_config _) => unfold set_config
  | |- emits _ (set_SapGuiAuto _) => unfold set_SapGuiAuto
  | |- emits _ (set_connection _) => unfold set_connection
  | |- emits _ (set_session _) => unfold set_session
  | |- emits _ _ => solve [auto]
  end.

Ltac emits_tac := repeat emits_step.

Lemma invocations_app f t1 t2 :
  invocations f (t1 ++ t2) = (invocations f t1 + invocations f t2)%nat.
Proof. unfold invocations. now rewrite filter_app, length_app. Qed.

Lemma before_order_trace t :
  forallb before_order t = true ->
  indicator_lookups t = [] /\ invocations "create_sales_order" t = 0%nat.
Proof.
  induction t as [|e t IH]; cbn [forallb]; [now split |].
  intros H. apply andb_true_iff in H as [He Ht]. destruct (IH Ht) as [I1 I2].
  unfold before_order in He.
  change (indicator_lookups (e :: t)) with (indicator_lookup e ++ indicator_lookups t)%list.
  change (e :: t) with ([e] ++ t)%list. rewrite invocations_app, I1, I2.
  destruct (indicator_lookup e); [| discriminate].
  unfold invocations. cbn [filter]. destruct (is_entry _ e); [discriminate |].
  now split.
Qed.

Lemma no_order_trace t :
  forallb no_order t = true -> invocations "create_sales_order" t = 0%nat.
Proof.
  induction t as [|e t IH]; cbn [forallb]; [reflexivity |].
  intros H. apply andb_true_iff in H as [He Ht].
  change (e :: t) with ([e] ++ t)%list. rewrite invocations_app, (IH Ht).
  unfold no_order in He. unfold invocations. cbn [filter].
  destruct (is_entry _ e); [discriminate | reflexivity].
Qed.

Section Order.
Variable w : World.

Lemma before_order_scan_drives software start drives :
  emits before_order (scan_drives w software start drives).
Proof.
  induction drives as [|drive rest IH]; cbn [scan_drives]; unfold search_drive; emits_tac.
Qed.

Lemma before_order_retry_loop fuel cfg rc : emits before_order (retry_loop w fuel cfg rc).
Proof.
  pose proof before_order_scan_drives.
  revert rc. induction fuel as [|fuel IH]; intros rc; cbn [retry_loop];
    unfold connect_attempt, run_application, is_process_running, attach_session; emits_tac.
Qed.

Lemma before_order_new_SapGui fuel args : emits before_order (new_SapGui w fuel args).
Proof.
  pose proof before_order_retry_loop.
  unfold new_SapGui, SapGui__init__, _initialize_connection, _setup_logging.
  emits_tac; apply emits_silent; reflexivity.
Qed.

Lemma before_order_wait_loop fuel timeout start :
  emits before_order (wait_loop w fuel "wnd[0]/usr/ctxtVBAK-AUART" timeout start).
Proof.
  induction fuel as [|fuel IH]; cbn [wait_loop]; emits_tac.
Qed.

Lemma before_order_perform_operation fuel :
  emits before_order
    (perform_operation w fuel "/nVA01" (Some "wnd[0]/usr/ctxtVBAK-AUART") DEFAULT_TIMEOUT).
Proof.
  pose proof before_order_wait_loop.
  unfold perform_operation, wait_for_element. emits_tac.
Qed.

Lemma before_order_main_finally : emits before_order (main_finally w).
Proof.
  unfold main_finally, sapLogout, close_connection.
  emits_tac; apply emits_silent; intros st; unfold read_sap; destruct (sap_bound st);
    reflexivity.
Qed.

Lemma no_order_sapLogin : emits no_order (sapLogin w).
Proof.
  unfold sapLogin, sapLogin_try, submit_credentials, handle_password_change,
    generate_password, randrange, now_strftime, _handle_multiple_login, _verify_login,
    close_connection.
  emits_tac.
Qed.

End Order.

Lemma order_app_l q t :
  forallb before_order q = true -> order_after_login t -> order_after_login (q ++ t).
Proof.
  intros Hq H. apply before_order_trace in Hq as [Q1 Q2].
  unfold order_after_login. rewrite invocations_app, indicator_lookups_app, Q1, Q2.
  exact H.
Qed.

Lemma order_app_r q t :
  forallb before_order q = true -> order_after_login t -> order_after_login (t ++ q).
Proof.
  intros Hq H. apply before_order_trace in Hq as [Q1 Q2].
  unfold order_after_login.
  rewrite invocations_app, indicator_lookups_app, Q1, Q2, Nat.add_0_r, app_nil_r.
  exact H.
Qed.

Lemma order_quiet q : forallb before_order q = true -> order_after_login q.
Proof.
  intros Hq. apply before_order_trace in Hq as [Q1 Q2].
  right. rewrite Q1, Q2. split; [reflexivity | discriminate].
Qed.

Lemma create_sales_order_entered w fuel st :
  invocations "create_sales_order" (trace_of (create_sales_order w fuel st)) = 1%nat /\
  indicator_lookups (trace_of (create_sales_order w fuel st)) = [].
Proof.
  assert (H : emits before_order
                (try_except
                   (perform_operation w fuel "/nVA01" (Some "wnd[0]/usr/ctxtVBAK-AUART")
                      DEFAULT_TIMEOUT ;;
                    ext w (input "Press Enter after VA01 transaction is open...") ;;
                    ret (Some "Order created successfully"))
                   (fun e =>
                      logging ERROR ("Failed to create sales order: " ++ str e) ;;
                      ret None))).
  { pose proof (before_order_perform_operation w fuel). emits_tac. }
  specialize (H st). unfold create_sales_order, bind, enter.
  destruct (try_except _ _ st) as [[r st1] t1]. projs.
  apply before_order_trace in H as [H1 H2].
  change (Entered "create_sales_order" :: t1)
    with ([Entered "create_sales_order"] ++ t1)%list.
  rewrite invocations_app, indicator_lookups_app, H1, H2. split; reflexivity.
Qed.

Lemma main_try_order w fuel st :
  order_after_login (trace_of (main_try w fuel st)).
Proof.
  unfold main_try. unfold bind at 1.
  pose proof (before_order_new_SapGui w fuel get_sap_config st) as Q1.
  assert (B1 : forall u, result_of (new_SapGui w fuel get_sap_config st) = Ok u ->
                         sap_bound (state_of (new_SapGui w fuel get_sap_config st)) = true).
  { unfold new_SapGui, bind. cbv beta iota zeta.
    destruct (SapGui__init__ w fuel get_sap_config _) as [[[[]|e|] s1] t1]; projs;
      intros u H; [reflexivity | discriminate | discriminate]. }
  destruct (new_SapGui w fuel get_sap_config st) as [[[u|e|] st1] t1]; projs;
    try (apply order_quiet; exact Q1).
  specialize (B1 u eq_refl).
  unfold bind at 1. rewrite read_sap_run, B1. cbv beta iota zeta.
  unfold bind at 1.
  pose proof (no_order_sapLogin w st1) as N2.
  destruct (sapLogin w st1) as [[r2 st2] t2] eqn:E2.
  destruct (sapLogin_verified w st1 _ _ _ E2) as (R2 & V2 & _ & B2).
  projs. apply no_order_trace in N2.
  destruct R2 as [-> | ->]; cbn [negb]; cbv beta iota zeta.
  2:{ unfold raise. cbn [snd app]. apply order_app_l; [exact Q1 |].
      rewrite app_nil_r. right. split; [exact N2 |].
      intros H. apply V2 in H. discriminate. }
  unfold bind at 1. rewrite read_sap_run, B2, B1. cbv beta iota zeta.
  unfold bind.
  destruct (create_sales_order_entered w fuel st2) as [C1 C2].
  destruct (create_sales_order w fuel st2) as [[r3 st3] t3]. projs.
  assert (T : order_after_login (t2 ++ t3)).
  { left. rewrite invocations_app, indicator_lookups_app, N2, C1, C2, app_nil_r.
    split; [reflexivity | now apply V2]. }
  destruct r3 as [[[|c rest]|]| |]; unfold logging, ret; cbv beta iota zeta;
    cbn [snd app]; apply order_app_l; try exact Q1; rewrite ?app_nil_r; try exact T.
  rewrite app_assoc. apply order_app_r; [reflexivity | exact T].
Qed.

(** X22. In every run of [main] the business step follows a verified
    login: [create_sales_order] is entered at most once, and it is entered
    exactly when the lookup of the logged-in indicator was made once and
    found the element.  So it is not entered when the construction of
    [SapGui] or the login failed, and it is entered whenever the login
    returned [True]. *)
Theorem order_follows_login (w : World) (fuel : nat) (st : State) :
  let t := trace_of (main w fuel st) in
  (invocations "create_sales_order" t = 1%nat /\ indicator_lookups t = [true]) \/
  (invocations "create_sales_order" t = 0%nat /\ indicator_lookups t <> [true]).
Proof.
  cbv zeta. change (order_after_login (trace_of (main w fuel st))).
  unfold main, enter, logging_basicConfig, try_finally, try_except, logging.
  unfold bind at 1 2. cbv beta iota zeta.
  pose proof (main_try_order w fuel st) as T.
  destruct (main_try w fuel st) as [[r1 st1] t1]. projs.
  assert (F : forall s, forallb before_order (trace_of (main_finally w s)) = true)
    by (intros s; apply before_order_main_finally).
  destruct r1 as [[]|e|]; cbv beta iota zeta.
  - specialize (F st1). destruct (main_finally w st1) as [[[[]|e'|] s2] t2]; projs;
      repeat (apply order_app_l; [reflexivity |]); apply order_app_r; assumption.
  - specialize (F st1). destruct (main_finally w st1) as [[[[]|e'|] s2] t2]; projs;
      repeat (apply order_app_l; [reflexivity |]);
      (apply order_app_r; [exact F | apply order_app_r; [reflexivity | exact T]]).
  - projs. repeat (apply order_app_l; [reflexivity |]). exact T.
Qed.

(** X23. [create_sales_order] never raises.  It returns the message
    "Order created successfully" only when the last lookup of the order
    type field of transaction VA01 returned something true and the prompt
    was answered; in every other case it returns [None] and has logged an
    error that starts with "Failed to create sales order: ".  In a world
    that lets time pass the model does not run out of fuel with fuel above
    the default timeout. *)
Theorem create_sales_order_outcome (w : World) (fuel : nat) (st : State) :
  let x := create_sales_order w fuel st in
  let t := trace_of x in
  match result_of x with
  | Ok (Some message) =>
      message = "Order created successfully" /\
      (exists l, answers "wnd[0]/usr/ctxtVBAK-AUART" t = (l ++ [true])%list) /\
      exists v, In (Ev (input "Press Enter after VA01 transaction is open...") (Returns v)) t
  | Ok None =>
      exists msg, In ("Failed to create sales order: " ++ msg) (messages ERROR t)
  | Raise _ => False
  | OutOfFuel => ~ (responsive w /\ DEFAULT_TIMEOUT < Z.of_nat fuel)
  end.
Proof.
  cbv zeta.
  pose proof (perform_operation_found w fuel "/nVA01" (Some "wnd[0]/usr/ctxtVBAK-AUART")
                DEFAULT_TIMEOUT st) as F.
  assert (O : responsive w /\ DEFAULT_TIMEOUT < Z.of_nat fuel ->
              result_of (perform_operation w fuel "/nVA01"
                           (Some "wnd[0]/usr/ctxtVBAK-AUART") DEFAULT_TIMEOUT st)
              <> OutOfFuel).
  { intros [Hw Hf].
    apply (tame_perform_operation w Hw fuel "/nVA01" (Some "wnd[0]/usr/ctxtVBAK-AUART")
             DEFAULT_TIMEOUT); unfold DEFAULT_TIMEOUT in *; lia. }
  revert F O.
  unfold create_sales_order, enter, try_except, bind, ext, logging, ret.
  cbv beta iota zeta.
  destruct (perform_operation w fuel "/nVA01" _ DEFAULT_TIMEOUT st) as [[[b|e|] st1] t1];
    unfold result_of, trace_of; cbn [fst snd]; intros F O.
  - destruct (F b eq_refl) as [_ F'].
    destruct (F' _ eq_refl ltac:(discriminate)) as [l Hl].
    destruct (script w (tick st1)) as [v|e] eqn:E; cbv beta iota zeta; cbn [fst snd].
    + split; [reflexivity |]. split.
      * exists l. rewrite app_nil_r.
        change (Entered "create_sales_order" :: (t1 ++ [?e])%list)
          with ([Entered "create_sales_order"] ++ t1 ++ [e])%list.
        rewrite !answers_app, Hl. cbn. rewrite app_nil_r. reflexivity.
      * exists v. apply in_or_app. right. apply in_or_app. right. left. reflexivity.
    + exists (str e). apply in_flat_map.
      exists (Logged ERROR ("Failed to create sales order: " ++ str e)).
      split; [| left; reflexivity].
      rewrite ?app_nil_r. repeat (apply in_or_app; right). left. reflexivity.
  - exists (str e). apply in_flat_map.
    exists (Logged ERROR ("Failed to create sales order: " ++ str e)).
    split; [| left; reflexivity].
    rewrite ?app_nil_r. repeat (apply in_or_app; right). left. reflexivity.
  - intros H. exact (O H eq_refl).
Qed.
